(** * The incremental JPEG decode driver of samples/chromium_integration

    A shallow embedding of [JPEGRsImageDecoder] (jpeg_image_decoder.h,
    jpeg_image_decoder.cc): the driver that feeds a progressively growing
    byte buffer to the Rust decode engine, extracts the metadata, and lets
    the engine write the pixels into the host's frame buffer.

    The decode engine (behind the CXX bridge) and the host framework (the
    [ImageDecoder] base class) are collaborators whose code is outside the
    driver; the engine is an interface ([JpegRsEngine]), the host's
    policies are parameters ([HostPolicy]). *)

From Stdlib Require Import ZArith Lia Bool.
From Stdlib Require Import Strings.Byte.
From stdpp Require Import base tactics option list.

Local Open Scope Z_scope.

(** ** Machine integers *)

(** [size_t] is taken to be 64 bits wide; unsigned arithmetic wraps. *)
Definition size_t_bits : Z := 64.
Definition wrap_size (z : Z) : Z := z mod 2 ^ size_t_bits.
Definition wrap_u32 (z : Z) : Z := z mod 2 ^ 32.

#[global] Instance byte_eq_decision : EqDecision byte := Byte.byte_eq_dec.

(** Maximum decoded pixels (same as JXL decoder for consistency). *)
Definition kMaxDecodedPixels : Z := 1024 * 1024 * 1024.

(** ** Types of the CXX bridge *)

Inductive JpegRsStatus := Success | NeedMoreInput | Error.

Inductive JpegRsPixelFormat := Bgra8.

Record JpegRsProcessResult := {
  status : JpegRsStatus;
  bytes_consumed : Z
}.

Record JpegRsBasicInfo := {
  width : Z;
  height : Z;
  bits_per_sample : Z
}.

Definition status_eqb (a b : JpegRsStatus) : bool :=
  match a, b with
  | Success, Success | NeedMoreInput, NeedMoreInput | Error, Error => true
  | _, _ => false
  end.

(** The decode engine: an opaque value of type [E] holds its internal
    state; every method that takes [&mut self] returns the next state.
    [decode_image_with_stride] also returns the new content of the output
    view it was handed. *)
Class JpegRsEngine (E : Type) := {
  jpeg_rs_decoder_create : Z -> E;
  jpeg_rs_signature_check : list byte -> bool;
  parse_headers : E -> list byte -> bool -> JpegRsProcessResult * E;
  get_basic_info : E -> JpegRsBasicInfo;
  set_pixel_format : E -> JpegRsPixelFormat -> E;
  get_icc_profile : E -> list byte;
  decode_image_with_stride :
    E -> list byte -> bool -> list byte -> Z ->
    JpegRsProcessResult * E * list byte
}.

(** Modelled from the spec: an engine operation consumes no more than
    the bytes it is offered ("bytesConsumed >= 0, <= bytes offered in this
    call"). *)
Class EngineContract (E : Type) {engine : JpegRsEngine E} : Prop := {
  parse_headers_consumed : forall e d a,
    0 <= bytes_consumed (parse_headers e d a).1 <= Z.of_nat (length d);
  decode_image_consumed : forall e d a view stride,
    0 <= bytes_consumed (decode_image_with_stride e d a view stride).1.1
      <= Z.of_nat (length d)
}.

(** ** The host: [ImageFrame] and the [ImageDecoder] base class *)

(** Modelled from the spec: the per-frame status is Incomplete or
    Complete; the driver itself only names [kFrameComplete]. *)
Inductive FrameStatus := kFrameIncomplete | kFrameComplete.

Definition FrameStatus_eqb (a b : FrameStatus) : bool :=
  match a, b with
  | kFrameIncomplete, kFrameIncomplete | kFrameComplete, kFrameComplete => true
  | _, _ => false
  end.

(** A frame of the host's cache.  [pixels_] is the pixel memory of the
    frame's bitmap ([None]: [getPixels()] is null), [row_bytes_] its
    stride. *)
Record ImageFrame := {
  has_alpha_ : bool;
  pixels_changed_ : bool;
  frame_status_ : FrameStatus;
  original_frame_rect_ : Z * Z;
  required_previous_frame_index_ : option nat;
  pixels_ : option (list byte);
  row_bytes_ : Z
}.

(** A default-constructed frame, as [frame_buffer_cache_.resize(1)] makes. *)
Definition ImageFrame_default : ImageFrame :=
  {| has_alpha_ := true; pixels_changed_ := false;
     frame_status_ := kFrameIncomplete; original_frame_rect_ := (0, 0);
     required_previous_frame_index_ := None;
     pixels_ := None; row_bytes_ := 0 |}.

Definition SetHasAlpha (b : bool) (f : ImageFrame) : ImageFrame :=
  {| has_alpha_ := b; pixels_changed_ := pixels_changed_ f;
     frame_status_ := frame_status_ f;
     original_frame_rect_ := original_frame_rect_ f;
     required_previous_frame_index_ := required_previous_frame_index_ f;
     pixels_ := pixels_ f; row_bytes_ := row_bytes_ f |}.

Definition SetPixelsChanged (b : bool) (f : ImageFrame) : ImageFrame :=
  {| has_alpha_ := has_alpha_ f; pixels_changed_ := b;
     frame_status_ := frame_status_ f;
     original_frame_rect_ := original_frame_rect_ f;
     required_previous_frame_index_ := required_previous_frame_index_ f;
     pixels_ := pixels_ f; row_bytes_ := row_bytes_ f |}.

Definition SetStatus (st : FrameStatus) (f : ImageFrame) : ImageFrame :=
  {| has_alpha_ := has_alpha_ f; pixels_changed_ := pixels_changed_ f;
     frame_status_ := st;
     original_frame_rect_ := original_frame_rect_ f;
     required_previous_frame_index_ := required_previous_frame_index_ f;
     pixels_ := pixels_ f; row_bytes_ := row_bytes_ f |}.

Definition SetOriginalFrameRect (r : Z * Z) (f : ImageFrame) : ImageFrame :=
  {| has_alpha_ := has_alpha_ f; pixels_changed_ := pixels_changed_ f;
     frame_status_ := frame_status_ f;
     original_frame_rect_ := r;
     required_previous_frame_index_ := required_previous_frame_index_ f;
     pixels_ := pixels_ f; row_bytes_ := row_bytes_ f |}.

Definition SetRequiredPreviousFrameIndex (i : option nat) (f : ImageFrame)
  : ImageFrame :=
  {| has_alpha_ := has_alpha_ f; pixels_changed_ := pixels_changed_ f;
     frame_status_ := frame_status_ f;
     original_frame_rect_ := original_frame_rect_ f;
     required_previous_frame_index_ := i;
     pixels_ := pixels_ f; row_bytes_ := row_bytes_ f |}.

(** The engine wrote into the bitmap's memory. *)
Definition set_pixels (p : list byte) (f : ImageFrame) : ImageFrame :=
  {| has_alpha_ := has_alpha_ f; pixels_changed_ := pixels_changed_ f;
     frame_status_ := frame_status_ f;
     original_frame_rect_ := original_frame_rect_ f;
     required_previous_frame_index_ := required_previous_frame_index_ f;
     pixels_ := Some p; row_bytes_ := row_bytes_ f |}.

Definition ColorProfile : Type := list byte.

(** The state the driver inherits from [ImageDecoder]:
    the accumulated input and the all-data-received flag, the terminal
    failure flag, the accepted size, the frame cache, the embedded colour
    profile, and whether the caller's colour behaviour ignores profiles. *)
Record ImageDecoder := {
  data_ : list byte;
  is_all_data_received_ : bool;
  failed_ : bool;
  size_available_ : bool;
  size_ : Z * Z;
  frame_buffer_cache_ : list ImageFrame;
  embedded_color_profile_ : option ColorProfile;
  ignores_color_space_ : bool
}.

(** What the host decides: which dimensions [SetSize] accepts, what
    [InitFrameBuffer] does to the frame it is asked to set up (with the
    accepted size at hand) and whether it succeeds, and which profile
    bytes [ColorProfile::Create] accepts. *)
Class HostPolicy := {
  size_policy : Z -> Z -> bool;
  host_init_frame : Z * Z -> ImageFrame -> bool * ImageFrame;
  ColorProfile_Create : list byte -> option ColorProfile
}.

Definition set_data (d : list byte) (all : bool) (b : ImageDecoder)
  : ImageDecoder :=
  {| data_ := d; is_all_data_received_ := all; failed_ := failed_ b;
     size_available_ := size_available_ b; size_ := size_ b;
     frame_buffer_cache_ := frame_buffer_cache_ b;
     embedded_color_profile_ := embedded_color_profile_ b;
     ignores_color_space_ := ignores_color_space_ b |}.

Definition set_failed (b : ImageDecoder) : ImageDecoder :=
  {| data_ := data_ b; is_all_data_received_ := is_all_data_received_ b;
     failed_ := true;
     size_available_ := size_available_ b; size_ := size_ b;
     frame_buffer_cache_ := frame_buffer_cache_ b;
     embedded_color_profile_ := embedded_color_profile_ b;
     ignores_color_space_ := ignores_color_space_ b |}.

Definition set_size (w h : Z) (b : ImageDecoder) : ImageDecoder :=
  {| data_ := data_ b; is_all_data_received_ := is_all_data_received_ b;
     failed_ := failed_ b;
     size_available_ := true; size_ := (w, h);
     frame_buffer_cache_ := frame_buffer_cache_ b;
     embedded_color_profile_ := embedded_color_profile_ b;
     ignores_color_space_ := ignores_color_space_ b |}.

Definition set_frame_buffer_cache (c : list ImageFrame) (b : ImageDecoder)
  : ImageDecoder :=
  {| data_ := data_ b; is_all_data_received_ := is_all_data_received_ b;
     failed_ := failed_ b;
     size_available_ := size_available_ b; size_ := size_ b;
     frame_buffer_cache_ := c;
     embedded_color_profile_ := embedded_color_profile_ b;
     ignores_color_space_ := ignores_color_space_ b |}.

Definition set_embedded_color_profile (p : ColorProfile) (b : ImageDecoder)
  : ImageDecoder :=
  {| data_ := data_ b; is_all_data_received_ := is_all_data_received_ b;
     failed_ := failed_ b;
     size_available_ := size_available_ b; size_ := size_ b;
     frame_buffer_cache_ := frame_buffer_cache_ b;
     embedded_color_profile_ := Some p;
     ignores_color_space_ := ignores_color_space_ b |}.

(** [FastSharedBufferReader]: [size()] and [GetConsecutiveData].  A read
    that leaves the buffer does not return (the reader checks its bounds);
    that is [None]. *)
Definition reader_size (d : list byte) : Z := Z.of_nat (length d).

Definition GetConsecutiveData (d : list byte) (pos len : Z)
  : option (list byte) :=
  if (0 <=? pos) && (0 <=? len) && (pos + len <=? reader_size d)
  then Some (take (Z.to_nat len) (drop (Z.to_nat pos) d))
  else None.

(** ** The driver's own state *)

Inductive DecoderState :=
  kInitial | kHaveBasicInfo | kDecoding | kComplete | kError.

(** The calls the driver makes on the engine and on the host, in the
    order it makes them.  This log is ghost state: the code keeps no such
    list; an entry is recorded exactly where the source has the call.  The
    most recent call is at the head. *)
Inductive Event :=
  | EvCreate (max_pixels : Z)
  | EvParseHeaders (input : list byte) (all_input : bool)
      (result : JpegRsProcessResult)
  | EvGetBasicInfo
  | EvSetSize (w h : Z) (accepted : bool)
  | EvSetPixelFormat (format : JpegRsPixelFormat)
  | EvGetIccProfile
  | EvSetEmbeddedColorProfile
  | EvInitFrameBuffer (index : nat) (ok : bool)
  | EvDecodeImage (input : list byte) (all_input : bool) (stride : Z)
      (result : JpegRsProcessResult)
  | EvSetFailed.

Record JPEGRsImageDecoder (E : Type) := {
  base : ImageDecoder;
  decoder_ : option E;
  decoder_state_ : DecoderState;
  basic_info_ : JpegRsBasicInfo;
  have_metadata_ : bool;
  is_high_bit_depth_ : bool;
  input_offset_ : Z;
  calls_ : list Event
}.
Arguments base {E} _.
Arguments decoder_ {E} _.
Arguments decoder_state_ {E} _.
Arguments basic_info_ {E} _.
Arguments have_metadata_ {E} _.
Arguments is_high_bit_depth_ {E} _.
Arguments input_offset_ {E} _.
Arguments calls_ {E} _.

Section Setters.
Context {E : Type}.
Implicit Type s : JPEGRsImageDecoder E.

Definition upd_base (f : ImageDecoder -> ImageDecoder) s
  : JPEGRsImageDecoder E :=
  {| base := f (base s); decoder_ := decoder_ s;
     decoder_state_ := decoder_state_ s; basic_info_ := basic_info_ s;
     have_metadata_ := have_metadata_ s;
     is_high_bit_depth_ := is_high_bit_depth_ s;
     input_offset_ := input_offset_ s; calls_ := calls_ s |}.

Definition set_decoder (e : E) s : JPEGRsImageDecoder E :=
  {| base := base s; decoder_ := Some e;
     decoder_state_ := decoder_state_ s; basic_info_ := basic_info_ s;
     have_metadata_ := have_metadata_ s;
     is_high_bit_depth_ := is_high_bit_depth_ s;
     input_offset_ := input_offset_ s; calls_ := calls_ s |}.

Definition set_decoder_state (st : DecoderState) s : JPEGRsImageDecoder E :=
  {| base := base s; decoder_ := decoder_ s;
     decoder_state_ := st; basic_info_ := basic_info_ s;
     have_metadata_ := have_metadata_ s;
     is_high_bit_depth_ := is_high_bit_depth_ s;
     input_offset_ := input_offset_ s; calls_ := calls_ s |}.

Definition set_basic_info (i : JpegRsBasicInfo) s : JPEGRsImageDecoder E :=
  {| base := base s; decoder_ := decoder_ s;
     decoder_state_ := decoder_state_ s; basic_info_ := i;
     have_metadata_ := have_metadata_ s;
     is_high_bit_depth_ := is_high_bit_depth_ s;
     input_offset_ := input_offset_ s; calls_ := calls_ s |}.

Definition set_have_metadata (b : bool) s : JPEGRsImageDecoder E :=
  {| base := base s; decoder_ := decoder_ s;
     decoder_state_ := decoder_state_ s; basic_info_ := basic_info_ s;
     have_metadata_ := b;
     is_high_bit_depth_ := is_high_bit_depth_ s;
     input_offset_ := input_offset_ s; calls_ := calls_ s |}.

Definition set_is_high_bit_depth (b : bool) s : JPEGRsImageDecoder E :=
  {| base := base s; decoder_ := decoder_ s;
     decoder_state_ := decoder_state_ s; basic_info_ := basic_info_ s;
     have_metadata_ := have_metadata_ s;
     is_high_bit_depth_ := b;
     input_offset_ := input_offset_ s; calls_ := calls_ s |}.

Definition set_input_offset (o : Z) s : JPEGRsImageDecoder E :=
  {| base := base s; decoder_ := decoder_ s;
     decoder_state_ := decoder_state_ s; basic_info_ := basic_info_ s;
     have_metadata_ := have_metadata_ s;
     is_high_bit_depth_ := is_high_bit_depth_ s;
     input_offset_ := o; calls_ := calls_ s |}.

Definition record (ev : Event) s : JPEGRsImageDecoder E :=
  {| base := base s; decoder_ := decoder_ s;
     decoder_state_ := decoder_state_ s; basic_info_ := basic_info_ s;
     have_metadata_ := have_metadata_ s;
     is_high_bit_depth_ := is_high_bit_depth_ s;
     input_offset_ := input_offset_ s; calls_ := ev :: calls_ s |}.

(** [input_offset_ += n] on [size_t]. *)
Definition add_input_offset (n : Z) s : JPEGRsImageDecoder E :=
  set_input_offset (wrap_size (input_offset_ s + n)) s.

(** *** The host's methods, as the driver calls them *)

(** The host's terminal failure signal. *)
Definition Failed s : bool := failed_ (base s).

Definition SetFailed s : JPEGRsImageDecoder E :=
  record EvSetFailed (upd_base set_failed s).

(** A size has been accepted and the session has not failed. *)
Definition IsDecodedSizeAvailable s : bool :=
  negb (failed_ (base s)) && size_available_ (base s).

Definition IsAllDataReceived s : bool := is_all_data_received_ (base s).

Definition IgnoresColorSpace s : bool := ignores_color_space_ (base s).

Definition SetEmbeddedColorProfile (p : ColorProfile) s
  : JPEGRsImageDecoder E :=
  record EvSetEmbeddedColorProfile (upd_base (set_embedded_color_profile p) s).

Definition Size s : Z * Z := size_ (base s).

Definition frames s : list ImageFrame := frame_buffer_cache_ (base s).

Definition set_frames (c : list ImageFrame) s : JPEGRsImageDecoder E :=
  upd_base (set_frame_buffer_cache c) s.

(** The host hands the driver the bytes received so far. *)
Definition SetData (d : list byte) (all : bool) s : JPEGRsImageDecoder E :=
  upd_base (set_data d all) s.
End Setters.

(** A session before its first decode call, as the constructor and the
    member initialisers leave it. *)
Definition new_JPEGRsImageDecoder (E : Type) (ignore_color_space : bool)
  : JPEGRsImageDecoder E :=
  {| base := {| data_ := []; is_all_data_received_ := false;
                failed_ := false; size_available_ := false; size_ := (0, 0);
                frame_buffer_cache_ := [];
                embedded_color_profile_ := None;
                ignores_color_space_ := ignore_color_space |};
     decoder_ := None;
     decoder_state_ := kInitial;
     basic_info_ := {| width := 0; height := 0; bits_per_sample := 0 |};
     have_metadata_ := false;
     is_high_bit_depth_ := false;
     input_offset_ := 0;
     calls_ := [] |}.

(** The bytes the engine returned for the view it was given, clipped to
    the view: a bounded view cannot grow, and what the engine did not
    return stays as it was. *)
Definition overwrite (view out : list byte) : list byte :=
  take (length view) out ++ drop (length out) view.

Section Driver.
Context {E : Type} {engine : JpegRsEngine E} {host : HostPolicy}.
Implicit Type s : JPEGRsImageDecoder E.

(** Modelled from the spec: [SetSize] is the host's, inherited from the
    [ImageDecoder] base class and not among the sources.  It validates
    the reported dimensions against the host's size policy and records
    them when it accepts them.  A rejection is a terminal failure of the
    host's own: [SetSize] marks the decoder failed before it returns
    false, and the driver, which returns at once, propagates it. *)
Definition SetSize (w h : Z) s : bool * JPEGRsImageDecoder E :=
  if size_policy w h
  then (true, record (EvSetSize w h true) (upd_base (set_size w h) s))
  else (false, record (EvSetSize w h false) (upd_base set_failed s)).

(** [InitFrameBuffer(i)]: the host sets up the frame at index [i]. *)
Definition InitFrameBuffer (i : nat) s
  : option (bool * JPEGRsImageDecoder E) :=
  f ← frames s !! i;
  let '(ok, f') := host_init_frame (Size s) f in
  Some (ok, record (EvInitFrameBuffer i ok)
              (set_frames (<[i:=f']> (frames s)) s)).

Definition MatchesJPEGSignature (fast_reader : list byte) : option bool :=
  if reader_size fast_reader <? 4 then Some false
  else
    data ← GetConsecutiveData fast_reader 0 4;
    Some (jpeg_rs_signature_check data).

Definition DecodeFrameCount s : nat := 1.

Definition InitializeNewFrame (index : nat) s
  : option (JPEGRsImageDecoder E) :=
  buffer ← frames s !! index;
  let buffer := SetHasAlpha false buffer in
  let buffer := SetOriginalFrameRect (Size s) buffer in
  let buffer := SetRequiredPreviousFrameIndex None buffer in
  Some (set_frames (<[index:=buffer]> (frames s)) s).

(** The frame the pixel stage works on: frame 0 of the cache, or the
    default frame the stage puts there when the cache is empty. *)
Definition first_frame s : ImageFrame :=
  match frames s with
  | [] => ImageFrame_default
  | f :: _ => f
  end.

(** The output view the engine is handed: [row_stride * height] bytes
    of the frame's pixel memory. *)
Definition output_view (frame : ImageFrame) (frame_pixels : list byte) s
  : list byte :=
  take (Z.to_nat (wrap_size (row_bytes_ frame
                             * wrap_u32 (height (basic_info_ s)))))
    frame_pixels.

(** [case DecoderState::kHaveBasicInfo] of [Decode], entered with the
    engine [e] and the input slice of this call. *)
Definition Decode_HaveBasicInfo (e : E) (input_slice : list byte)
    (all_input : bool) s : option (JPEGRsImageDecoder E) :=
  let s := if decide (frames s = []) then set_frames [ImageFrame_default] s
           else s in
  '(ok, s) ← InitFrameBuffer 0 s;
  if negb ok then Some (SetFailed s)
  else
    frame ← frames s !! 0%nat;
    let frame := SetHasAlpha false frame in
    let s := set_frames (<[0%nat:=frame]> (frames s)) s in
    let height := wrap_u32 (height (basic_info_ s)) in
    let row_stride := row_bytes_ frame in
    match pixels_ frame with
    | None => Some (SetFailed s)
    | Some frame_pixels =>
      let buffer_size := wrap_size (row_stride * height) in
      let output_slice := take (Z.to_nat buffer_size) frame_pixels in
      let '(result, e, out) :=
        decode_image_with_stride e input_slice all_input output_slice
          row_stride in
      let frame :=
        set_pixels (overwrite output_slice out
                      ++ drop (length output_slice) frame_pixels) frame in
      let s := set_frames (<[0%nat:=frame]> (frames s)) s in
      let s := record (EvDecodeImage input_slice all_input row_stride result)
                 (set_decoder e s) in
      match status result with
      | Error => Some (SetFailed s)
      | NeedMoreInput =>
        let s := add_input_offset (bytes_consumed result) s in
        let frame := SetPixelsChanged true frame in
        Some (set_frames (<[0%nat:=frame]> (frames s)) s)
      | Success =>
        let s := add_input_offset (bytes_consumed result) s in
        let frame := SetPixelsChanged true frame in
        let frame := SetStatus kFrameComplete frame in
        let s := set_frames (<[0%nat:=frame]> (frames s)) s in
        Some (set_decoder_state kComplete s)
      end
    end.

(** The metadata extractor: what [case DecoderState::kInitial] does
    between an accepted [SetSize] and the test of [only_size]. *)
Definition extract_metadata (e : E) s : E * JPEGRsImageDecoder E :=
  let s := if bits_per_sample (basic_info_ s) >? 8
           then set_is_high_bit_depth true s else s in
  let e := set_pixel_format e Bgra8 in
  let s := record (EvSetPixelFormat Bgra8) (set_decoder e s) in
  let s :=
    if negb (IgnoresColorSpace s) then
      let icc_data := get_icc_profile e in
      let s := record EvGetIccProfile s in
      if negb (bool_decide (icc_data = [])) then
        match ColorProfile_Create icc_data with
        | Some profile => SetEmbeddedColorProfile profile s
        | None => s
        end
      else s
    else s in
  let s := set_have_metadata true s in
  (e, set_decoder_state kHaveBasicInfo s).

(** [case DecoderState::kInitial] of [Decode]; on the full-decode path
    it falls through into the next case with the same input slice. *)
Definition Decode_Initial (only_size : bool) (e : E)
    (input_slice : list byte) (all_input : bool) s
  : option (JPEGRsImageDecoder E) :=
  let '(result, e) := parse_headers e input_slice all_input in
  let s := record (EvParseHeaders input_slice all_input result)
             (set_decoder e s) in
  match status result with
  | Error => Some (SetFailed s)
  | NeedMoreInput => Some (add_input_offset (bytes_consumed result) s)
  | Success =>
    let s := record EvGetBasicInfo (set_basic_info (get_basic_info e) s) in
    let s := add_input_offset (bytes_consumed result) s in
    let '(ok, s) :=
      SetSize (width (basic_info_ s)) (height (basic_info_ s)) s in
    if negb ok then Some s
    else
      let '(e, s) := extract_metadata e s in
      if only_size then Some s
      else Decode_HaveBasicInfo e input_slice all_input s
  end.

(** The frame at [index] exists and is complete. *)
Definition frame_complete (index : nat) s : bool :=
  match frames s !! index with
  | Some f => FrameStatus_eqb (frame_status_ f) kFrameComplete
  | None => false
  end.

(** "Create decoder if needed": the engine to use and the session that
    holds it. *)
Definition ensure_decoder s : E * JPEGRsImageDecoder E :=
  match decoder_ s with
  | Some e => (e, s)
  | None =>
    let e := jpeg_rs_decoder_create kMaxDecodedPixels in
    (e, record (EvCreate kMaxDecodedPixels)
          (set_input_offset 0 (set_decoder_state kInitial (set_decoder e s))))
  end.

(** [Decode(index, only_size)].  [None]: the call does not return (a
    read outside the input buffer). *)
Definition Decode (index : nat) (only_size : bool) s
  : option (JPEGRsImageDecoder E) :=
  if Failed s then Some s
  else if only_size && IsDecodedSizeAvailable s && have_metadata_ s
  then Some s
  else if negb only_size && frame_complete index s then Some s
  else
    let data_size := reader_size (data_ (base s)) in
    let '(e, s) := ensure_decoder s in
    let remaining := wrap_size (data_size - input_offset_ s) in
    if remaining >? 0 then
      input_slice ←
        GetConsecutiveData (data_ (base s)) (input_offset_ s) remaining;
      let all_input := IsAllDataReceived s in
      match decoder_state_ s with
      | kInitial => Decode_Initial only_size e input_slice all_input s
      | kHaveBasicInfo => Decode_HaveBasicInfo e input_slice all_input s
      | kComplete => Some s
      | kError | kDecoding => Some s
      end
    else Some s.

Definition DecodeSize s : option (JPEGRsImageDecoder E) := Decode 0 true s.

(** The engine a call works with, and the unconsumed suffix of the
    input it reads. *)
Definition current_engine s : E := (ensure_decoder s).1.

Definition pending_input s : list byte :=
  drop (Z.to_nat (input_offset_ s)) (data_ (base s)).

(** The session at the point of [case kInitial] where [SetSize] has
    accepted the dimensions the engine [e] reports after its header
    parse returned [result]. *)
Definition header_accepted (input_slice : list byte) (all_input : bool)
    (result : JpegRsProcessResult) (e : E) s : JPEGRsImageDecoder E :=
  let s := record (EvParseHeaders input_slice all_input result)
             (set_decoder e s) in
  let s := record EvGetBasicInfo (set_basic_info (get_basic_info e) s) in
  let s := add_input_offset (bytes_consumed result) s in
  record (EvSetSize (width (basic_info_ s)) (height (basic_info_ s)) true)
    (upd_base (set_size (width (basic_info_ s)) (height (basic_info_ s))) s).

(** The same point when [SetSize] has rejected them. *)
Definition header_rejected (input_slice : list byte) (all_input : bool)
    (result : JpegRsProcessResult) (e : E) s : JPEGRsImageDecoder E :=
  let s := record (EvParseHeaders input_slice all_input result)
             (set_decoder e s) in
  let s := record EvGetBasicInfo (set_basic_info (get_basic_info e) s) in
  let s := add_input_offset (bytes_consumed result) s in
  record (EvSetSize (width (basic_info_ s)) (height (basic_info_ s)) false)
    (upd_base set_failed s).

(** The early exits of [Decode]: the three tests it starts with. *)
Definition returns_at_once (index : nat) (only_size : bool) s : bool :=
  Failed s
  || (only_size && IsDecodedSizeAvailable s && have_metadata_ s)
  || (negb only_size && frame_complete index s).

Definition DecodeFrame (index : nat) s : option (JPEGRsImageDecoder E) :=
  Decode index false s.
End Driver.

(** ** Sessions as the host drives them *)

(** What the host does with a session between its creation and its end:
    it delivers more bytes (the accumulated buffer only grows;
    [OnSetData] itself does nothing), sizes the frame cache to
    [DecodeFrameCount()] frames and initialises the new frame, asks for
    the size, or asks for the frame at [index]. *)
Inductive Call :=
  | Deliver (chunk : list byte) (all_data_received : bool)
  | PrepareFrames
  | CallDecodeSize
  | CallDecode (index : nat).

Section Sessions.
Context {E : Type} {engine : JpegRsEngine E} {host : HostPolicy}.
Implicit Type s : JPEGRsImageDecoder E.

Definition OnSetData (d : list byte) s : JPEGRsImageDecoder E := s.

Definition deliver (chunk : list byte) (all : bool) s
  : JPEGRsImageDecoder E :=
  let d := data_ (base s) ++ chunk in
  OnSetData d (SetData d all s).

Definition prepare_frames s : option (JPEGRsImageDecoder E) :=
  if decide (frames s = [])
  then InitializeNewFrame 0
         (set_frames (replicate (DecodeFrameCount s) ImageFrame_default) s)
  else Some s.

Definition step (c : Call) s : option (JPEGRsImageDecoder E) :=
  match c with
  | Deliver chunk all => Some (deliver chunk all s)
  | PrepareFrames => prepare_frames s
  | CallDecodeSize => DecodeSize s
  | CallDecode index => DecodeFrame index s
  end.

Fixpoint run (calls : list Call) s : option (JPEGRsImageDecoder E) :=
  match calls with
  | [] => Some s
  | c :: calls => s' ← step c s; run calls s'
  end.

(** The sessions a host can bring about. *)
Definition reachable (ignore_color_space : bool) s : Prop :=
  exists calls,
    run calls (new_JPEGRsImageDecoder E ignore_color_space) = Some s.
End Sessions.

(** ** What a call log says *)

(** The two engine operations that return a [JpegRsProcessResult]. *)
Definition is_parse_headers (ev : Event) : bool :=
  match ev with EvParseHeaders _ _ _ => true | _ => false end.

Definition is_decode_image (ev : Event) : bool :=
  match ev with EvDecodeImage _ _ _ _ => true | _ => false end.

Definition is_engine_operation (ev : Event) : bool :=
  is_parse_headers ev || is_decode_image ev.

Definition is_create (ev : Event) : bool :=
  match ev with EvCreate _ => true | _ => false end.

(** Calls that allocate a frame buffer or hand one to the engine. *)
Definition is_frame_buffer_call (ev : Event) : bool :=
  match ev with
  | EvInitFrameBuffer _ _ | EvDecodeImage _ _ _ _ => true
  | _ => false
  end.

(** The calls [case kHaveBasicInfo] can make. *)
Definition is_pixel_stage (ev : Event) : bool :=
  match ev with
  | EvInitFrameBuffer _ _ | EvDecodeImage _ _ _ _ | EvSetFailed => true
  | _ => false
  end.

Definition is_set_pixel_format (ev : Event) : bool :=
  match ev with EvSetPixelFormat _ => true | _ => false end.

Definition is_get_icc_profile (ev : Event) : bool :=
  match ev with EvGetIccProfile => true | _ => false end.

Definition is_get_basic_info (ev : Event) : bool :=
  match ev with EvGetBasicInfo => true | _ => false end.

Definition is_size_accepted (ev : Event) : bool :=
  match ev with EvSetSize _ _ true => true | _ => false end.

Definition is_set_failed (ev : Event) : bool :=
  match ev with EvSetFailed => true | _ => false end.

(** How often a log has a call of kind [p]. *)
Definition count (p : Event -> bool) (evs : list Event) : nat :=
  length (List.filter p evs).

(** The result of an engine operation, if the event is one. *)
Definition engine_result (ev : Event) : option JpegRsProcessResult :=
  match ev with
  | EvParseHeaders _ _ r | EvDecodeImage _ _ _ r => Some r
  | _ => None
  end.

(** The log has an engine operation of kind [p] that returned [st]. *)
Definition has_result (p : Event -> bool) (st : JpegRsStatus)
    (evs : list Event) : bool :=
  existsb (fun ev =>
             p ev && match engine_result ev with
                     | Some r => status_eqb (status r) st
                     | None => false
                     end) evs.

Definition any_status (st : JpegRsStatus) : bool := true.
Definition not_error (st : JpegRsStatus) : bool := negb (status_eqb st Error).

(** The sum of [bytes_consumed] over the engine operations of a log whose
    status satisfies [counted]: each result enters the sum once. *)
Fixpoint consumed (counted : JpegRsStatus -> bool) (evs : list Event) : Z :=
  match evs with
  | [] => 0
  | ev :: evs =>
    match engine_result ev with
    | Some r => if counted (status r)
                then bytes_consumed r + consumed counted evs
                else consumed counted evs
    | None => consumed counted evs
    end
  end.

(** What the calls of a log do to [input_offset_], oldest call first:
    creating the decoder resets it, an engine result that is not an error
    is added to it. *)
Definition advance_one (ev : Event) (o : Z) : Z :=
  match ev with
  | EvCreate _ => 0
  | _ =>
    match engine_result ev with
    | Some r => if not_error (status r) then wrap_size (o + bytes_consumed r)
                else o
    | None => o
    end
  end.

Definition advance (o : Z) (evs : list Event) : Z := foldr advance_one o evs.

Section Invariant.
Context {E : Type}.
Implicit Type s : JPEGRsImageDecoder E.

(** Frame 0 is complete and flagged as changed. *)
Definition frame0_complete s : Prop :=
  exists f, frames s !! 0%nat = Some f
            /\ frame_status_ f = kFrameComplete
            /\ pixels_changed_ f = true.

(** What holds of every session a host can bring about. *)
Record session_inv s : Prop := {
  inv_fresh :
    decoder_ s = None -> decoder_state_ s = kInitial /\ input_offset_ s = 0;
  inv_state :
    decoder_state_ s = kInitial \/ decoder_state_ s = kHaveBasicInfo
    \/ decoder_state_ s = kComplete;
  inv_initial : decoder_state_ s = kInitial -> have_metadata_ s = false;
  inv_meta :
    decoder_state_ s <> kInitial ->
    have_metadata_ s = true /\ size_available_ (base s) = true;
  inv_offset : 0 <= input_offset_ s < 2 ^ size_t_bits;
  inv_once :
    count is_set_pixel_format (calls_ s)
    = (if have_metadata_ s then 1 else 0)%nat;
  inv_once_size :
    count is_size_accepted (calls_ s)
    = (if have_metadata_ s then 1 else 0)%nat;
  inv_once_icc :
    (count is_get_icc_profile (calls_ s)
     <= (if have_metadata_ s then 1 else 0))%nat
}.

(** What a pass through [case kInitial] can leave behind: either the
    metadata was not extracted, or it was, and then the call stopped in
    [kHaveBasicInfo] or went on to [kComplete]. *)
Definition initial_outcome (only_size : bool) s s' (evs : list Event)
  : Prop :=
  (decoder_state_ s' = decoder_state_ s
   /\ have_metadata_ s' = have_metadata_ s
   /\ size_available_ (base s') = size_available_ (base s)
   /\ frames s' = frames s
   /\ count is_set_pixel_format evs = 0%nat
   /\ count is_get_icc_profile evs = 0%nat
   /\ count is_size_accepted evs = 0%nat
   /\ has_result is_decode_image Success evs = false
   /\ forallb (fun ev => negb (is_frame_buffer_call ev)) evs = true)
  \/ (have_metadata_ s' = true
      /\ size_available_ (base s') = true
      /\ count is_set_pixel_format evs = 1%nat
      /\ (count is_get_icc_profile evs <= 1)%nat
      /\ count is_size_accepted evs = 1%nat
      /\ has_result is_parse_headers Success evs = true
      /\ ((decoder_state_ s' = kHaveBasicInfo
           /\ has_result is_decode_image Success evs = false
           /\ (only_size = true ->
               frames s' = frames s
               /\ forallb (fun ev => negb (is_frame_buffer_call ev)) evs
                  = true))
          \/ (decoder_state_ s' = kComplete
              /\ only_size = false
              /\ has_result is_decode_image Success evs = true
              /\ Failed s' = Failed s
              /\ frame0_complete s'))).

(** How one call can move the state machine: not at all, one state
    forward, or from [kInitial] to [kComplete] when a full decode has the
    header parse and the pixel decode both succeed. *)
Definition transition (only_size : bool) s s' (evs : list Event) : Prop :=
  decoder_state_ s' = decoder_state_ s
  \/ (decoder_state_ s = kInitial /\ decoder_state_ s' = kHaveBasicInfo
      /\ has_result is_parse_headers Success evs = true
      /\ has_result is_decode_image Success evs = false)
  \/ (decoder_state_ s = kHaveBasicInfo /\ decoder_state_ s' = kComplete
      /\ only_size = false
      /\ has_result is_decode_image Success evs = true)
  \/ (decoder_state_ s = kInitial /\ decoder_state_ s' = kComplete
      /\ only_size = false
      /\ has_result is_parse_headers Success evs = true
      /\ has_result is_decode_image Success evs = true).

(** What one call of [Decode] does, read off its log [evs]. *)
Definition call_summary (only_size : bool) s s' (evs : list Event) : Prop :=
  calls_ s' = evs ++ calls_ s
  /\ input_offset_ s' = wrap_size (input_offset_ s + consumed not_error evs)
  /\ data_ (base s') = data_ (base s)
  /\ (has_result is_engine_operation Error evs = true -> Failed s' = true)
  /\ transition only_size s s' evs
  /\ (has_result is_decode_image Success evs = true ->
      decoder_state_ s' = kComplete /\ frame0_complete s'
      /\ Failed s' = false)
  /\ (only_size = true ->
      frames s' = frames s
      /\ forallb (fun ev => negb (is_frame_buffer_call ev)) evs = true).
End Invariant.

(** ** A scripted engine and host, for concrete sessions *)

(** The engine answers [parse_headers] and [decode_image_with_stride]
    from two scripts, one answer per call ([Error] once a script is
    exhausted), reports fixed metadata, and paints every byte of the
    output view it is given with [x01]. *)
Record Script := {
  header_script : list JpegRsProcessResult;
  pixel_script : list JpegRsProcessResult;
  script_info : JpegRsBasicInfo;
  script_icc : list byte;
  script_signature : list byte
}.

Definition result (st : JpegRsStatus) (n : Z) : JpegRsProcessResult :=
  {| status := st; bytes_consumed := n |}.

Definition set_header_script (l : list JpegRsProcessResult) (sc : Script) :=
  {| header_script := l; pixel_script := pixel_script sc;
     script_info := script_info sc; script_icc := script_icc sc;
     script_signature := script_signature sc |}.

Definition set_pixel_script (l : list JpegRsProcessResult) (sc : Script) :=
  {| header_script := header_script sc; pixel_script := l;
     script_info := script_info sc; script_icc := script_icc sc;
     script_signature := script_signature sc |}.

Definition scripted_engine (sc : Script) : JpegRsEngine Script :=
  {| jpeg_rs_decoder_create := fun _ => sc;
     jpeg_rs_signature_check := fun d => bool_decide (d = script_signature sc);
     parse_headers := fun e _ _ =>
       match header_script e with
       | [] => (result Error 0, e)
       | r :: l => (r, set_header_script l e)
       end;
     get_basic_info := script_info;
     set_pixel_format := fun e _ => e;
     get_icc_profile := script_icc;
     decode_image_with_stride := fun e _ _ view _ =>
       match pixel_script e with
       | [] => (result Error 0, e, view)
       | r :: l => (r, set_pixel_script l e, replicate (length view) x01)
       end |}.

(** The host accepts an image of at most [max_pixels] pixels, allocates
    [4 * w * h] zeroed bytes for a frame that has no memory yet when
    [can_allocate], and takes every profile. *)
Definition simple_host (max_pixels : Z) (can_allocate : bool) : HostPolicy :=
  {| size_policy := fun w h => w * h <=? max_pixels;
     host_init_frame := fun '(w, h) f =>
       match pixels_ f with
       | Some _ => (true, f)
       | None =>
         if can_allocate
         then (true,
               {| has_alpha_ := has_alpha_ f;
                  pixels_changed_ := pixels_changed_ f;
                  frame_status_ := frame_status_ f;
                  original_frame_rect_ := original_frame_rect_ f;
                  required_previous_frame_index_ :=
                    required_previous_frame_index_ f;
                  pixels_ := Some (replicate (Z.to_nat (4 * w * h)) x00);
                  row_bytes_ := 4 * w |})
         else (false, f)
       end;
     ColorProfile_Create := fun d => Some d |}.

(** ** Concrete sessions *)

Definition jpeg_magic : list byte := [xff; xd8; xff; xe0].

(** Ten bytes of input: the magic number and six more bytes. *)
Definition ten_bytes : list byte := jpeg_magic ++ replicate 6 x00.

(** A 2x1 image with 8 bits per sample and no profile. *)
Definition demo_script (headers pixels : list JpegRsProcessResult) : Script :=
  {| header_script := headers; pixel_script := pixels;
     script_info := {| width := 2; height := 1; bits_per_sample := 8 |};
     script_icc := []; script_signature := jpeg_magic |}.

Definition demo_engine (headers pixels : list JpegRsProcessResult)
  : JpegRsEngine Script :=
  scripted_engine (demo_script headers pixels).

(** The header parse fails, after the engine has looked at 3 bytes. *)
Definition engine_error : JpegRsEngine Script :=
  demo_engine [result Error 3] [].

(** The header takes 4 bytes; the pixel decode then reports the 10 bytes
    of the slice it was handed as consumed. *)
Definition engine_complete : JpegRsEngine Script :=
  demo_engine [result Success 4] [result Success 10].

(** The header parse succeeds each of the two times it is asked. *)
Definition engine_twice : JpegRsEngine Script :=
  demo_engine [result Success 4; result Success 4] [].

(** The header parse takes 4 bytes and wants more. *)
Definition engine_waiting : JpegRsEngine Script :=
  demo_engine [result NeedMoreInput 4] [].

(** The header takes 4 bytes; the pixel decode takes 6 and wants more. *)
Definition engine_partial : JpegRsEngine Script :=
  demo_engine [result Success 4] [result NeedMoreInput 6].

(** The header parse wants more after 2 bytes and succeeds on the next
    call. *)
Definition engine_late : JpegRsEngine Script :=
  demo_engine [result NeedMoreInput 2; result Success 2] [].

(** A host that takes the 2x1 image, and one whose size policy rejects it. *)
Definition roomy_host : HostPolicy := simple_host 100 true.
Definition strict_host : HostPolicy := simple_host 1 true.

(** An engine without a script: the header takes 4 bytes once that many
    are there; the pixel decode takes every byte of the slice it is handed
    and is done when all input has been delivered.  It never reports more
    than it was offered. *)
Definition greedy_engine : JpegRsEngine unit :=
  {| jpeg_rs_decoder_create := fun _ => tt;
     jpeg_rs_signature_check := fun d => bool_decide (d = jpeg_magic);
     parse_headers := fun e d _ =>
       if 4 <=? Z.of_nat (length d) then (result Success 4, e)
       else (result NeedMoreInput 0, e);
     get_basic_info := fun _ =>
       {| width := 2; height := 1; bits_per_sample := 8 |};
     set_pixel_format := fun e _ => e;
     get_icc_profile := fun _ => [];
     decode_image_with_stride := fun e d all view _ =>
       (result (if all then Success else NeedMoreInput) (Z.of_nat (length d)),
        e, replicate (length view) x01) |}.

Definition fresh_session {E : Type} : JPEGRsImageDecoder E :=
  new_JPEGRsImageDecoder E false.

(** The session a host reaches from a fresh one by [calls]. *)
Definition session_after {E : Type} (engine : JpegRsEngine E)
    (host : HostPolicy) (calls : list Call) : JPEGRsImageDecoder E :=
  default fresh_session (run calls fresh_session).

(** ** More of the driver and of what holds of its sessions *)

Section Accessors.
Context {E : Type}.
Implicit Type s : JPEGRsImageDecoder E.

Definition ImageIsHighBitDepth s : bool := is_high_bit_depth_ s.
End Accessors.

(** What an engine operation of a log was offered: the input slice and
    the all-input flag. *)
Definition offered (ev : Event) : option (list byte * bool) :=
  match ev with
  | EvParseHeaders d a _ | EvDecodeImage d a _ _ => Some (d, a)
  | _ => None
  end.

(** Every engine operation of the log was offered the slice [d] and the
    flag [a]. *)
Definition all_offered (d : list byte) (a : bool) (evs : list Event) : bool :=
  forallb (fun ev => match offered ev with
                     | Some (d', a') => bool_decide (d' = d) && eqb a' a
                     | None => true
                     end) evs.

Section Facts.
Context {E : Type} {host : HostPolicy}.
Implicit Type s : JPEGRsImageDecoder E.

(** More of what holds of every session a host can bring about, for a
    session created with [ignore_color_space = ics]. *)
Record session_facts (ics : bool) s : Prop := {
  fact_create :
    count is_create (calls_ s)
    = match decoder_ s with Some _ => 1%nat | None => 0%nat end;
  fact_ignores : ignores_color_space_ (base s) = ics;
  fact_size_available : size_available_ (base s) = have_metadata_ s;
  fact_size :
    have_metadata_ s = true ->
    Size s = (width (basic_info_ s), height (basic_info_ s))
    /\ size_policy (width (basic_info_ s)) (height (basic_info_ s)) = true;
  fact_high_bit_depth :
    is_high_bit_depth_ s
    = have_metadata_ s && (bits_per_sample (basic_info_ s) >? 8);
  fact_no_profile :
    ics = true ->
    embedded_color_profile_ (base s) = None
    /\ count is_get_icc_profile (calls_ s) = 0%nat;
  fact_profile_late :
    have_metadata_ s = false -> embedded_color_profile_ (base s) = None;
  fact_one_frame : (length (frames s) <= 1)%nat;
  fact_complete : decoder_state_ s = kComplete -> frame0_complete s
}.
End Facts.

Section FailureFacts.
Context {E : Type}.
Implicit Type s : JPEGRsImageDecoder E.

(** How often [BasicInfo] has been read, and where a failed session can
    be: [get_basic_info] has been called once when the metadata is
    there, not at all while the session has neither metadata nor a
    failure, and a session whose state machine is in [kComplete] has not
    failed. *)
Record failure_facts s : Prop := {
  fail_basic_info_read :
    have_metadata_ s = true ->
    count is_get_basic_info (calls_ s) = 1%nat;
  fail_basic_info_unread :
    have_metadata_ s = false -> Failed s = false ->
    count is_get_basic_info (calls_ s) = 0%nat;
  fail_basic_info_once : (count is_get_basic_info (calls_ s) <= 1)%nat;
  fail_not_complete : decoder_state_ s = kComplete -> Failed s = false
}.
End FailureFacts.

(** A 2x1 image with 12 bits per sample and a three-byte profile. *)
Definition deep_engine : JpegRsEngine Script :=
  scripted_engine
    {| header_script := [result Success 4];
       pixel_script := [result Success 6];
       script_info := {| width := 2; height := 1; bits_per_sample := 12 |};
       script_icc := [x01; x02; x03]; script_signature := jpeg_magic |}.

(** A host that takes the image and cannot give the frame pixel memory. *)
Definition poor_host : HostPolicy := simple_host 100 false.

(** The header takes 4 bytes; the pixel decode fails after 2. *)
Definition engine_pixel_error : JpegRsEngine Script :=
  demo_engine [result Success 4] [result Error 2].

(** The session a host reaches by [calls] from a fresh one that was
    created to ignore the colour space. *)
Definition session_ignoring_color {E : Type} (engine : JpegRsEngine E)
    (host : HostPolicy) (calls : list Call) : JPEGRsImageDecoder E :=
  default (new_JPEGRsImageDecoder E true)
    (run calls (new_JPEGRsImageDecoder E true)).

(** The frame [roomy_host] sets up for the 2x1 image. *)
Definition demo_frame : ImageFrame :=
  {| has_alpha_ := true; pixels_changed_ := false;
     frame_status_ := kFrameIncomplete;
     original_frame_rect_ := (0, 0);
     required_previous_frame_index_ := None;
     pixels_ := Some (replicate 8 x00); row_bytes_ := 8 |}.

(** * Properties *)

(** ** Lists and logs *)

Lemma wrap_size_range z : 0 <= wrap_size z < 2 ^ size_t_bits.
Proof. unfold wrap_size. apply Z.mod_pos_bound. reflexivity. Qed.

Lemma wrap_size_small z : 0 <= z < 2 ^ size_t_bits -> wrap_size z = z.
Proof. unfold wrap_size. apply Z.mod_small. Qed.

Lemma wrap_size_add_l a b : wrap_size (wrap_size a + b) = wrap_size (a + b).
Proof. unfold wrap_size. apply Zplus_mod_idemp_l. Qed.

Lemma lookup_insert_head {A} (l : list A) (x : A) :
  l <> [] -> <[0%nat:=x]> l !! 0%nat = Some x.
Proof. destruct l; [done|]. reflexivity. Qed.

Lemma insert_head_nonempty {A} (l : list A) (x : A) :
  l <> [] -> <[0%nat:=x]> l <> [].
Proof. destruct l; done. Qed.

Lemma count_app p l1 l2 : count p (l1 ++ l2) = (count p l1 + count p l2)%nat.
Proof. unfold count. rewrite List.filter_app, length_app. reflexivity. Qed.

Lemma count_none p q evs :
  (forall ev, q ev = true -> p ev = false) ->
  forallb q evs = true -> count p evs = 0%nat.
Proof.
  intros Hp. unfold count. induction evs as [|ev evs IH]; cbn; [done|].
  intros [H1 H2]%andb_prop. rewrite (Hp _ H1). auto.
Qed.

Lemma has_result_app p st l1 l2 :
  has_result p st (l1 ++ l2) = has_result p st l1 || has_result p st l2.
Proof. unfold has_result. apply existsb_app. Qed.

Lemma has_result_none p q st evs :
  (forall ev, q ev = true -> p ev = false) ->
  forallb q evs = true -> has_result p st evs = false.
Proof.
  intros Hp. unfold has_result. induction evs as [|ev evs IH]; cbn; [done|].
  intros [H1 H2]%andb_prop. rewrite (Hp _ H1), IH by done. done.
Qed.

Lemma forallb_weaken (p q : Event -> bool) evs :
  (forall ev, p ev = true -> q ev = true) ->
  forallb p evs = true -> forallb q evs = true.
Proof.
  intros Hpq. induction evs as [|ev evs IH]; cbn; [done|].
  intros [H1 H2]%andb_prop. rewrite (Hpq _ H1), IH by done. done.
Qed.

Lemma advance_app o l1 l2 : advance o (l1 ++ l2) = advance (advance o l2) l1.
Proof. unfold advance. apply foldr_app. Qed.

Lemma consumed_app c l1 l2 : consumed c (l1 ++ l2) = consumed c l1 + consumed c l2.
Proof.
  induction l1 as [|ev l1 IH]; cbn; [done|].
  destruct (engine_result ev) as [r|]; [destruct (c (status r))|]; lia.
Qed.

(** On a log without a decoder creation, replaying the calls adds up the
    results that are not errors, each once. *)
Lemma advance_consumed o evs :
  0 <= o < 2 ^ size_t_bits ->
  count is_create evs = 0%nat ->
  advance o evs = wrap_size (o + consumed not_error evs).
Proof.
  intros Ho. induction evs as [|ev evs IH]; cbn.
  - intros _. rewrite Z.add_0_r, wrap_size_small; done.
  - unfold count in *. cbn. destruct (is_create ev) eqn:Hc; [done|].
    intros Hn. specialize (IH Hn). fold (advance o evs). rewrite IH.
    destruct ev; try done; cbn;
      (match goal with
       | |- context [not_error (status ?r)] => destruct (not_error (status r))
       end; [|done]);
      rewrite wrap_size_add_l; f_equal; lia.
Qed.

Lemma advance_in_range o evs :
  0 <= o < 2 ^ size_t_bits -> 0 <= advance o evs < 2 ^ size_t_bits.
Proof.
  intros Ho. induction evs as [|ev evs IH]; cbn; [done|].
  fold (advance o evs).
  destruct ev; cbn; try done;
    match goal with
    | |- context [not_error (status ?r)] => destruct (not_error (status r))
    end; auto using wrap_size_range.
Qed.

Ltac log_exists :=
  first [ exists (@nil Event); split; [ reflexivity | ]
        | eexists [_]; split; [ reflexivity | ]
        | eexists [_; _]; split; [ reflexivity | ]
        | eexists [_; _; _]; split; [ reflexivity | ]
        | eexists [_; _; _; _]; split; [ reflexivity | ]
        | eexists [_; _; _; _; _]; split; [ reflexivity | ]
        | eexists [_; _; _; _; _; _]; split; [ reflexivity | ]
        | eexists [_; _; _; _; _; _; _]; split; [ reflexivity | ] ].

Ltac unfold_log :=
  unfold frame0_complete, has_result, advance, advance_one, not_error, count;
  cbn.

Ltac use_status :=
  repeat match goal with H : status _ = _ |- _ => rewrite H end; cbn.

Section Blocks.
Context {E : Type} {engine : JpegRsEngine E} {host : HostPolicy}.
Implicit Type s : JPEGRsImageDecoder E.

Lemma SetSize_accept w h s :
  size_policy w h = true ->
  SetSize w h s
  = (true, record (EvSetSize w h true) (upd_base (set_size w h) s)).
Proof. unfold SetSize. intros ->. reflexivity. Qed.

Lemma SetSize_reject w h s :
  size_policy w h = false ->
  SetSize w h s
  = (false, record (EvSetSize w h false) (upd_base set_failed s)).
Proof. unfold SetSize. intros ->. reflexivity. Qed.

(** The pixel stage: what [case kHaveBasicInfo] does to a session. *)
Lemma Decode_HaveBasicInfo_summary e sl al s s' :
  Decode_HaveBasicInfo e sl al s = Some s' ->
  exists evs,
    calls_ s' = evs ++ calls_ s
    /\ forallb is_pixel_stage evs = true
    /\ input_offset_ s' = advance (input_offset_ s) evs
    /\ have_metadata_ s' = have_metadata_ s
    /\ size_available_ (base s') = size_available_ (base s)
    /\ data_ (base s') = data_ (base s)
    /\ (is_Some (decoder_ s) -> is_Some (decoder_ s'))
    /\ (has_result is_engine_operation Error evs = true -> Failed s' = true)
    /\ ((decoder_state_ s' = decoder_state_ s
         /\ has_result is_decode_image Success evs = false)
        \/ (decoder_state_ s' = kComplete
            /\ has_result is_decode_image Success evs = true
            /\ Failed s' = Failed s
            /\ frame0_complete s')).
Proof.
  unfold Decode_HaveBasicInfo, InitFrameBuffer. intros HD.
  repeat (simplify_option_eq || case_match).
  all: log_exists; unfold_log; use_status.
  all: try (intuition (eauto; done)).
  split_and!; try done; auto. right. split_and!; try done.
  eexists. rewrite lookup_insert_head; [split; [reflexivity|done]|].
  auto using @insert_head_nonempty.
Qed.

Lemma InitFrameBuffer_first s :
  let s0 := if decide (frames s = []) then set_frames [ImageFrame_default] s
            else s in
  InitFrameBuffer 0 s0
  = Some (let '(ok, f') := host_init_frame (Size s) (first_frame s) in
          (ok, record (EvInitFrameBuffer 0 ok)
                 (set_frames (<[0%nat:=f']> (frames s0)) s0))).
Proof.
  unfold InitFrameBuffer, first_frame, frames, Size.
  destruct (frame_buffer_cache_ (base s)) as [|f l] eqn:Hf; cbn.
  - rewrite decide_True by done. cbn. by destruct (host_init_frame _ _).
  - rewrite decide_False by done. cbn. rewrite Hf. cbn.
    by destruct (host_init_frame _ _).
Qed.

(** The pixel stage with a bound buffer: when the host sets up frame 0
    and the frame has pixel memory, the engine is called once, on the
    input slice of this call and on the view of that memory, and the
    stage returns. *)
Lemma Decode_HaveBasicInfo_bound e sl al s f1 mem r e' out :
  host_init_frame (Size s) (first_frame s) = (true, f1) ->
  pixels_ f1 = Some mem ->
  decode_image_with_stride e sl al (output_view f1 mem s) (row_bytes_ f1)
  = (r, e', out) ->
  exists s',
    Decode_HaveBasicInfo e sl al s = Some s'
    /\ calls_ s'
       = (if status_eqb (status r) Error then [EvSetFailed] else [])
         ++ [EvDecodeImage sl al (row_bytes_ f1) r; EvInitFrameBuffer 0 true]
         ++ calls_ s
    /\ decoder_ s' = Some e'
    /\ have_metadata_ s' = have_metadata_ s
    /\ (exists f, frames s' !! 0%nat = Some f
                  /\ has_alpha_ f = false
                  /\ pixels_ f
                     = Some (overwrite (output_view f1 mem s) out
                             ++ drop (length (output_view f1 mem s)) mem)
                  /\ pixels_changed_ f
                     = (if status_eqb (status r) Error
                        then pixels_changed_ f1 else true)
                  /\ frame_status_ f
                     = (if status_eqb (status r) Success
                        then kFrameComplete else frame_status_ f1))
    /\ Failed s'
       = (if status_eqb (status r) Error then true else Failed s)
    /\ input_offset_ s'
       = (if status_eqb (status r) Error then input_offset_ s
          else wrap_size (input_offset_ s + bytes_consumed r))
    /\ decoder_state_ s'
       = (if status_eqb (status r) Success then kComplete
          else decoder_state_ s).
Proof.
  intros Hinit Hpix Hdec. unfold Decode_HaveBasicInfo.
  pose proof (InitFrameBuffer_first s) as HI. cbn zeta in HI.
  rewrite HI, Hinit. clear HI. cbn.
  set (s0 := if decide (frames s = []) then _ else s).
  assert (Hne : frames s0 <> []).
  { subst s0. destruct (decide (frames s = [])); done. }
  assert (Hbi : basic_info_ s0 = basic_info_ s).
  { subst s0. by destruct (decide (frames s = [])). }
  rewrite lookup_insert_head by done. cbn.
  rewrite Hpix. unfold output_view in Hdec. rewrite Hbi, Hdec.
  assert (Hs0 : calls_ s0 = calls_ s /\ have_metadata_ s0 = have_metadata_ s
                /\ Failed s0 = Failed s /\ input_offset_ s0 = input_offset_ s
                /\ decoder_state_ s0 = decoder_state_ s).
  { subst s0. by destruct (decide (frames s = [])). }
  destruct Hs0 as (Hc & Hm & Hf & Ho & Hst).
  destruct (status r) eqn:Hr; cbn; eexists; (split; [reflexivity|]); cbn;
    rewrite ?Hc, ?Hm, ?Hf, ?Ho, ?Hst; split_and!; try done;
    eexists; (split; [apply lookup_insert_head;
                      auto using @insert_head_nonempty|]); done.
Qed.

(** The metadata extractor: one [set_pixel_format], at most one
    [get_icc_profile], the flag and the state set together. *)
Lemma extract_metadata_summary e s e' s' :
  extract_metadata e s = (e', s') ->
  exists evs,
    calls_ s' = evs ++ calls_ s
    /\ forallb (fun ev => negb (is_pixel_stage ev)) evs = true
    /\ count is_set_pixel_format evs = 1%nat
    /\ (count is_get_icc_profile evs <= 1)%nat
    /\ forallb (fun ev => negb (is_size_accepted ev || is_create ev
                                || is_engine_operation ev)) evs = true
    /\ have_metadata_ s' = true
    /\ decoder_state_ s' = kHaveBasicInfo
    /\ input_offset_ s' = input_offset_ s
    /\ frames s' = frames s
    /\ Failed s' = Failed s
    /\ size_available_ (base s') = size_available_ (base s)
    /\ data_ (base s') = data_ (base s)
    /\ decoder_ s' = Some e'.
Proof.
  unfold extract_metadata. intros HD.
  repeat (simplify_eq || case_match).
  all: log_exists; unfold_log.
  all: split_and!; try done; try lia.
Qed.

Lemma extract_metadata_keeps e s e' s' :
  extract_metadata e s = (e', s') ->
  e' = set_pixel_format e Bgra8
  /\ Size s' = Size s
  /\ basic_info_ s' = basic_info_ s
  /\ first_frame s' = first_frame s.
Proof.
  unfold extract_metadata. intros HD.
  repeat (simplify_eq || case_match); done.
Qed.
End Blocks.

Section Calls.
Context {E : Type} {engine : JpegRsEngine E} {host : HostPolicy}.
Implicit Type s : JPEGRsImageDecoder E.

Lemma pixel_stage_no_metadata_call ev :
  is_pixel_stage ev = true ->
  is_set_pixel_format ev = false /\ is_get_icc_profile ev = false
  /\ is_size_accepted ev = false /\ is_create ev = false
  /\ is_parse_headers ev = false /\ is_get_basic_info ev = false.
Proof. by destruct ev. Qed.

Opaque extract_metadata Decode_HaveBasicInfo.

(** The header stage: what [case kInitial] does to a session. *)
Lemma Decode_Initial_summary only_size e sl al s s' :
  Decode_Initial only_size e sl al s = Some s' ->
  exists evs,
    calls_ s' = evs ++ calls_ s
    /\ count is_create evs = 0%nat
    /\ input_offset_ s' = advance (input_offset_ s) evs
    /\ data_ (base s') = data_ (base s)
    /\ is_Some (decoder_ s')
    /\ (has_result is_engine_operation Error evs = true -> Failed s' = true)
    /\ initial_outcome only_size s s' evs.
Proof.
  unfold Decode_Initial, initial_outcome. intros HD.
  destruct (parse_headers e sl al) as [r e1] eqn:Hp.
  destruct (status r) eqn:Hst.
  3: { simplify_eq. log_exists. unfold_log. rewrite Hst. cbn.
       intuition (eauto; done). }
  2: { simplify_eq. log_exists. unfold_log. rewrite Hst. cbn.
       intuition (eauto; done). }
  cbn in HD.
  destruct (size_policy (width (get_basic_info e1))
              (height (get_basic_info e1))) eqn:Hsz.
  2: { rewrite SetSize_reject in HD by done. cbn in HD. simplify_eq.
       log_exists. unfold_log. rewrite Hst. cbn. intuition (eauto; done). }
  rewrite SetSize_accept in HD by done. cbn in HD.
  match type of HD with
  | context [extract_metadata ?e ?s0] =>
    destruct (extract_metadata e s0) as [e2 s2] eqn:Hm
  end.
  apply extract_metadata_summary in Hm
    as (evsM & HM1 & HM2 & HM3 & HM4 & HM5 & HM6 & HM7 & HM8 & HM9 & HM10
        & HM11 & HM12 & HM13).
  cbn in HM1, HM8, HM9, HM10, HM11, HM12.
  assert (HMc : count is_create evsM = 0%nat).
  { eapply count_none; [|exact HM5]. intros ev; cbn. by destruct (is_create ev), (is_size_accepted ev). }
  assert (HMs : count is_size_accepted evsM = 0%nat).
  { eapply count_none; [|exact HM5]. intros ev; cbn. by destruct (is_size_accepted ev). }
  assert (HMe : forall p st, (forall ev, p ev = true -> is_engine_operation ev = true) ->
                             has_result p st evsM = false).
  { intros p st Hp'. eapply has_result_none; [|exact HM5]. intros ev.
    specialize (Hp' ev). cbn. destruct (p ev); [rewrite Hp' by done|]; by rewrite ?orb_true_r. }
  assert (HMa : forall o, advance o evsM = o).
  { clear -HM5. intros o. induction evsM as [|ev evs IH]; cbn; [done|].
    cbn in HM5. apply andb_prop in HM5 as [H1 H2]. fold (advance o evs).
    rewrite IH by done. by destruct ev. }
  assert (HMf : forallb (fun ev => negb (is_frame_buffer_call ev)) evsM = true).
  { eapply forallb_weaken; [|exact HM2]. by intros []. }
  destruct only_size.
  - simplify_eq.
    exists (evsM ++ [EvSetSize (width (get_basic_info e1))
                       (height (get_basic_info e1)) true;
                     EvGetBasicInfo; EvParseHeaders sl al r]).
    rewrite HM1, <- app_assoc. split; [done|].
    rewrite !count_app, !has_result_app, advance_app, forallb_app, HMa, HM8.
    rewrite HMc, HMs, !HMe, HMf by (by intros []).
    unfold count in *. unfold_log. rewrite Hst. cbn.
    rewrite HM6, HM7, HM11, HM12, HM13, HM3.
    split_and!; try done; eauto. right.
    split_and!; try done; try lia. left. done.
  - apply Decode_HaveBasicInfo_summary in HD
      as (evsB & HB1 & HB2 & HB3 & HB4 & HB5 & HB6 & HB7 & HB8 & HB9).
    exists (evsB ++ evsM ++ [EvSetSize (width (get_basic_info e1))
                               (height (get_basic_info e1)) true;
                             EvGetBasicInfo; EvParseHeaders sl al r]).
    rewrite HB1, HM1, <- !app_assoc. split; [done|].
    rewrite !count_app, !has_result_app, !advance_app, HMa, HB3, HM8.
    rewrite HMc, HMs, !HMe by (by intros []).
    rewrite !(count_none _ _ evsB (fun ev H => proj1 (proj2 (proj2 (proj2
               (pixel_stage_no_metadata_call ev H))))) HB2).
    rewrite !(count_none _ _ evsB (fun ev H => proj1
               (pixel_stage_no_metadata_call ev H)) HB2).
    rewrite !(count_none _ _ evsB (fun ev H => proj1 (proj2
               (pixel_stage_no_metadata_call ev H))) HB2).
    rewrite !(count_none _ _ evsB (fun ev H => proj1 (proj2 (proj2
               (pixel_stage_no_metadata_call ev H)))) HB2).
    rewrite (has_result_none _ _ Success evsB (fun ev H => proj1 (proj2 (proj2
               (proj2 (proj2 (pixel_stage_no_metadata_call ev H)))))) HB2).
    unfold count in *. unfold_log. rewrite Hst. cbn.
    rewrite ?orb_false_r, ?orb_true_r, ?HM3.
    split_and!; try done.
    + rewrite HB6. done.
    + apply HB7. rewrite HM13. eauto.
    + right. rewrite HB4, HB5, HM6, HM11. cbn.
      split_and!; try done; try lia.
      destruct HB9 as [[HB9 HB10]|(HB9 & HB10 & HB11 & HB12)].
      * left. rewrite HB9, HM7. split_and!; done.
      * right. rewrite HB9, HB11, HM10. split_and!; done.
Qed.

(** The header stage when the parse succeeds and the size is accepted:
    the metadata is extracted, and a full decode goes on into the pixel
    stage with the same input slice. *)
Lemma Decode_Initial_accepted only_size e sl al s r e1 :
  parse_headers e sl al = (r, e1) ->
  status r = Success ->
  size_policy (width (get_basic_info e1)) (height (get_basic_info e1))
  = true ->
  Decode_Initial only_size e sl al s
  = let '(e2, s2) := extract_metadata e1 (header_accepted sl al r e1 s) in
    if only_size then Some s2 else Decode_HaveBasicInfo e2 sl al s2.
Proof.
  intros Hp Hst Hsz. unfold Decode_Initial. rewrite Hp, Hst. cbn.
  rewrite SetSize_accept by done. reflexivity.
Qed.

(** The header stage when the parse succeeds and the size is rejected:
    the call returns there. *)
Lemma Decode_Initial_rejected only_size e sl al s r e1 :
  parse_headers e sl al = (r, e1) ->
  status r = Success ->
  size_policy (width (get_basic_info e1)) (height (get_basic_info e1))
  = false ->
  Decode_Initial only_size e sl al s = Some (header_rejected sl al r e1 s).
Proof.
  intros Hp Hst Hsz. unfold Decode_Initial. rewrite Hp, Hst. cbn.
  rewrite SetSize_reject by done. reflexivity.
Qed.
End Calls.

Section DecodeCall.
Context {E : Type} {engine : JpegRsEngine E} {host : HostPolicy}.
Implicit Type s : JPEGRsImageDecoder E.

Opaque Decode_Initial.

(** The session [ensure_decoder] hands on: the one it was given, or
    that one with a new engine, state [kInitial] and offset 0. *)
Lemma ensure_decoder_cases s e s1 :
  ensure_decoder s = (e, s1) ->
  (decoder_ s = Some e /\ s1 = s)
  \/ (decoder_ s = None
      /\ e = jpeg_rs_decoder_create kMaxDecodedPixels
      /\ s1 = record (EvCreate kMaxDecodedPixels)
                (set_input_offset 0
                   (set_decoder_state kInitial (set_decoder e s)))).
Proof.
  unfold ensure_decoder. destruct (decoder_ s); intros; simplify_eq; eauto.
Qed.

(** The paths through [Decode]: an early exit; nothing to read; the
    header stage; the pixel stage; a state with nothing left to do. *)
Lemma Decode_cases index only_size s s' :
  Decode index only_size s = Some s' ->
  (returns_at_once index only_size s = true /\ s' = s)
  \/ (returns_at_once index only_size s = false
      /\ exists e s1,
          ensure_decoder s = (e, s1)
          /\ ((s' = s1
               /\ ((wrap_size (reader_size (data_ (base s1))
                                 - input_offset_ s1) >? 0) = false
                   \/ (decoder_state_ s1 <> kInitial
                       /\ decoder_state_ s1 <> kHaveBasicInfo)))
              \/ exists sl,
                  GetConsecutiveData (data_ (base s1)) (input_offset_ s1)
                    (wrap_size (reader_size (data_ (base s1))
                                - input_offset_ s1)) = Some sl
                  /\ ((decoder_state_ s1 = kInitial
                       /\ Decode_Initial only_size e sl
                            (IsAllDataReceived s1) s1 = Some s')
                      \/ (decoder_state_ s1 = kHaveBasicInfo
                          /\ Decode_HaveBasicInfo e sl
                               (IsAllDataReceived s1) s1 = Some s')))).
Proof.
  unfold Decode, returns_at_once. intros HD.
  destruct (Failed s); [left; by simplify_eq|].
  destruct (only_size && IsDecodedSizeAvailable s && have_metadata_ s);
    [left; by simplify_eq|].
  destruct (negb only_size && frame_complete index s);
    [left; by simplify_eq|].
  right. split; [done|].
  assert (Hd : data_ (base (ensure_decoder s).2) = data_ (base s)).
  { unfold ensure_decoder. by destruct (decoder_ s). }
  destruct (ensure_decoder s) as [e s1] eqn:He. cbn in Hd.
  exists e, s1. split; [done|]. rewrite <- Hd in HD.
  destruct (_ >? 0) eqn:Hr; [|left; by simplify_eq; auto].
  destruct (GetConsecutiveData _ _ _) as [sl|] eqn:Hg; [|done].
  cbn in HD.
  destruct (decoder_state_ s1) eqn:Hs;
    try (left; split; [by simplify_eq|right; done]).
  - right. exists sl. split; [done|]. left. done.
  - right. exists sl. split; [done|]. right. done.
Qed.

Lemma returns_at_once_false index only_size s :
  returns_at_once index only_size s = false ->
  Failed s = false
  /\ (only_size && IsDecodedSizeAvailable s && have_metadata_ s) = false
  /\ (negb only_size && frame_complete index s) = false.
Proof.
  unfold returns_at_once.
  intros [[H1 H2]%orb_false_elim H3]%orb_false_elim. done.
Qed.

Lemma GetConsecutiveData_suffix (d : list byte) (o : Z) :
  0 <= o <= reader_size d ->
  GetConsecutiveData d o (reader_size d - o) = Some (drop (Z.to_nat o) d).
Proof.
  intros Ho. unfold GetConsecutiveData, reader_size in *.
  rewrite !(proj2 (Z.leb_le _ _)) by lia. cbn.
  rewrite take_ge; [done|]. rewrite length_drop. lia.
Qed.

(** A call that gets past the early exits and has bytes left to read
    hands the unconsumed suffix to the stage its state selects. *)
Lemma Decode_reads index only_size s e s1 :
  returns_at_once index only_size s = false ->
  ensure_decoder s = (e, s1) ->
  0 <= input_offset_ s1 < reader_size (data_ (base s)) ->
  reader_size (data_ (base s)) < 2 ^ size_t_bits ->
  Decode index only_size s
  = match decoder_state_ s1 with
    | kInitial =>
      Decode_Initial only_size e (pending_input s1) (IsAllDataReceived s1) s1
    | kHaveBasicInfo =>
      Decode_HaveBasicInfo e (pending_input s1) (IsAllDataReceived s1) s1
    | _ => Some s1
    end.
Proof.
  intros (Hf & Hsz & Hfc)%returns_at_once_false He Ho Hlt.
  unfold Decode. rewrite Hf, Hsz, Hfc, He.
  assert (Hd : data_ (base s1) = data_ (base s)).
  { apply ensure_decoder_cases in He as [[_ ->]|(_ & _ & ->)]; done. }
  rewrite wrap_size_small by lia.
  rewrite (proj2 (Z.gtb_lt _ _)) by lia.
  rewrite Hd, GetConsecutiveData_suffix by lia. cbn.
  unfold pending_input. rewrite Hd. by destruct (decoder_state_ s1).
Qed.

Lemma session_inv_new ics : session_inv (new_JPEGRsImageDecoder E ics).
Proof. split; cbn; auto; done. Qed.

Lemma session_inv_ensure s e s1 :
  session_inv s -> ensure_decoder s = (e, s1) ->
  session_inv s1
  /\ decoder_state_ s1 = decoder_state_ s
  /\ input_offset_ s1 = input_offset_ s
  /\ have_metadata_ s1 = have_metadata_ s
  /\ base s1 = base s
  /\ decoder_ s1 = Some e
  /\ (calls_ s1 = calls_ s
      \/ calls_ s1 = EvCreate kMaxDecodedPixels :: calls_ s).
Proof.
  intros Hi [[Hd ->]|(Hd & -> & ->)]%ensure_decoder_cases.
  - split_and!; auto.
  - destruct Hi as [Hf Hst Hin Hm Ho H1 H2 H3]. destruct (Hf Hd) as [Hk Hz].
    split_and!; cbn; auto.
    split; cbn; auto; try done.
Qed.
End DecodeCall.

Section CallSummary.
Context {E : Type} {engine : JpegRsEngine E} {host : HostPolicy}.
Implicit Type s : JPEGRsImageDecoder E.

Lemma count_create_log (evs0 : list Event) :
  evs0 = [] \/ evs0 = [EvCreate kMaxDecodedPixels] ->
  consumed not_error evs0 = 0
  /\ (forall p st, (forall ev, p ev = true -> is_engine_operation ev = true) ->
                   has_result p st evs0 = false)
  /\ forallb (fun ev => negb (is_frame_buffer_call ev)) evs0 = true
  /\ count is_set_pixel_format evs0 = 0%nat
  /\ count is_size_accepted evs0 = 0%nat
  /\ count is_get_icc_profile evs0 = 0%nat.
Proof.
  intros [->| ->]; split_and!; try done.
  intros p st Hp. unfold has_result. cbn.
  specialize (Hp (EvCreate kMaxDecodedPixels)).
  destruct (p _); [by specialize (Hp eq_refl)|done].
Qed.

(** The header stage keeps the invariant. *)
Lemma session_inv_Initial only_size s s' evs :
  session_inv s ->
  decoder_state_ s = kInitial ->
  calls_ s' = evs ++ calls_ s ->
  input_offset_ s' = advance (input_offset_ s) evs ->
  is_Some (decoder_ s') ->
  initial_outcome only_size s s' evs ->
  session_inv s'.
Proof.
  intros [Hf Hst Hin Hm Ho H1 H2 H3] Hk Hc Hoff [e' Hd] Hout.
  specialize (Hin Hk). rewrite Hin in *.
  destruct Hout as [(Q1 & Q2 & Q3 & Q4 & Q5 & Q6 & Q7 & Q8 & Q9)
                   |(Q1 & Q2 & Q3 & Q4 & Q5 & Q6 & Q7)].
  - split; rewrite ?Hc, ?count_app, ?Q1, ?Q2, ?Q5, ?Q6, ?Q7, ?Hin, ?Hoff;
      try done; auto using advance_in_range; try congruence.
  - assert (Hs' : decoder_state_ s' = kHaveBasicInfo
                  \/ decoder_state_ s' = kComplete).
    { destruct Q7 as [[Q7 _]|[Q7 _]]; auto. }
    split; rewrite ?Hc, ?count_app, ?Q1, ?Q2, ?Q3, ?Q5, ?H1, ?H2, ?Hoff;
      try done; auto using advance_in_range; try congruence.
    + destruct Hs' as [-> | ->]; done.
    + lia.
Qed.

(** The pixel stage keeps the invariant. *)
Lemma session_inv_HaveBasicInfo s s' evs :
  session_inv s ->
  decoder_state_ s = kHaveBasicInfo ->
  calls_ s' = evs ++ calls_ s ->
  forallb is_pixel_stage evs = true ->
  input_offset_ s' = advance (input_offset_ s) evs ->
  have_metadata_ s' = have_metadata_ s ->
  size_available_ (base s') = size_available_ (base s) ->
  is_Some (decoder_ s') ->
  decoder_state_ s' = decoder_state_ s \/ decoder_state_ s' = kComplete ->
  session_inv s'.
Proof.
  intros [Hf Hst Hin Hm Ho H1 H2 H3] Hk Hc Hp Hoff Hmeta Hsz [e' Hd] Hs'.
  destruct Hm as [Hm1 Hm2]; [by rewrite Hk|].
  rewrite Hk in Hs'.
  split; rewrite ?Hc, ?count_app, ?Hmeta, ?Hsz, ?Hoff, ?Hm1;
    try done; auto using advance_in_range; try congruence.
  - destruct Hs' as [-> | ->]; done.
  - rewrite (count_none _ _ evs (fun ev H => proj1
               (pixel_stage_no_metadata_call ev H)) Hp).
    by rewrite H1, Hm1.
  - rewrite (count_none _ _ evs (fun ev H => proj1 (proj2 (proj2
               (pixel_stage_no_metadata_call ev H)))) Hp).
    by rewrite H2, Hm1.
  - rewrite (count_none _ _ evs (fun ev H => proj1 (proj2
               (pixel_stage_no_metadata_call ev H))) Hp).
    by rewrite Hm1 in H3.
Qed.

(** One call of [Decode] keeps the invariant and has a summary. *)
Lemma Decode_call index only_size s s' :
  session_inv s ->
  Decode index only_size s = Some s' ->
  session_inv s' /\ exists evs, call_summary only_size s s' evs.
Proof.
  intros Hi HD. unfold call_summary, transition.
  apply Decode_cases in HD as [[Hr ->] | (Hr & e & s1 & He & HD)].
  { split; [done|]. exists []. cbn.
    rewrite Z.add_0_r, wrap_size_small by apply Hi.
    split_and!; try done. by left. }
  apply returns_at_once_false in Hr as (Hfail & Hsz & Hfc).
  destruct (session_inv_ensure _ _ _ Hi He)
    as (Hi1 & Hs1 & Ho1 & Hm1 & Hb1 & Hd1 & Hc1).
  assert (exists evs0, calls_ s1 = evs0 ++ calls_ s
                       /\ (evs0 = [] \/ evs0 = [EvCreate kMaxDecodedPixels]))
    as (evs0 & Hc0 & Hevs0).
  { destruct Hc1 as [-> | ->]; [exists []|eexists [_]]; split; eauto. }
  destruct (count_create_log evs0 Hevs0) as (C1 & C2 & C3 & C4 & C5 & C6).
  destruct HD as [[-> HD] | (sl & Hg & [[Hk HA] | [Hk HB]])].
  - split; [done|]. exists evs0.
    rewrite C1, !C2, Z.add_0_r, Ho1, wrap_size_small, Hb1 by
      (apply Hi || by intros []).
    split_and!; try done; [by left|].
    intros _. unfold frames. by rewrite Hb1.
  - apply Decode_Initial_summary in HA
      as (evsA & A1 & A2 & A3 & A4 & A5 & A6 & A7).
    split. { eapply session_inv_Initial; eauto. }
    exists (evsA ++ evs0).
    rewrite A1, Hc0, <- app_assoc, consumed_app, C1, Z.add_0_r,
      !has_result_app, !C2, !orb_false_r, forallb_app, C3, andb_true_r
      by (by intros []).
    rewrite A3, advance_consumed, Ho1, A4, Hb1 by (done || apply Hi1).
    assert (Hfs : Failed s1 = Failed s) by (unfold Failed; by rewrite Hb1).
    assert (Hfr : frames s1 = frames s) by (unfold frames; by rewrite Hb1).
    rewrite <- Hs1, <- Hfr, Hk.
    unfold initial_outcome in A7. rewrite Hk in A7.
    destruct A7 as [(Q1 & Q2 & Q3 & Q4 & Q5 & Q6 & Q7 & Q8 & Q9)
                   |(Q1 & Q2 & Q3 & Q4 & Q5 & Q6
                     & [(Q7 & Q8 & Q9)|(Q7 & Q8 & Q9 & Q10 & Q11)])].
    + rewrite Q8. split_and!; try done. by left.
    + rewrite Q8. split_and!; try done. right. by left.
    + rewrite Q9. split_and!; try done.
      * do 3 right. done.
      * intros _. by rewrite Q10, Hfs.
      * by rewrite Q8.
  - assert (only_size = false) as ->.
    { destruct only_size; [|done]. exfalso.
      destruct (inv_meta _ Hi) as [Hm Hav]; [by rewrite <- Hs1, Hk|].
      unfold IsDecodedSizeAvailable in Hsz. unfold Failed in Hfail.
      by rewrite Hfail, Hav, Hm in Hsz. }
    apply Decode_HaveBasicInfo_summary in HB
      as (evsB & B1 & B2 & B3 & B4 & B5 & B6 & B7 & B8 & B9).
    split.
    { eapply session_inv_HaveBasicInfo;
        [exact Hi1|exact Hk|exact B1|exact B2|exact B3|exact B4|exact B5
        |apply B7; rewrite Hd1; eauto
        |destruct B9 as [[? _]|[? _]]; auto]. }
    exists (evsB ++ evs0).
    rewrite B1, Hc0, <- app_assoc, consumed_app, C1, Z.add_0_r,
      !has_result_app, !C2, !orb_false_r by (by intros []).
    rewrite B3, advance_consumed, Ho1, B6, Hb1 by
      (apply Hi1 || (eapply count_none; [|exact B2]; by intros [])).
    rewrite <- Hs1, Hk.
    assert (Hfs : Failed s1 = Failed s) by (unfold Failed; by rewrite Hb1).
    destruct B9 as [[Q1 Q2]|(Q1 & Q2 & Q3 & Q4)].
    + rewrite Q2. split_and!; try done. left. by rewrite Q1.
    + rewrite Q2. split_and!; try done.
      * right. right. left. done.
      * intros _. by rewrite Q3, Hfs.
Qed.
End CallSummary.

(** ** Sessions *)

Section Reachability.
Context {E : Type} {engine : JpegRsEngine E} {host : HostPolicy}.
Implicit Type s : JPEGRsImageDecoder E.

Lemma session_inv_frames s c : session_inv s -> session_inv (set_frames c s).
Proof. intros []. by split. Qed.

Lemma session_inv_deliver chunk all s :
  session_inv s -> session_inv (deliver chunk all s).
Proof. intros []. by split. Qed.

Lemma session_inv_prepare_frames s s' :
  session_inv s -> prepare_frames s = Some s' -> session_inv s'.
Proof.
  unfold prepare_frames, InitializeNewFrame. intros Hi H.
  repeat (simplify_option_eq || case_match);
    auto using session_inv_frames.
Qed.

Lemma session_inv_step c s s' :
  session_inv s -> step c s = Some s' -> session_inv s'.
Proof.
  destruct c; cbn; intros Hi H.
  - simplify_eq. by apply session_inv_deliver.
  - eauto using session_inv_prepare_frames.
  - by destruct (Decode_call _ _ _ _ Hi H).
  - by destruct (Decode_call _ _ _ _ Hi H).
Qed.

Lemma session_inv_run calls : forall s s',
  session_inv s -> run calls s = Some s' -> session_inv s'.
Proof.
  induction calls as [|c calls IH]; cbn; intros s s' Hi H.
  - by simplify_eq.
  - destruct (step c s) as [s1|] eqn:Hs; [|done]. cbn in H.
    eauto using session_inv_step.
Qed.

(** Every session a host can bring about satisfies the invariant. *)
Lemma reachable_inv ics s : reachable ics s -> session_inv s.
Proof.
  intros [calls H]. eapply session_inv_run; [|exact H].
  apply session_inv_new.
Qed.

Lemma run_app calls1 calls2 s :
  run (calls1 ++ calls2) s = s1 ← run calls1 s; run calls2 s1.
Proof.
  revert s. induction calls1 as [|c calls1 IH]; cbn; intros s; [done|].
  destruct (step c s); cbn; auto.
Qed.

Lemma reachable_step ics c s s' :
  reachable ics s -> step c s = Some s' -> reachable ics s'.
Proof.
  intros [calls H] Hs. exists (calls ++ [c]).
  rewrite run_app, H. cbn. by rewrite Hs.
Qed.
End Reachability.

(** ** Terminal failure *)

Section Failure.
Context {E : Type} {engine : JpegRsEngine E} {host : HostPolicy}.
Implicit Type s : JPEGRsImageDecoder E.

Lemma step_failed c s :
  Failed s = true ->
  exists s', step c s = Some s'
             /\ Failed s' = true
             /\ calls_ s' = calls_ s
             /\ decoder_ s' = decoder_ s
             /\ decoder_state_ s' = decoder_state_ s
             /\ input_offset_ s' = input_offset_ s
             /\ have_metadata_ s' = have_metadata_ s.
Proof.
  intros Hf. destruct c; cbn.
  - eexists. split; [reflexivity|]. done.
  - unfold prepare_frames, InitializeNewFrame.
    destruct (decide (frames s = [])); cbn; eexists; split; try reflexivity;
      done.
  - unfold DecodeSize, Decode. rewrite Hf. eauto 10.
  - unfold DecodeFrame, Decode. rewrite Hf. eauto 10.
Qed.

(** C6.  Once the session has failed, every decode call returns the
    session as it found it: no engine or host call is made, nothing of
    the session or of the frame buffers changes.  Whatever the host
    goes on to do (deliver bytes, size the frame cache, ask for the size
    or the frame), the failure flag stays set, the call log does not
    grow and the driver's own state stays as it was. *)
Theorem failed_session_absorbs s :
  Failed s = true ->
  (forall index only_size, Decode index only_size s = Some s)
  /\ (forall calls,
       exists s', run calls s = Some s'
                  /\ Failed s' = true
                  /\ calls_ s' = calls_ s
                  /\ decoder_ s' = decoder_ s
                  /\ decoder_state_ s' = decoder_state_ s
                  /\ input_offset_ s' = input_offset_ s
                  /\ have_metadata_ s' = have_metadata_ s).
Proof.
  intros Hf. split.
  - intros index only_size. unfold Decode. by rewrite Hf.
  - intros calls. revert s Hf.
    induction calls as [|c calls IH]; intros s Hf; cbn.
    + eauto 10.
    + destruct (step_failed c s Hf)
        as (s1 & -> & Hf1 & Hc & Hd & Hst & Ho & Hm). cbn.
      destruct (IH s1 Hf1) as (s' & -> & ? & ? & ? & ? & ? & ?).
      exists s'. split; [done|]. split_and!; congruence.
Qed.
End Failure.

Section FailureExample.
#[local] Existing Instance engine_error.
#[local] Existing Instance roomy_host.

Lemma failed_session_absorbs_witness :
  let s := session_after engine_error roomy_host
             [Deliver ten_bytes false; CallDecode 0] in
  Failed s = true
  /\ Decode 0 false s = Some s
  /\ Decode 0 true s = Some s
  /\ exists s', run [Deliver ten_bytes true; CallDecodeSize; PrepareFrames;
                     CallDecode 0] s = Some s'
                /\ Failed s' = true /\ calls_ s' = calls_ s.
Proof.
  intros s.
  assert (Hf : Failed s = true) by (vm_compute; reflexivity).
  destruct (failed_session_absorbs s Hf) as [H1 H2].
  split; [exact Hf|]. split; [apply H1|]. split; [apply H1|].
  destruct (H2 [Deliver ten_bytes true; CallDecodeSize; PrepareFrames;
                CallDecode 0]) as (s' & Hr & Hf' & Hc & _).
  exists s'. auto.
Defined.
End FailureExample.

(** ** A call with nothing left to read *)

Section NothingToRead.
Context {E : Type} {engine : JpegRsEngine E} {host : HostPolicy}.
Implicit Type s : JPEGRsImageDecoder E.

(** C4.  When the unconsumed suffix of the input is empty, a decode call
    returns without an engine operation: the state machine, the offset,
    the metadata and its flag, and everything inherited from the host
    (frame cache, failure flag, size, input) stay as they were.  The one
    thing the call may do is create the engine handle, when the session
    has none yet.  Nothing here depends on whether all input has been
    delivered or on the state being [kComplete]. *)
Theorem nothing_to_read_is_noop ics s index only_size :
  reachable ics s ->
  reader_size (data_ (base s)) - input_offset_ s = 0 ->
  exists s',
    Decode index only_size s = Some s'
    /\ decoder_state_ s' = decoder_state_ s
    /\ input_offset_ s' = input_offset_ s
    /\ have_metadata_ s' = have_metadata_ s
    /\ basic_info_ s' = basic_info_ s
    /\ is_high_bit_depth_ s' = is_high_bit_depth_ s
    /\ base s' = base s
    /\ (s' = s
        \/ (decoder_ s = None
            /\ decoder_ s' = Some (jpeg_rs_decoder_create kMaxDecodedPixels)
            /\ calls_ s' = EvCreate kMaxDecodedPixels :: calls_ s)).
Proof.
  intros Hi%reachable_inv Hz. unfold Decode.
  destruct (Failed s); [exists s; split_and!; auto|].
  destruct (only_size && IsDecodedSizeAvailable s && have_metadata_ s);
    [exists s; split_and!; auto|].
  destruct (negb only_size && frame_complete index s);
    [exists s; split_and!; auto|].
  unfold ensure_decoder. destruct (decoder_ s) as [e|] eqn:Hd.
  - rewrite Hz. cbn. exists s. split_and!; auto.
  - destruct (inv_fresh _ Hi Hd) as [Hk Ho]. cbn.
    rewrite Ho in Hz. rewrite Hz. cbn.
    eexists. split; [reflexivity|]. cbn. split_and!; auto.
Qed.
End NothingToRead.

Section NothingToReadExample.
#[local] Existing Instance engine_waiting.
#[local] Existing Instance roomy_host.

(** All four bytes have been delivered and consumed, all data has been
    received, and the header parse still wants more. *)
Lemma nothing_to_read_is_noop_witness :
  let s := session_after engine_waiting roomy_host
             [Deliver jpeg_magic true; CallDecode 0] in
  reachable false s
  /\ reader_size (data_ (base s)) - input_offset_ s = 0
  /\ IsAllDataReceived s = true
  /\ decoder_state_ s = kInitial
  /\ exists s', Decode 0 false s = Some s'
                /\ decoder_state_ s' = decoder_state_ s
                /\ input_offset_ s' = input_offset_ s
                /\ have_metadata_ s' = have_metadata_ s
                /\ base s' = base s.
Proof.
  intros s.
  assert (Hr : reachable false s).
  { exists [Deliver jpeg_magic true; CallDecode 0]. vm_compute. reflexivity. }
  assert (Hz : reader_size (data_ (base s)) - input_offset_ s = 0)
    by (vm_compute; reflexivity).
  split; [exact Hr|]. split; [exact Hz|].
  split; [vm_compute; reflexivity|]. split; [vm_compute; reflexivity|].
  destruct (nothing_to_read_is_noop false s 0%nat false Hr Hz)
    as (s' & H1 & H2 & H3 & H4 & _ & _ & H5 & _).
  exists s'. auto.
Defined.
End NothingToReadExample.

(** ** Size-only requests *)

Section SizeOnly.
Context {E : Type} {engine : JpegRsEngine E} {host : HostPolicy}.
Implicit Type s : JPEGRsImageDecoder E.

(** Once the metadata is there, a size-only request is an early exit. *)
Lemma size_only_after_metadata s index :
  session_inv s -> have_metadata_ s = true -> Decode index true s = Some s.
Proof.
  intros Hi Hm. unfold Decode. destruct (Failed s) eqn:Hf; [done|].
  destruct (inv_meta _ Hi) as [_ Hav].
  { intros Hk. by rewrite (inv_initial _ Hi Hk) in Hm. }
  unfold IsDecodedSizeAvailable. unfold Failed in Hf.
  by rewrite Hf, Hav, Hm.
Qed.

(** C5.  A decode call with [only_size = true] leaves the frame cache as
    it found it (no frame is added, no frame is changed, no pixel is
    written) and calls neither [InitFrameBuffer] nor the engine's pixel
    decode, whatever amount of input is available.  It moves the state
    machine at most from [kInitial] to [kHaveBasicInfo], and once the
    metadata has been extracted it does nothing at all. *)
Theorem size_only_leaves_frames_alone ics s index s' :
  reachable ics s ->
  Decode index true s = Some s' ->
  frames s' = frames s
  /\ (exists evs,
        calls_ s' = evs ++ calls_ s
        /\ forallb (fun ev => negb (is_frame_buffer_call ev)) evs = true)
  /\ (decoder_state_ s' = decoder_state_ s
      \/ (decoder_state_ s = kInitial /\ decoder_state_ s' = kHaveBasicInfo))
  /\ (have_metadata_ s = true -> s' = s).
Proof.
  intros Hi%reachable_inv HD.
  destruct (Decode_call _ _ _ _ Hi HD)
    as (_ & evs & Hc & _ & _ & _ & Ht & _ & Hfr).
  destruct (Hfr eq_refl) as [Hfr1 Hfr2].
  split_and!; [done|by exists evs| |].
  - destruct Ht as [Ht|[(Ht1 & Ht2 & _)|[(_ & _ & ? & _)|(_ & _ & ? & _)]]];
      auto; done.
  - intros Hm. rewrite (size_only_after_metadata s index Hi Hm) in HD.
    by simplify_eq.
Qed.
End SizeOnly.

Section SizeOnlyExample.
#[local] Existing Instance engine_complete.
#[local] Existing Instance roomy_host.

(** The whole stream is there, and the size-only request stops at the
    metadata; asked again, it does nothing. *)
Lemma size_only_leaves_frames_alone_witness :
  let s := session_after engine_complete roomy_host [Deliver ten_bytes true] in
  let s' := session_after engine_complete roomy_host
              [Deliver ten_bytes true; CallDecodeSize] in
  reachable false s
  /\ Decode 0 true s = Some s'
  /\ have_metadata_ s' = true
  /\ Size s' = (2, 1)
  /\ frames s' = frames s
  /\ frames s' = []
  /\ decoder_state_ s' = kHaveBasicInfo
  /\ (exists evs,
        calls_ s' = evs ++ calls_ s
        /\ forallb (fun ev => negb (is_frame_buffer_call ev)) evs = true).
Proof.
  intros s s'.
  assert (Hr : reachable false s).
  { exists [Deliver ten_bytes true]. vm_compute. reflexivity. }
  assert (HD : Decode 0 true s = Some s') by (vm_compute; reflexivity).
  destruct (size_only_leaves_frames_alone false s 0%nat s' Hr HD)
    as (H1 & H2 & _ & _).
  split_and!; try done; vm_compute; reflexivity.
Defined.
End SizeOnlyExample.

(** ** The stream cursor *)

Section Cursor.
Context {E : Type} {engine : JpegRsEngine E} {host : HostPolicy}.
Implicit Type s : JPEGRsImageDecoder E.

(** C1, as the code has it.  For every decode call, the [bytes_consumed]
    of each engine operation of the call that returned [Success] or
    [NeedMoreInput] is added to [input_offset_] (on [size_t]) exactly
    once before the call returns, and nothing else is; the
    [bytes_consumed] of an operation that returned [Error] is not added,
    and the call marks the session failed. *)
Theorem bytes_consumed_added_once ics s index only_size s' :
  reachable ics s ->
  Decode index only_size s = Some s' ->
  exists evs,
    calls_ s' = evs ++ calls_ s
    /\ input_offset_ s'
       = wrap_size (input_offset_ s + consumed not_error evs)
    /\ (has_result is_engine_operation Error evs = true -> Failed s' = true).
Proof.
  intros Hi%reachable_inv HD.
  destruct (Decode_call _ _ _ _ Hi HD) as (_ & evs & Hc & Ho & _ & He & _).
  exists evs. done.
Qed.
End Cursor.

Section CursorExamples.
#[local] Existing Instance roomy_host.

(** C1 as stated fails: the header parse returns [Error] with
    [bytes_consumed = 3]; the call returns with the offset still 0, not
    0 + 3. *)
Lemma error_result_is_not_added :
  let s := session_after engine_error roomy_host [Deliver ten_bytes false] in
  exists s',
    Decode (engine := engine_error) 0 false s = Some s'
    /\ calls_ s'
       = [EvSetFailed; EvParseHeaders ten_bytes false (result Error 3);
          EvCreate kMaxDecodedPixels] ++ calls_ s
    /\ consumed any_status
         [EvSetFailed; EvParseHeaders ten_bytes false (result Error 3);
          EvCreate kMaxDecodedPixels] = 3
    /\ input_offset_ s = 0
    /\ input_offset_ s' = 0
    /\ input_offset_ s' <> wrap_size (input_offset_ s + 3).
Proof.
  intros s. eexists. split; [vm_compute; reflexivity|].
  split_and!; try (vm_compute; reflexivity). vm_compute. discriminate.
Qed.

(** A full decode with everything at hand: the header parse returns
    [Success] with 4 bytes, the pixel decode [Success] with 10, and the
    offset goes from 0 to 0 + 4 + 10. *)
Lemma bytes_consumed_added_once_witness :
  let s := session_after engine_complete roomy_host [Deliver ten_bytes true] in
  let s' := session_after engine_complete roomy_host
              [Deliver ten_bytes true; CallDecode 0] in
  reachable (engine := engine_complete) false s
  /\ Decode (engine := engine_complete) 0 false s = Some s'
  /\ input_offset_ s = 0
  /\ input_offset_ s' = 14
  /\ exists evs,
      calls_ s' = evs ++ calls_ s
      /\ input_offset_ s'
         = wrap_size (input_offset_ s + consumed not_error evs)
      /\ (has_result is_engine_operation Error evs = true
          -> Failed s' = true).
Proof.
  intros s s'.
  assert (Hr : reachable (engine := engine_complete) false s).
  { exists [Deliver ten_bytes true]. vm_compute. reflexivity. }
  assert (HD : Decode (engine := engine_complete) 0 false s = Some s')
    by (vm_compute; reflexivity).
  split; [exact Hr|]. split; [exact HD|].
  split; [vm_compute; reflexivity|]. split; [vm_compute; reflexivity|].
  exact (bytes_consumed_added_once false s 0%nat false s' Hr HD).
Defined.
End CursorExamples.

(** ** The metadata extractor *)

Section Metadata.
Context {E : Type} {engine : JpegRsEngine E} {host : HostPolicy}.
Implicit Type s : JPEGRsImageDecoder E.

(** With the metadata extracted, a call can only enter the pixel stage. *)
Lemma only_pixel_stage_after_metadata s index only_size s' :
  session_inv s -> have_metadata_ s = true ->
  Decode index only_size s = Some s' ->
  exists evs, calls_ s' = evs ++ calls_ s /\ forallb is_pixel_stage evs = true.
Proof.
  intros Hi Hm HD.
  assert (Hk : decoder_state_ s <> kInitial).
  { intros Hk. by rewrite (inv_initial _ Hi Hk) in Hm. }
  apply Decode_cases in HD as [[_ ->] | (_ & e & s1 & He & HD)];
    [by exists []|].
  apply ensure_decoder_cases in He as [[Hd ->]|(Hd & _ & _)].
  2: { by destruct (inv_fresh _ Hi Hd). }
  destruct HD as [[-> _] | (sl & _ & [[Hk' _] | [_ HB]])]; [by exists []|done|].
  apply Decode_HaveBasicInfo_summary in HB as (evs & H1 & H2 & _).
  by exists evs.
Qed.
End Metadata.

(** ** The offset and the bytes delivered *)

Section Overshoot.
#[local] Existing Instance greedy_engine.
#[local] Existing Instance roomy_host.

(** The engine of the example keeps the engine contract on every input. *)
Lemma greedy_engine_contract : EngineContract unit.
Proof.
  split; cbn.
  - intros e d a. destruct (4 <=? Z.of_nat (length d)) eqn:H; cbn; lia.
  - intros e d a view stride. lia.
Qed.

(** C7 at a failing input.  Ten bytes are delivered and a full decode is
    asked for.  The header parse is handed the 10 bytes and takes 4; the
    call falls through, and the pixel decode is handed the same 10 bytes,
    of which it reports all 10 as consumed.  Each result is within the
    bytes offered to its operation, and [input_offset_] ends at 14 with
    10 bytes delivered. *)
Theorem fused_call_overshoots_input :
  let s := session_after greedy_engine roomy_host
             [Deliver ten_bytes true; CallDecode 0] in
  run [Deliver ten_bytes true; CallDecode 0] fresh_session = Some s
  /\ calls_ s
     = [EvDecodeImage ten_bytes true 8 (result Success 10);
        EvInitFrameBuffer 0 true; EvGetIccProfile; EvSetPixelFormat Bgra8;
        EvSetSize 2 1 true; EvGetBasicInfo;
        EvParseHeaders ten_bytes true (result Success 4);
        EvCreate kMaxDecodedPixels]
  /\ reader_size ten_bytes = 10
  /\ reader_size (data_ (base s)) = 10
  /\ input_offset_ s = 14
  /\ decoder_state_ s = kComplete
  /\ Failed s = false.
Proof. intros s. split_and!; vm_compute; reflexivity. Qed.

(** The same stream and the same engine, decoded in two calls: the pixel
    decode of the second call is handed the six bytes after the header
    only, and the offset ends at 10. *)
Lemma separate_calls_pass_the_suffix :
  let s := session_after greedy_engine roomy_host
             [Deliver ten_bytes true; CallDecodeSize; CallDecode 0] in
  calls_ s
  = [EvDecodeImage (drop 4 ten_bytes) true 8 (result Success 6);
     EvInitFrameBuffer 0 true; EvGetIccProfile; EvSetPixelFormat Bgra8;
     EvSetSize 2 1 true; EvGetBasicInfo;
     EvParseHeaders ten_bytes true (result Success 4);
     EvCreate kMaxDecodedPixels]
  /\ input_offset_ s = 10
  /\ decoder_state_ s = kComplete.
Proof. intros s. split_and!; vm_compute; reflexivity. Qed.
End Overshoot.

(** ** The pixel stage wants more input *)

Section NeedMoreInput.
Context {E : Type} {engine : JpegRsEngine E} {host : HostPolicy}.
Implicit Type s : JPEGRsImageDecoder E.

(** The pixel stage is what a full decode does in state [kHaveBasicInfo]
    when there are bytes left to read. *)
Lemma Decode_enters_pixel_stage ics s index e :
  reachable ics s ->
  returns_at_once index false s = false ->
  decoder_state_ s = kHaveBasicInfo ->
  decoder_ s = Some e ->
  input_offset_ s < reader_size (data_ (base s)) < 2 ^ size_t_bits ->
  Decode index false s
  = Decode_HaveBasicInfo e (pending_input s) (IsAllDataReceived s) s.
Proof.
  intros Hi%reachable_inv Hr Hk Hd Ho.
  rewrite (Decode_reads index false s e s); auto.
  - by rewrite Hk.
  - unfold ensure_decoder. by rewrite Hd.
  - pose proof (inv_offset _ Hi). lia.
  - lia.
Qed.

(** C9.  When the engine's pixel decode returns [NeedMoreInput], the
    pixel stage returns to the caller with frame 0 flagged as changed and
    its status as the host's [InitFrameBuffer] left it (the driver does
    not set it), with [bytes_consumed] added to [input_offset_], with the
    state machine still in [kHaveBasicInfo], and without a call of
    [SetFailed]. *)
Theorem pixel_decode_need_more_input e sl al s f1 mem r e' out :
  Failed s = false ->
  decoder_state_ s = kHaveBasicInfo ->
  host_init_frame (Size s) (first_frame s) = (true, f1) ->
  pixels_ f1 = Some mem ->
  decode_image_with_stride e sl al (output_view f1 mem s) (row_bytes_ f1)
  = (r, e', out) ->
  status r = NeedMoreInput ->
  exists s',
    Decode_HaveBasicInfo e sl al s = Some s'
    /\ calls_ s'
       = [EvDecodeImage sl al (row_bytes_ f1) r; EvInitFrameBuffer 0 true]
         ++ calls_ s
    /\ (exists f, frames s' !! 0%nat = Some f
                  /\ pixels_changed_ f = true
                  /\ frame_status_ f = frame_status_ f1)
    /\ input_offset_ s' = wrap_size (input_offset_ s + bytes_consumed r)
    /\ decoder_state_ s' = kHaveBasicInfo
    /\ Failed s' = false.
Proof.
  intros Hf Hk Hinit Hpix Hdec Hst.
  destruct (Decode_HaveBasicInfo_bound e sl al s f1 mem r e' out
              Hinit Hpix Hdec)
    as (s' & HD & Hc & _ & _ & (f & Hl & _ & _ & Hch & Hfs) & Hf' & Ho & Hs').
  rewrite Hst in *. cbn in *.
  exists s'. split_and!; try done; try congruence.
  exists f. done.
Qed.
End NeedMoreInput.

Section NeedMoreInputExample.
#[local] Existing Instance engine_partial.
#[local] Existing Instance roomy_host.

(** The metadata has been extracted from the first 4 of 10 bytes; the
    pixel decode is handed the other 6, takes them and wants more. *)
Lemma pixel_decode_need_more_input_witness :
  let s := session_after engine_partial roomy_host
             [Deliver ten_bytes false; CallDecodeSize] in
  let e := demo_script [] [result NeedMoreInput 6] in
  Failed s = false
  /\ decoder_state_ s = kHaveBasicInfo
  /\ decoder_ s = Some e
  /\ input_offset_ s = 4
  /\ exists s',
      Decode_HaveBasicInfo e (pending_input s) false s = Some s'
      /\ Decode 0 false s = Some s'
      /\ (exists f, frames s' !! 0%nat = Some f
                    /\ pixels_changed_ f = true
                    /\ frame_status_ f = kFrameIncomplete)
      /\ input_offset_ s' = 10
      /\ decoder_state_ s' = kHaveBasicInfo
      /\ Failed s' = false.
Proof.
  intros s e.
  assert (Hf : Failed s = false) by (vm_compute; reflexivity).
  assert (Hk : decoder_state_ s = kHaveBasicInfo) by (vm_compute; reflexivity).
  split; [exact Hf|]. split; [exact Hk|].
  split; [vm_compute; reflexivity|]. split; [vm_compute; reflexivity|].
  destruct (pixel_decode_need_more_input e (pending_input s) false s
              {| has_alpha_ := true; pixels_changed_ := false;
                 frame_status_ := kFrameIncomplete;
                 original_frame_rect_ := (0, 0);
                 required_previous_frame_index_ := None;
                 pixels_ := Some (replicate 8 x00); row_bytes_ := 8 |}
              (replicate 8 x00) (result NeedMoreInput 6)
              (demo_script [] []) (replicate 8 x01))
    as (s' & HD & _ & (f & Hl & Hch & Hfs) & Ho & Hs' & Hf');
    try (vm_compute; reflexivity).
  exists s'. split; [exact HD|].
  split; [rewrite <- HD; vm_compute; reflexivity|].
  split; [exists f; split_and!; [exact Hl|exact Hch|exact Hfs]|].
  split; [rewrite Ho; vm_compute; reflexivity|].
  split; [exact Hs'|exact Hf'].
Defined.
End NeedMoreInputExample.

(** ** Header parse and pixel decode in one call *)

Section Fused.
Context {E : Type} {engine : JpegRsEngine E} {host : HostPolicy}.
Implicit Type s : JPEGRsImageDecoder E.

(** A full decode in state [kInitial] with bytes to read: when the header
    parse succeeds, the host accepts the size, sets up frame 0 and gives
    it pixel memory, and the pixel decode succeeds as well, the call
    returns in [kComplete]. *)
Lemma fused_call_forward ics s index r1 e1 f1 mem r2 e3 out :
  reachable ics s ->
  returns_at_once index false s = false ->
  decoder_state_ s = kInitial ->
  input_offset_ s < reader_size (data_ (base s)) < 2 ^ size_t_bits ->
  parse_headers (current_engine s) (pending_input s) (IsAllDataReceived s)
  = (r1, e1) ->
  status r1 = Success ->
  size_policy (width (get_basic_info e1)) (height (get_basic_info e1))
  = true ->
  host_init_frame (width (get_basic_info e1), height (get_basic_info e1))
    (first_frame s) = (true, f1) ->
  pixels_ f1 = Some mem ->
  decode_image_with_stride (set_pixel_format e1 Bgra8) (pending_input s)
    (IsAllDataReceived s)
    (take (Z.to_nat (wrap_size (row_bytes_ f1
                                * wrap_u32 (height (get_basic_info e1)))))
       mem)
    (row_bytes_ f1) = (r2, e3, out) ->
  status r2 = Success ->
  exists s',
    Decode index false s = Some s'
    /\ decoder_state_ s' = kComplete
    /\ have_metadata_ s' = true
    /\ frame0_complete s'
    /\ Failed s' = false
    /\ input_offset_ s'
       = wrap_size (input_offset_ s + bytes_consumed r1 + bytes_consumed r2).
Proof.
  intros Hi%reachable_inv Hr Hk Ho Hp Hst1 Hsz Hinit Hpix Hdec Hst2.
  destruct (ensure_decoder s) as [e s1] eqn:He.
  destruct (session_inv_ensure _ _ _ Hi He)
    as (Hi1 & Hs1 & Ho1 & Hm1 & Hb1 & Hd1 & Hc1).
  pose proof (inv_offset _ Hi) as Hrange.
  destruct (returns_at_once_false _ _ _ Hr) as (Hfail & _ & _).
  rewrite (Decode_reads index false s e s1) by (done || lia).
  rewrite Hs1, Hk.
  assert (He' : current_engine s = e) by (unfold current_engine; by rewrite He).
  assert (Hpi : pending_input s1 = pending_input s).
  { unfold pending_input. by rewrite Ho1, Hb1. }
  assert (Hal : IsAllDataReceived s1 = IsAllDataReceived s).
  { unfold IsAllDataReceived. by rewrite Hb1. }
  rewrite He' in Hp. rewrite Hpi, Hal.
  rewrite (Decode_Initial_accepted false e _ _ s1 r1 e1 Hp Hst1 Hsz).
  destruct (extract_metadata e1 _) as [e2 s2] eqn:Hm.
  destruct (extract_metadata_keeps _ _ _ _ Hm) as (-> & Hsize & Hbi & Hff).
  apply extract_metadata_summary in Hm
    as (_ & _ & _ & _ & _ & _ & HM6 & HM7 & HM8 & _ & HM10 & _).
  cbn in Hsize, Hbi, Hff, HM8, HM10.
  assert (Hff1 : first_frame s2 = first_frame s).
  { rewrite Hff. unfold first_frame, frames. cbn. by rewrite Hb1. }
  destruct (Decode_HaveBasicInfo_bound (set_pixel_format e1 Bgra8)
              (pending_input s) (IsAllDataReceived s) s2 f1 mem r2 e3 out)
    as (s' & HD & _ & _ & Hmeta & (f & Hl & _ & _ & Hch & Hfs) & Hf' & Ho'
        & Hs').
  { by rewrite Hsize, Hff1. }
  { done. }
  { unfold output_view. by rewrite Hbi. }
  rewrite Hst2 in *. cbn in *.
  exists s'. split_and!; try done.
  - congruence.
  - by exists f.
  - rewrite Hf', HM10. unfold Failed in Hfail. by rewrite Hb1.
  - rewrite Ho', HM8, Ho1, wrap_size_add_l. done.
Qed.

(** A full decode in state [kInitial] whose header parse succeeds and
    whose size the host accepts extracts the metadata and is, from there
    on, the pixel stage on the input slice of the same call. *)
Lemma fused_call_continues ics s index r1 e1 :
  reachable ics s ->
  returns_at_once index false s = false ->
  decoder_state_ s = kInitial ->
  input_offset_ s < reader_size (data_ (base s)) < 2 ^ size_t_bits ->
  parse_headers (current_engine s) (pending_input s) (IsAllDataReceived s)
  = (r1, e1) ->
  status r1 = Success ->
  size_policy (width (get_basic_info e1)) (height (get_basic_info e1))
  = true ->
  exists e2 s2,
    have_metadata_ s2 = true
    /\ decoder_state_ s2 = kHaveBasicInfo
    /\ Failed s2 = false
    /\ Decode index false s
       = Decode_HaveBasicInfo e2 (pending_input s) (IsAllDataReceived s) s2.
Proof.
  intros Hi%reachable_inv Hr Hk Ho Hp Hst1 Hsz.
  destruct (ensure_decoder s) as [e s1] eqn:He.
  destruct (session_inv_ensure _ _ _ Hi He)
    as (Hi1 & Hs1 & Ho1 & Hm1 & Hb1 & Hd1 & Hc1).
  pose proof (inv_offset _ Hi) as Hrange.
  destruct (returns_at_once_false _ _ _ Hr) as (Hfail & _ & _).
  rewrite (Decode_reads index false s e s1) by (done || lia).
  rewrite Hs1, Hk.
  assert (He' : current_engine s = e) by (unfold current_engine; by rewrite He).
  assert (Hpi : pending_input s1 = pending_input s).
  { unfold pending_input. by rewrite Ho1, Hb1. }
  assert (Hal : IsAllDataReceived s1 = IsAllDataReceived s).
  { unfold IsAllDataReceived. by rewrite Hb1. }
  rewrite He' in Hp. rewrite Hpi, Hal.
  rewrite (Decode_Initial_accepted false e _ _ s1 r1 e1 Hp Hst1 Hsz).
  destruct (extract_metadata e1 _) as [e2 s2] eqn:Hm.
  apply extract_metadata_summary in Hm
    as (_ & _ & _ & _ & _ & _ & HM6 & HM7 & _ & _ & HM10 & _).
  cbn in HM10. exists e2, s2. split_and!; try done.
  rewrite HM10. unfold Failed in Hfail. by rewrite Hb1.
Qed.

(** C8, as the code has it.  A full decode issued in state [kInitial]
    whose header parse succeeds goes on into the pixel stage within the
    same call when the host accepts the reported size; when the host
    sets up frame 0 with pixel memory and the pixel decode succeeds as
    well, the same call flags the frame as changed, marks it complete
    and moves the state machine to [kComplete].  In every call the state
    machine stays, or moves one state forward, or moves from [kInitial]
    to [kComplete]; the last happens only in a full decode whose header
    parse and pixel decode both succeed, and a successful pixel decode
    always ends in [kComplete] with frame 0 complete. *)
Theorem fused_decode_completes :
  (forall ics s index r1 e1,
     reachable ics s ->
     returns_at_once index false s = false ->
     decoder_state_ s = kInitial ->
     input_offset_ s < reader_size (data_ (base s)) < 2 ^ size_t_bits ->
     parse_headers (current_engine s) (pending_input s) (IsAllDataReceived s)
     = (r1, e1) ->
     status r1 = Success ->
     size_policy (width (get_basic_info e1)) (height (get_basic_info e1))
     = true ->
     exists e2 s2,
       have_metadata_ s2 = true
       /\ decoder_state_ s2 = kHaveBasicInfo
       /\ Failed s2 = false
       /\ Decode index false s
          = Decode_HaveBasicInfo e2 (pending_input s) (IsAllDataReceived s)
              s2)
  /\ (forall ics s index r1 e1 f1 mem r2 e3 out,
     reachable ics s ->
     returns_at_once index false s = false ->
     decoder_state_ s = kInitial ->
     input_offset_ s < reader_size (data_ (base s)) < 2 ^ size_t_bits ->
     parse_headers (current_engine s) (pending_input s) (IsAllDataReceived s)
     = (r1, e1) ->
     status r1 = Success ->
     size_policy (width (get_basic_info e1)) (height (get_basic_info e1))
     = true ->
     host_init_frame (width (get_basic_info e1), height (get_basic_info e1))
       (first_frame s) = (true, f1) ->
     pixels_ f1 = Some mem ->
     decode_image_with_stride (set_pixel_format e1 Bgra8) (pending_input s)
       (IsAllDataReceived s)
       (take (Z.to_nat (wrap_size (row_bytes_ f1
                                   * wrap_u32 (height (get_basic_info e1)))))
          mem)
       (row_bytes_ f1) = (r2, e3, out) ->
     status r2 = Success ->
     exists s',
       Decode index false s = Some s'
       /\ decoder_state_ s' = kComplete
       /\ have_metadata_ s' = true
       /\ frame0_complete s'
       /\ Failed s' = false
       /\ input_offset_ s'
          = wrap_size (input_offset_ s + bytes_consumed r1
                       + bytes_consumed r2))
  /\ (forall ics s index only_size s',
        reachable ics s ->
        Decode index only_size s = Some s' ->
        exists evs,
          calls_ s' = evs ++ calls_ s
          /\ transition only_size s s' evs
          /\ (has_result is_decode_image Success evs = true ->
              decoder_state_ s' = kComplete /\ frame0_complete s'
              /\ Failed s' = false)).
Proof.
  split_and!.
  - intros. eapply fused_call_continues; eauto.
  - intros. eapply fused_call_forward; eauto.
  - intros ics s index only_size s' Hi%reachable_inv HD.
    destruct (Decode_call _ _ _ _ Hi HD)
      as (_ & evs & Hc & _ & _ & _ & Ht & Hs & _).
    exists evs. done.
Qed.
End Fused.

Section FusedCounterexample.
#[local] Existing Instance engine_twice.
#[local] Existing Instance strict_host.

(** C8 as stated fails: the header parse succeeds, the host's size
    policy rejects the 2x1 image, and the call returns in [kInitial]
    without having set up a frame or called the pixel decode. *)
Lemma header_success_without_pixel_decode :
  let s := session_after engine_twice strict_host [Deliver ten_bytes true] in
  exists s',
    Decode 0 false s = Some s'
    /\ decoder_state_ s = kInitial
    /\ calls_ s'
       = [EvSetSize 2 1 false; EvGetBasicInfo;
          EvParseHeaders ten_bytes true (result Success 4);
          EvCreate kMaxDecodedPixels] ++ calls_ s
    /\ has_result is_parse_headers Success (calls_ s') = true
    /\ count is_frame_buffer_call (calls_ s') = 0%nat
    /\ frames s' = []
    /\ decoder_state_ s' = kInitial.
Proof.
  intros s. eexists. split; [vm_compute; reflexivity|].
  split_and!; vm_compute; reflexivity.
Qed.

End FusedCounterexample.

Section FusedExample.
#[local] Existing Instance engine_complete.
#[local] Existing Instance roomy_host.

(** The whole stream is at hand and the host takes the image: one call
    goes from [kInitial] to [kComplete]. *)
Lemma fused_decode_completes_witness :
  let s := session_after engine_complete roomy_host [Deliver ten_bytes true] in
  reachable false s
  /\ decoder_state_ s = kInitial
  /\ parse_headers (current_engine s)
       (pending_input s) (IsAllDataReceived s)
     = (result Success 4, demo_script [] [result Success 10])
  /\ size_policy 2 1 = true
  /\ exists s',
      Decode 0 false s = Some s'
      /\ decoder_state_ s' = kComplete
      /\ have_metadata_ s' = true
      /\ frame0_complete s'
      /\ Failed s' = false
      /\ input_offset_ s' = 14.
Proof.
  intros s.
  assert (Hr : reachable false s).
  { exists [Deliver ten_bytes true]. vm_compute. reflexivity. }
  split; [exact Hr|]. split; [vm_compute; reflexivity|].
  split; [vm_compute; reflexivity|]. split; [vm_compute; reflexivity|].
  destruct (proj1 (proj2 fused_decode_completes)
              false s 0%nat (result Success 4)
              (demo_script [] [result Success 10])
              {| has_alpha_ := true; pixels_changed_ := false;
                 frame_status_ := kFrameIncomplete;
                 original_frame_rect_ := (0, 0);
                 required_previous_frame_index_ := None;
                 pixels_ := Some (replicate 8 x00); row_bytes_ := 8 |}
              (replicate 8 x00) (result Success 10) (demo_script [] [])
              (replicate 8 x01) Hr)
    as (s' & HD & Hs' & Hm & Hfc & Hf & Ho);
    try (vm_compute; reflexivity).
  { split; vm_compute; reflexivity. }
  exists s'. split; [exact HD|]. split; [exact Hs'|]. split; [exact Hm|].
  split; [exact Hfc|]. split; [exact Hf|].
  rewrite Ho. vm_compute. reflexivity.
Defined.
End FusedExample.

(** ** Signature detection *)

Section Signature.
Context {E : Type} {engine : JpegRsEngine E}.

(** C10.  [MatchesJPEGSignature] is a static function of the byte window
    alone: it takes no session and no engine handle, so there is no
    driver or engine state it could change, and it always returns.  With
    fewer than 4 bytes in the window the answer is [false], whatever the
    engine's predicate says; otherwise it is the engine's predicate on
    exactly the first 4 bytes. *)
Theorem signature_detection (fast_reader : list byte) :
  (reader_size fast_reader < 4 ->
   MatchesJPEGSignature fast_reader = Some false)
  /\ (4 <= reader_size fast_reader ->
      MatchesJPEGSignature fast_reader
      = Some (jpeg_rs_signature_check (take 4 fast_reader))
      /\ length (take 4 fast_reader) = 4%nat).
Proof.
  unfold MatchesJPEGSignature, GetConsecutiveData, reader_size. split.
  - intros Hlt. by rewrite (proj2 (Z.ltb_lt _ _)) by lia.
  - intros Hge. rewrite (proj2 (Z.ltb_ge _ _)) by lia. cbn.
    rewrite (proj2 (Z.leb_le _ _)) by lia. cbn.
    split; [done|]. rewrite length_take. lia.
Qed.
End Signature.

Section SignatureExample.
#[local] Existing Instance engine_complete.

Lemma signature_detection_witness :
  reader_size [xff; xd8; xff] < 4
  /\ MatchesJPEGSignature [xff; xd8; xff] = Some false
  /\ 4 <= reader_size ten_bytes
  /\ MatchesJPEGSignature ten_bytes
     = Some (jpeg_rs_signature_check (take 4 ten_bytes))
  /\ MatchesJPEGSignature ten_bytes = Some true.
Proof.
  assert (H3 : reader_size [xff; xd8; xff] < 4) by (vm_compute; reflexivity).
  assert (H10 : 4 <= reader_size ten_bytes) by (vm_compute; discriminate).
  split; [exact H3|].
  split; [exact (proj1 (signature_detection [xff; xd8; xff]) H3)|].
  split; [exact H10|].
  split; [exact (proj1 (proj2 (signature_detection ten_bytes) H10))|].
  vm_compute. reflexivity.
Defined.
End SignatureExample.

(** ** The offset under the engine contract *)

Section Contract.
Context {E : Type} {engine : JpegRsEngine E} {host : HostPolicy}.
Context {contract : EngineContract E}.
Implicit Type s : JPEGRsImageDecoder E.

(** The pixel stage adds to the offset at most the bytes it offered. *)
Lemma Decode_HaveBasicInfo_offset e sl al s s' :
  Decode_HaveBasicInfo e sl al s = Some s' ->
  input_offset_ s' = input_offset_ s
  \/ exists n, 0 <= n <= reader_size sl
               /\ input_offset_ s' = wrap_size (input_offset_ s + n).
Proof.
  unfold Decode_HaveBasicInfo, InitFrameBuffer. intros HD.
  repeat (simplify_option_eq || case_match); cbn; auto;
    match goal with
    | H : decode_image_with_stride ?e ?d ?a ?v ?st = (?r, _, _) |- _ =>
      pose proof (decode_image_consumed e d a v st) as Hc;
      rewrite H in Hc; cbn in Hc
    end;
    right; eexists; (split; [exact Hc|done]).
Qed.

Opaque extract_metadata Decode_HaveBasicInfo.

(** The header stage adds at most the bytes it offered, and on the
    fall-through the pixel stage may add as many again. *)
Lemma Decode_Initial_offset only_size e sl al s s' :
  0 <= input_offset_ s < 2 ^ size_t_bits ->
  Decode_Initial only_size e sl al s = Some s' ->
  exists n,
    0 <= n <= (if only_size then 1 else 2) * reader_size sl
    /\ input_offset_ s' = wrap_size (input_offset_ s + n).
Proof.
  intros Ho HD. unfold Decode_Initial in HD.
  pose proof (parse_headers_consumed e sl al) as Hc.
  destruct (parse_headers e sl al) as [r e1] eqn:Hp. cbn in Hc.
  assert (Hsl : 0 <= reader_size sl) by (unfold reader_size; lia).
  unfold reader_size in *.
  destruct (status r).
  - cbn in HD. unfold SetSize in HD.
    destruct (size_policy _ _); cbn in HD.
    + destruct (extract_metadata _ _) as [e2 s2] eqn:Hm.
      apply extract_metadata_summary in Hm
        as (_ & _ & _ & _ & _ & _ & _ & _ & HM8 & _).
      cbn in HM8. destruct only_size.
      * simplify_eq. exists (bytes_consumed r). split; [lia|done].
      * apply Decode_HaveBasicInfo_offset in HD as [HD|(n & Hn & HD)].
        -- exists (bytes_consumed r). split; [lia|]. by rewrite HD.
        -- exists (bytes_consumed r + n). unfold reader_size in Hn.
           split; [lia|].
           rewrite HD, HM8, wrap_size_add_l. f_equal. lia.
    + simplify_eq. exists (bytes_consumed r). cbn.
      split; [destruct only_size; lia|done].
  - simplify_eq. exists (bytes_consumed r). cbn.
    split; [destruct only_size; lia|done].
  - simplify_eq. exists 0. cbn.
    split; [destruct only_size; lia|].
    by rewrite Z.add_0_r, wrap_size_small.
Qed.

Opaque Decode_Initial.

(** X18.  Under the engine contract the offset never decreases, and a call
    that makes one engine operation keeps it within the bytes delivered;
    a call that falls through from the header stage into the pixel stage
    offers the same bytes twice, and only twice the unconsumed bytes
    bound what it adds. *)
Lemma input_offset_monotone ics s index only_size s' :
  reachable ics s ->
  input_offset_ s <= reader_size (data_ (base s)) ->
  2 * reader_size (data_ (base s)) < 2 ^ size_t_bits ->
  Decode index only_size s = Some s' ->
  input_offset_ s <= input_offset_ s'
  /\ input_offset_ s'
     <= input_offset_ s + 2 * (reader_size (data_ (base s)) - input_offset_ s)
  /\ (only_size = true \/ decoder_state_ s <> kInitial ->
      input_offset_ s' <= reader_size (data_ (base s))).
Proof.
  intros Hi%reachable_inv Hle Hsz HD.
  pose proof (inv_offset _ Hi) as Ho.
  assert (Hnn : 0 <= reader_size (data_ (base s)))
    by (unfold reader_size; lia).
  apply Decode_cases in HD as [[_ ->] | (Hr & e & s1 & He & HD)];
    [split_and!; try lia; intros _; lia|].
  destruct (session_inv_ensure _ _ _ Hi He)
    as (Hi1 & Hs1 & Ho1 & _ & Hb1 & _ & _).
  rewrite Hb1, Ho1 in HD.
  destruct HD as [[-> _] | (sl & Hg & HD)];
    [split_and!; try lia; intros _; lia|].
  assert (Hsl : reader_size sl
                = reader_size (data_ (base s)) - input_offset_ s).
  { rewrite wrap_size_small in Hg by lia.
    rewrite GetConsecutiveData_suffix in Hg by lia. simplify_eq.
    unfold reader_size in *. rewrite length_drop. lia. }
  destruct HD as [[Hk HA] | [Hk HB]].
  - apply Decode_Initial_offset in HA as (n & Hn & HA); [|lia].
    rewrite Ho1 in HA. rewrite HA, Hsl in *.
    rewrite wrap_size_small by (destruct only_size; lia).
    split; [lia|]. split; [destruct only_size; lia|].
    intros [-> | Hne]; [lia|]. by rewrite <- Hs1 in Hne.
  - apply Decode_HaveBasicInfo_offset in HB as [HB|(n & Hn & HB)];
      rewrite Ho1 in HB; rewrite HB, ?Hsl in *.
    + split_and!; try lia; intros _; lia.
    + rewrite wrap_size_small by lia. split_and!; try lia; intros _; lia.
Qed.
End Contract.

(** ** More facts about the stages *)

Section StageFields.
Context {E : Type} {engine : JpegRsEngine E} {host : HostPolicy}.
Implicit Type s : JPEGRsImageDecoder E.

(** What the pixel stage leaves alone, and what it does to the cache. *)
Lemma Decode_HaveBasicInfo_keeps e sl al s s' :
  Decode_HaveBasicInfo e sl al s = Some s' ->
  basic_info_ s' = basic_info_ s
  /\ is_high_bit_depth_ s' = is_high_bit_depth_ s
  /\ size_ (base s') = size_ (base s)
  /\ embedded_color_profile_ (base s') = embedded_color_profile_ (base s)
  /\ ignores_color_space_ (base s') = ignores_color_space_ (base s)
  /\ is_all_data_received_ (base s') = is_all_data_received_ (base s)
  /\ length (frames s') = (if decide (frames s = []) then 1%nat
                           else length (frames s)).
Proof.
  unfold Decode_HaveBasicInfo, InitFrameBuffer. intros HD.
  repeat (simplify_option_eq || case_match); cbn;
    rewrite ?length_insert; split_and!; done.
Qed.

(** What the metadata extractor does to the fields it touches. *)
Lemma extract_metadata_fields e s e' s' :
  extract_metadata e s = (e', s') ->
  is_high_bit_depth_ s'
  = is_high_bit_depth_ s || (bits_per_sample (basic_info_ s) >? 8)
  /\ ignores_color_space_ (base s') = ignores_color_space_ (base s)
  /\ size_available_ (base s') = size_available_ (base s)
  /\ is_all_data_received_ (base s') = is_all_data_received_ (base s)
  /\ (ignores_color_space_ (base s) = true ->
      embedded_color_profile_ (base s') = embedded_color_profile_ (base s)
      /\ forall l, calls_ s' = l ++ calls_ s ->
                   count is_get_icc_profile l = 0%nat)
  /\ (get_icc_profile (set_pixel_format e Bgra8) = [] ->
      embedded_color_profile_ (base s') = embedded_color_profile_ (base s))
  /\ (ignores_color_space_ (base s) = false ->
      get_icc_profile (set_pixel_format e Bgra8) <> [] ->
      embedded_color_profile_ (base s')
      = match ColorProfile_Create (get_icc_profile (set_pixel_format e Bgra8))
        with
        | Some p => Some p
        | None => embedded_color_profile_ (base s)
        end).
Proof.
  unfold extract_metadata, IgnoresColorSpace. intros HD.
  destruct (ignores_color_space_ (base s)) eqn:Hig.
  - assert (Hig' : forall b : bool, ignores_color_space_
                     (base (record (EvSetPixelFormat Bgra8)
                              (set_decoder (set_pixel_format e Bgra8)
                                 (if b then set_is_high_bit_depth true s
                                  else s)))) = true).
    { intros []; exact Hig. }
    rewrite Hig' in HD. cbn in HD. simplify_eq.
    destruct (bits_per_sample (basic_info_ s) >? 8); cbn;
      rewrite ?orb_true_r, ?orb_false_r; split_and!; try done.
    + split; [done|]. intros l Hl.
      apply (List.app_inv_tail (calls_ s) [EvSetPixelFormat Bgra8] l) in Hl.
      by subst.
    + split; [done|]. intros l Hl.
      apply (List.app_inv_tail (calls_ s) [EvSetPixelFormat Bgra8] l) in Hl.
      by subst.
  - assert (Hig' : forall b : bool, ignores_color_space_
                     (base (record (EvSetPixelFormat Bgra8)
                              (set_decoder (set_pixel_format e Bgra8)
                                 (if b then set_is_high_bit_depth true s
                                  else s)))) = false).
    { intros []; exact Hig. }
    rewrite Hig' in HD. cbn in HD.
    destruct (bits_per_sample (basic_info_ s) >? 8);
      destruct (get_icc_profile (set_pixel_format e Bgra8)) eqn:Hicc;
      cbn in HD;
      try destruct (ColorProfile_Create _) eqn:Hcp;
      simplify_eq; cbn; rewrite ?orb_true_r, ?orb_false_r, ?Hig;
      split_and!; done.
Qed.
End StageFields.

Section FactsKept.
Context {E : Type} {engine : JpegRsEngine E} {host : HostPolicy}.
Implicit Type s : JPEGRsImageDecoder E.

Opaque extract_metadata Decode_HaveBasicInfo.

Lemma count_cons p ev evs :
  count p (ev :: evs) = ((if p ev then 1 else 0) + count p evs)%nat.
Proof. unfold count. cbn. by destruct (p ev). Qed.

Lemma session_facts_new ics :
  session_facts ics (new_JPEGRsImageDecoder E ics).
Proof. split; cbn; try done. lia. Qed.

(** The pixel stage keeps the facts. *)
Lemma session_facts_HaveBasicInfo ics e sl al s s' :
  session_facts ics s ->
  is_Some (decoder_ s) ->
  decoder_state_ s = kHaveBasicInfo ->
  Decode_HaveBasicInfo e sl al s = Some s' ->
  session_facts ics s'.
Proof.
  intros [F1 F2 F3 F4 F5 F6 F7 F8 F9] [e0 Hd] Hk HD.
  destruct (Decode_HaveBasicInfo_keeps _ _ _ _ _ HD)
    as (K1 & K2 & K3 & K4 & K5 & K6 & K7).
  apply Decode_HaveBasicInfo_summary in HD
    as (evs & B1 & B2 & B3 & B4 & B5 & B6 & B7 & B8 & B9).
  destruct B7 as [e1 Hd1]; [by rewrite Hd|].
  assert (Hc : forall p, (forall ev, is_pixel_stage ev = true -> p ev = false) ->
                         count p (calls_ s') = count p (calls_ s)).
  { intros p Hp. rewrite B1, count_app, (count_none p _ evs Hp B2). done. }
  split; unfold Size in *; rewrite ?K1, ?K2, ?K3, ?K4, ?K5, ?B4, ?B5; try done.
  - rewrite Hc, F1, Hd, Hd1 by (by intros []). done.
  - intros Hi. destruct (F6 Hi) as [G1 G2]. split; [done|].
    rewrite Hc by (by intros []). done.
  - rewrite K7. destruct (decide (frames s = [])); [lia|done].
  - intros Hc'. destruct B9 as [[B9 _]|(_ & _ & _ & B9)]; [|done].
    congruence.
Qed.

(** The header stage keeps the facts. *)
Lemma session_facts_Initial ics only_size e sl al s s' :
  session_inv s ->
  session_facts ics s ->
  decoder_state_ s = kInitial ->
  is_Some (decoder_ s) ->
  Decode_Initial only_size e sl al s = Some s' ->
  session_facts ics s'.
Proof.
  intros Hi [F1 F2 F3 F4 F5 F6 F7 F8 F9] Hk [e0 Hd] HD.
  pose proof (inv_initial _ Hi Hk) as Hm.
  rewrite Hd in F1. rewrite Hm in *.
  destruct (parse_headers e sl al) as [r e1] eqn:Hp.
  assert (Hsimple : forall s0 : JPEGRsImageDecoder E,
             base s0 = base s \/ base s0 = set_failed (base s) ->
             decoder_ s0 = Some e1 ->
             decoder_state_ s0 = kInitial ->
             have_metadata_ s0 = false ->
             is_high_bit_depth_ s0 = is_high_bit_depth_ s ->
             count is_create (calls_ s0) = 1%nat ->
             count is_get_icc_profile (calls_ s0)
             = count is_get_icc_profile (calls_ s) ->
             session_facts ics s0).
  { intros s0 Hb Hd0 Hk0 Hm0 Hh0 Hc0 Hi0.
    assert (Hb' : ignores_color_space_ (base s0) = ignores_color_space_ (base s)
                  /\ size_available_ (base s0) = size_available_ (base s)
                  /\ embedded_color_profile_ (base s0)
                     = embedded_color_profile_ (base s)
                  /\ frames s0 = frames s).
    { unfold frames. destruct Hb as [-> | ->]; done. }
    destruct Hb' as (Q1 & Q2 & Q3 & Q4).
    split; rewrite ?Hd0, ?Hm0, ?Hk0, ?Q1, ?Q2, ?Q3, ?Q4, ?Hh0, ?Hi0;
      done. }
  destruct (status r) eqn:Hst.
  - destruct (size_policy (width (get_basic_info e1))
                (height (get_basic_info e1))) eqn:Hsz.
    + rewrite (Decode_Initial_accepted only_size e sl al s r e1 Hp Hst Hsz)
        in HD.
      destruct (extract_metadata e1 _) as [e2 s2] eqn:Hx.
      destruct (extract_metadata_keeps _ _ _ _ Hx) as (-> & X1 & X2 & X3).
      destruct (extract_metadata_fields _ _ _ _ Hx)
        as (Y1 & Y2 & Y3 & _ & Y5 & _).
      apply extract_metadata_summary in Hx
        as (evsM & M1 & M2 & M3 & M4 & M5 & M6 & M7 & M8 & M9 & M10 & M11
            & M12 & M13).
      cbn in X1, X2, X3, Y1, Y2, Y3, Y5, M1, M9, M11.
      assert (HMc : count is_create evsM = 0%nat).
      { eapply count_none; [|exact M5]. intros ev; cbn.
        by destruct (is_create ev), (is_size_accepted ev). }
      assert (Hs2 : session_facts ics s2).
      { split; rewrite ?M6, ?M7, ?M13, ?X1, ?X2, ?Y1, ?Y2, ?Y3; try done.
        - rewrite M1, count_app, !count_cons, HMc. cbn.
          by rewrite F1.
        - by rewrite F5.
        - intros Hics. rewrite F2 in Y5. destruct (Y5 Hics) as [Z1 Z2].
          destruct (F6 Hics) as [G1 G2]. rewrite Z1. split; [done|].
          rewrite M1, count_app, !count_cons, G2, (Z2 evsM M1). done.
        - by rewrite M9.
      }
      destruct only_size; [by simplify_eq|].
      eapply session_facts_HaveBasicInfo; eauto.
    + rewrite (Decode_Initial_rejected only_size e sl al s r e1 Hp Hst Hsz)
        in HD.
      simplify_eq.
      apply Hsimple; cbn; auto; rewrite ?count_cons, ?F1, ?F5; done.
  - unfold Decode_Initial in HD. rewrite Hp, Hst in HD. simplify_eq.
    apply Hsimple; cbn; auto; rewrite ?count_cons, ?F1, ?F5; done.
  - unfold Decode_Initial in HD. rewrite Hp, Hst in HD. simplify_eq.
    apply Hsimple; cbn; auto; rewrite ?count_cons, ?F1, ?F5; done.
Qed.
End FactsKept.

Section FactsReachable.
Context {E : Type} {engine : JpegRsEngine E} {host : HostPolicy}.
Implicit Type s : JPEGRsImageDecoder E.

Opaque Decode_Initial Decode_HaveBasicInfo.

Lemma session_facts_ensure ics s e s1 :
  session_inv s -> session_facts ics s -> ensure_decoder s = (e, s1) ->
  session_facts ics s1.
Proof.
  intros Hi [F1 F2 F3 F4 F5 F6 F7 F8 F9]
    [[Hd ->]|(Hd & -> & ->)]%ensure_decoder_cases; [by split|].
  destruct (inv_fresh _ Hi Hd) as [Hk _].
  rewrite Hd in F1. unfold count in *.
  split; cbn; rewrite ?F1; done.
Qed.

Lemma session_facts_Decode ics index only_size s s' :
  session_inv s -> session_facts ics s ->
  Decode index only_size s = Some s' ->
  session_facts ics s'.
Proof.
  intros Hi Hf HD.
  apply Decode_cases in HD as [[_ ->] | (_ & e & s1 & He & HD)]; [done|].
  pose proof (session_facts_ensure _ _ _ _ Hi Hf He) as Hf1.
  destruct (session_inv_ensure _ _ _ Hi He) as (Hi1 & _ & _ & _ & _ & Hd1 & _).
  destruct HD as [[-> _] | (sl & _ & [[Hk HA] | [Hk HB]])]; [done| |].
  - eapply session_facts_Initial; eauto.
  - eapply session_facts_HaveBasicInfo; eauto.
Qed.

Lemma session_facts_step ics c s s' :
  session_inv s -> session_facts ics s -> step c s = Some s' ->
  session_facts ics s'.
Proof.
  intros Hi Hf. destruct c; cbn; intros H.
  - simplify_eq. destruct Hf. by split.
  - unfold prepare_frames, InitializeNewFrame in H.
    destruct (decide (frames s = [])) as [Hnil|]; [|by simplify_eq].
    cbn in H. simplify_eq. destruct Hf as [F1 F2 F3 F4 F5 F6 F7 F8 F9].
    split; try done.
    intros Hk. destruct (F9 Hk) as (f & Hl & _). by rewrite Hnil in Hl.
  - eauto using session_facts_Decode.
  - eauto using session_facts_Decode.
Qed.

Lemma session_facts_run ics calls : forall s s',
  session_inv s -> session_facts ics s -> run calls s = Some s' ->
  session_facts ics s'.
Proof.
  induction calls as [|c calls IH]; cbn; intros s s' Hi Hf H.
  - by simplify_eq.
  - destruct (step c s) as [s1|] eqn:Hs; [|done]. cbn in H.
    eauto using session_facts_step, session_inv_step.
Qed.

(** Every session a host can bring about has the facts. *)
Lemma reachable_facts ics s : reachable ics s -> session_facts ics s.
Proof.
  intros [calls H].
  eapply session_facts_run; [apply session_inv_new| |exact H].
  apply session_facts_new.
Qed.
End FactsReachable.

(** ** Failure and the reading of the basic info *)

Section FailureKept.
Context {E : Type} {engine : JpegRsEngine E} {host : HostPolicy}.
Implicit Type s : JPEGRsImageDecoder E.

Opaque Decode_HaveBasicInfo.

Lemma failure_facts_new ics :
  failure_facts (new_JPEGRsImageDecoder E ics).
Proof. split; cbn; try done. lia. Qed.

(** The metadata extractor does not read the basic info. *)
Lemma extract_metadata_basic_info e s e' s' :
  extract_metadata e s = (e', s') ->
  count is_get_basic_info (calls_ s') = count is_get_basic_info (calls_ s).
Proof.
  unfold extract_metadata. intros HD.
  repeat (simplify_eq || case_match); cbn; by rewrite ?count_cons.
Qed.

(** The pixel stage keeps the facts. *)
Lemma failure_facts_HaveBasicInfo e sl al s s' :
  failure_facts s ->
  Failed s = false ->
  have_metadata_ s = true ->
  decoder_state_ s = kHaveBasicInfo ->
  Decode_HaveBasicInfo e sl al s = Some s' ->
  failure_facts s'.
Proof.
  intros [F1 F2 F3 F4] Hf Hm Hst HD.
  apply Decode_HaveBasicInfo_summary in HD
    as (evs & B1 & B2 & _ & B4 & _ & _ & _ & _ & B9).
  assert (Hc : count is_get_basic_info (calls_ s')
               = count is_get_basic_info (calls_ s)).
  { assert (H0 : count is_get_basic_info evs = 0%nat).
    { eapply count_none; [|exact B2]. by intros []. }
    by rewrite B1, count_app, H0. }
  split.
  - rewrite B4, Hc. exact F1.
  - rewrite B4, Hm. done.
  - rewrite Hc. exact F3.
  - intros Hk. destruct B9 as [[B9 _]|(_ & _ & B9 & _)]; congruence.
Qed.

(** The header stage keeps the facts. *)
Lemma failure_facts_Initial only_size e sl al s s' :
  session_inv s ->
  failure_facts s ->
  Failed s = false ->
  decoder_state_ s = kInitial ->
  Decode_Initial only_size e sl al s = Some s' ->
  failure_facts s'.
Proof.
  intros Hi [F1 F2 F3 F4] Hf Hk HD.
  pose proof (inv_initial _ Hi Hk) as Hm.
  pose proof (F2 Hm Hf) as H0.
  destruct (parse_headers e sl al) as [r e1] eqn:Hp.
  destruct (status r) eqn:Hst.
  - destruct (size_policy (width (get_basic_info e1))
                (height (get_basic_info e1))) eqn:Hsz.
    + rewrite (Decode_Initial_accepted only_size e sl al s r e1 Hp Hst Hsz)
        in HD.
      destruct (extract_metadata e1 _) as [e2 s2] eqn:Hx.
      pose proof (extract_metadata_basic_info _ _ _ _ Hx) as Hc.
      apply extract_metadata_summary in Hx
        as (_ & _ & _ & _ & _ & _ & M6 & M7 & _ & _ & M10 & _).
      cbn -[count] in Hc, M10. rewrite !count_cons, H0 in Hc. cbn in Hc.
      assert (Hs2 : failure_facts s2).
      { split; rewrite ?Hc, ?M6, ?M7; done. }
      destruct only_size; [by simplify_eq|].
      eapply failure_facts_HaveBasicInfo; eauto.
    + rewrite (Decode_Initial_rejected only_size e sl al s r e1 Hp Hst Hsz)
        in HD.
      simplify_eq.
      split; cbn -[count]; rewrite ?count_cons, ?H0, ?Hk; cbn; done.
  - unfold Decode_Initial in HD. rewrite Hp, Hst in HD. simplify_eq.
    split; cbn -[count]; rewrite ?count_cons, ?H0, ?Hk; cbn; try done;
      try lia; intros; congruence.
  - unfold Decode_Initial in HD. rewrite Hp, Hst in HD. simplify_eq.
    split; cbn -[count]; rewrite ?count_cons, ?H0, ?Hk; cbn; try done;
      try lia; intros; congruence.
Qed.
End FailureKept.

Section FailureReachable.
Context {E : Type} {engine : JpegRsEngine E} {host : HostPolicy}.
Implicit Type s : JPEGRsImageDecoder E.

Opaque Decode_Initial Decode_HaveBasicInfo.

Lemma failure_facts_ensure s e s1 :
  failure_facts s -> ensure_decoder s = (e, s1) -> failure_facts s1.
Proof.
  intros [F1 F2 F3 F4] [[Hd ->]|(Hd & -> & ->)]%ensure_decoder_cases;
    [by split|].
  split; cbn -[count]; rewrite ?count_cons; cbn; done.
Qed.

Lemma failure_facts_Decode index only_size s s' :
  session_inv s -> failure_facts s ->
  Decode index only_size s = Some s' ->
  failure_facts s'.
Proof.
  intros Hi Hf HD.
  apply Decode_cases in HD as [[_ ->] | (Hr & e & s1 & He & HD)]; [done|].
  apply returns_at_once_false in Hr as (Hfail & _).
  pose proof (failure_facts_ensure _ _ _ Hf He) as Hf1.
  destruct (session_inv_ensure _ _ _ Hi He)
    as (Hi1 & _ & _ & _ & Hb1 & _ & _).
  assert (Hfail1 : Failed s1 = false) by (unfold Failed; by rewrite Hb1).
  destruct HD as [[-> _] | (sl & _ & [[Hk HA] | [Hk HB]])]; [done| |].
  - eapply failure_facts_Initial; eauto.
  - eapply failure_facts_HaveBasicInfo; eauto.
    apply (inv_meta _ Hi1). by rewrite Hk.
Qed.

Lemma failure_facts_step c s s' :
  session_inv s -> failure_facts s -> step c s = Some s' ->
  failure_facts s'.
Proof.
  intros Hi Hf. destruct c; cbn; intros H.
  - simplify_eq. destruct Hf. by split.
  - unfold prepare_frames, InitializeNewFrame in H.
    destruct (decide (frames s = [])) as [Hnil|]; [|by simplify_eq].
    cbn in H. simplify_eq. destruct Hf. by split.
  - eauto using failure_facts_Decode.
  - eauto using failure_facts_Decode.
Qed.

Lemma failure_facts_run calls : forall s s',
  session_inv s -> failure_facts s -> run calls s = Some s' ->
  failure_facts s'.
Proof.
  induction calls as [|c calls IH]; cbn; intros s s' Hi Hf H.
  - by simplify_eq.
  - destruct (step c s) as [s1|] eqn:Hs; [|done]. cbn in H.
    eauto using failure_facts_step, session_inv_step.
Qed.

(** Every session a host can bring about has the facts. *)
Lemma reachable_failure_facts ics s : reachable ics s -> failure_facts s.
Proof.
  intros [calls H].
  eapply failure_facts_run; [apply session_inv_new| |exact H].
  apply failure_facts_new.
Qed.
End FailureReachable.

(** ** What holds of every session *)

Section SessionProperties.
Context {E : Type} {engine : JpegRsEngine E} {host : HostPolicy}.
Implicit Type s : JPEGRsImageDecoder E.

Opaque Decode_Initial Decode_HaveBasicInfo.

(** X1.  The engine handle is created at most once in a session: the log
    has one [jpeg_rs_decoder_create] when the session holds a decoder and
    none when it does not. *)
Theorem engine_created_once ics s :
  reachable ics s ->
  (count is_create (calls_ s) <= 1)%nat
  /\ (count is_create (calls_ s) = 1%nat <-> is_Some (decoder_ s)).
Proof.
  intros Hr. pose proof (fact_create _ _ (reachable_facts _ _ Hr)) as H.
  rewrite H. destruct (decoder_ s) as [e|].
  - split; [lia|]. split; eauto.
  - split; [lia|]. split; [done|]. by intros [? ?].
Qed.

(** X2.  [decoder_state_] is never [kError] and never [kDecoding]: a
    failure is recorded in the host's failure flag only.  A session that
    has failed has its state machine in [kInitial] or in
    [kHaveBasicInfo]: no failure follows completion. *)
Theorem decoder_state_never_error ics s :
  reachable ics s ->
  decoder_state_ s <> kError
  /\ decoder_state_ s <> kDecoding
  /\ (Failed s = true ->
      decoder_state_ s = kInitial \/ decoder_state_ s = kHaveBasicInfo).
Proof.
  intros Hr. pose proof (reachable_inv _ _ Hr) as Hi.
  pose proof (fail_not_complete _ (reachable_failure_facts _ _ Hr)) as Hc.
  destruct (inv_state _ Hi) as [Hk | [Hk | Hk]]; rewrite Hk in *.
  - split_and!; [done|done|]. by left.
  - split_and!; [done|done|]. by right.
  - split_and!; [done|done|]. intros Hf. rewrite (Hc eq_refl) in Hf. done.
Qed.

(** X3.  The size is available exactly when the metadata has been
    extracted and the session has not failed, and then it is the size
    the engine reported and the host's size policy accepted. *)
Theorem size_is_the_reported_size ics s :
  reachable ics s ->
  IsDecodedSizeAvailable s = negb (Failed s) && have_metadata_ s
  /\ (have_metadata_ s = true ->
      Size s = (width (basic_info_ s), height (basic_info_ s))
      /\ size_policy (width (basic_info_ s)) (height (basic_info_ s)) = true).
Proof.
  intros Hf%reachable_facts. split.
  - unfold IsDecodedSizeAvailable, Failed.
    by rewrite (fact_size_available _ _ Hf).
  - apply (fact_size _ _ Hf).
Qed.

(** X4.  [ImageIsHighBitDepth] is false until the metadata has been
    extracted, and from then on it says whether the image has more than
    8 bits per sample. *)
Theorem high_bit_depth_classification ics s :
  reachable ics s ->
  ImageIsHighBitDepth s
  = have_metadata_ s && (bits_per_sample (basic_info_ s) >? 8).
Proof. intros Hf%reachable_facts. apply (fact_high_bit_depth _ _ Hf). Qed.

(** X5.  The embedded colour profile: a session that ignores the colour
    space never asks the engine for the ICC profile and never holds one;
    any session that holds one has extracted its metadata and does not
    ignore the colour space. *)
Theorem color_profile_only_when_wanted ics s :
  reachable ics s ->
  (ics = true ->
   embedded_color_profile_ (base s) = None
   /\ count is_get_icc_profile (calls_ s) = 0%nat)
  /\ (is_Some (embedded_color_profile_ (base s)) ->
      have_metadata_ s = true /\ ics = false).
Proof.
  intros Hf%reachable_facts. split; [apply (fact_no_profile _ _ Hf)|].
  intros [p Hp]. split.
  - destruct (have_metadata_ s) eqn:Hm; [done|].
    by rewrite (fact_profile_late _ _ Hf Hm) in Hp.
  - destruct ics; [|done].
    destruct (fact_no_profile _ _ Hf eq_refl) as [Hn _]. congruence.
Qed.

(** X6.  The frame cache of a session never holds more than one frame. *)
Theorem single_frame_cache ics s :
  reachable ics s -> (length (frames s) <= 1)%nat.
Proof. intros Hf%reachable_facts. apply (fact_one_frame _ _ Hf). Qed.

(** X7.  [kComplete] is final.  In a session whose state machine is in
    [kComplete], frame 0 is complete and flagged as changed and the
    metadata is there; a call for the size or for frame 0 returns the
    session as it is, and so does every other decode call that returns:
    no engine operation, no change of the pixel buffer. *)
Theorem complete_is_final ics s :
  reachable ics s ->
  decoder_state_ s = kComplete ->
  frame0_complete s
  /\ have_metadata_ s = true
  /\ (forall only_size, Decode 0 only_size s = Some s)
  /\ (forall index only_size s',
        Decode index only_size s = Some s' -> s' = s).
Proof.
  intros Hr Hk. pose proof (reachable_inv _ _ Hr) as Hi.
  pose proof (fact_complete _ _ (reachable_facts _ _ Hr) Hk) as Hfc.
  destruct (inv_meta _ Hi) as [Hm Hav]; [by rewrite Hk|].
  split; [done|]. split; [done|]. split.
  - intros [|]; [by apply size_only_after_metadata|].
    unfold Decode. destruct (Failed s); [done|]. cbn.
    destruct Hfc as (f & Hl & Hst & _).
    unfold frame_complete. by rewrite Hl, Hst.
  - intros index only_size s' HD.
    apply Decode_cases in HD as [[_ ->] | (_ & e & s1 & He & HD)]; [done|].
    destruct (session_inv_ensure _ _ _ Hi He) as (_ & Hs1 & _).
    apply ensure_decoder_cases in He as [[_ ->]|(Hd & _ & _)].
    2: { destruct (inv_fresh _ Hi Hd). congruence. }
    destruct HD as [[-> _] | (sl & _ & [[Hk' _] | [Hk' _]])];
      [done|congruence|congruence].
Qed.

(** X8.  The metadata is stable.  Once the metadata has been extracted,
    no decode call changes the basic info, the size, the high-bit-depth
    answer, the embedded colour profile or the flag itself. *)
Theorem metadata_is_stable ics s index only_size s' :
  reachable ics s ->
  have_metadata_ s = true ->
  Decode index only_size s = Some s' ->
  have_metadata_ s' = true
  /\ basic_info_ s' = basic_info_ s
  /\ Size s' = Size s
  /\ ImageIsHighBitDepth s' = ImageIsHighBitDepth s
  /\ embedded_color_profile_ (base s') = embedded_color_profile_ (base s).
Proof.
  intros Hi%reachable_inv Hm HD.
  assert (Hk : decoder_state_ s <> kInitial).
  { intros Hk. by rewrite (inv_initial _ Hi Hk) in Hm. }
  apply Decode_cases in HD as [[_ ->] | (_ & e & s1 & He & HD)]; [done|].
  apply ensure_decoder_cases in He as [[_ ->]|(Hd & _ & _)].
  2: { by destruct (inv_fresh _ Hi Hd). }
  destruct HD as [[-> _] | (sl & _ & [[Hk' _] | [_ HB]])]; [done|done|].
  destruct (Decode_HaveBasicInfo_keeps _ _ _ _ _ HB)
    as (K1 & K2 & K3 & K4 & _).
  apply Decode_HaveBasicInfo_summary in HB as (_ & _ & _ & _ & B4 & _).
  unfold Size, ImageIsHighBitDepth. split_and!; congruence.
Qed.
End SessionProperties.

(** ** The paths through a call *)

Section PathProperties.
Context {E : Type} {engine : JpegRsEngine E} {host : HostPolicy}.
Implicit Type s : JPEGRsImageDecoder E.

(** X9.  Missing output memory is a terminal failure.  When the host's
    [InitFrameBuffer] fails, or succeeds with a frame that has no pixel
    memory, the pixel stage marks the session failed and returns without
    having called the engine: offset, state machine, decoder and metadata
    flag are untouched. *)
Theorem missing_output_memory_fails e sl al s ok f1 :
  host_init_frame (Size s) (first_frame s) = (ok, f1) ->
  ok = false \/ pixels_ f1 = None ->
  exists s',
    Decode_HaveBasicInfo e sl al s = Some s'
    /\ Failed s' = true
    /\ calls_ s' = [EvSetFailed; EvInitFrameBuffer 0 ok] ++ calls_ s
    /\ input_offset_ s' = input_offset_ s
    /\ decoder_state_ s' = decoder_state_ s
    /\ decoder_ s' = decoder_ s
    /\ have_metadata_ s' = have_metadata_ s.
Proof.
  intros Hinit Hor. unfold Decode_HaveBasicInfo.
  pose proof (InitFrameBuffer_first s) as HI. cbn zeta in HI.
  rewrite HI, Hinit. clear HI. cbn.
  set (s0 := if decide (frames s = []) then _ else s).
  assert (Hs0 : calls_ s0 = calls_ s /\ have_metadata_ s0 = have_metadata_ s
                /\ input_offset_ s0 = input_offset_ s
                /\ decoder_state_ s0 = decoder_state_ s
                /\ decoder_ s0 = decoder_ s).
  { subst s0. by destruct (decide (frames s = [])). }
  destruct Hs0 as (Hc & Hm & Ho & Hst & Hd).
  assert (Hne : frames s0 <> []).
  { subst s0. destruct (decide (frames s = [])); done. }
  destruct ok; cbn.
  - destruct Hor as [|Hpix]; [done|].
    rewrite lookup_insert_head by done. cbn. rewrite Hpix.
    eexists. split; [reflexivity|]. cbn. rewrite Hc, Hm, Ho, Hst, Hd. done.
  - eexists. split; [reflexivity|]. cbn. rewrite Hc, Hm, Ho, Hst, Hd. done.
Qed.

(** X10.  An engine error in the pixel decode is a terminal failure: the
    session is marked failed, the offset and the state machine stay as
    they were, and frame 0 is neither flagged as changed nor marked
    complete (its pixel memory holds whatever the engine wrote). *)
Theorem pixel_decode_error_fails e sl al s f1 mem r e' out :
  host_init_frame (Size s) (first_frame s) = (true, f1) ->
  pixels_ f1 = Some mem ->
  decode_image_with_stride e sl al (output_view f1 mem s) (row_bytes_ f1)
  = (r, e', out) ->
  status r = Error ->
  exists s',
    Decode_HaveBasicInfo e sl al s = Some s'
    /\ Failed s' = true
    /\ calls_ s'
       = [EvSetFailed; EvDecodeImage sl al (row_bytes_ f1) r;
          EvInitFrameBuffer 0 true] ++ calls_ s
    /\ input_offset_ s' = input_offset_ s
    /\ decoder_state_ s' = decoder_state_ s
    /\ (exists f, frames s' !! 0%nat = Some f
                  /\ pixels_changed_ f = pixels_changed_ f1
                  /\ frame_status_ f = frame_status_ f1).
Proof.
  intros Hinit Hpix Hdec Hst.
  destruct (Decode_HaveBasicInfo_bound e sl al s f1 mem r e' out
              Hinit Hpix Hdec)
    as (s' & HD & Hc & _ & _ & (f & Hl & _ & _ & Hch & Hfs) & Hf' & Ho & Hs').
  rewrite Hst in *. cbn in *.
  exists s'. split_and!; try done. by exists f.
Qed.

(** X11.  A pixel decode of its own call.  A full decode in state
    [kHaveBasicInfo] with bytes left to read hands the engine the
    unconsumed suffix; when the host has the frame and its memory and the
    engine returns [Success], the call ends in [kComplete] with frame 0
    complete, flagged as changed, without alpha and holding the bytes
    the engine returned, and with [bytes_consumed] added to the offset. *)
Theorem pixel_decode_success_completes ics s index e f1 mem r e' out :
  reachable ics s ->
  returns_at_once index false s = false ->
  decoder_state_ s = kHaveBasicInfo ->
  decoder_ s = Some e ->
  input_offset_ s < reader_size (data_ (base s)) < 2 ^ size_t_bits ->
  host_init_frame (Size s) (first_frame s) = (true, f1) ->
  pixels_ f1 = Some mem ->
  decode_image_with_stride e (pending_input s) (IsAllDataReceived s)
    (output_view f1 mem s) (row_bytes_ f1) = (r, e', out) ->
  status r = Success ->
  exists s',
    Decode index false s = Some s'
    /\ decoder_state_ s' = kComplete
    /\ Failed s' = false
    /\ input_offset_ s' = wrap_size (input_offset_ s + bytes_consumed r)
    /\ (exists f, frames s' !! 0%nat = Some f
                  /\ frame_status_ f = kFrameComplete
                  /\ pixels_changed_ f = true
                  /\ has_alpha_ f = false
                  /\ pixels_ f
                     = Some (overwrite (output_view f1 mem s) out
                             ++ drop (length (output_view f1 mem s)) mem)).
Proof.
  intros Hr Hret Hk Hd Ho Hinit Hpix Hdec Hst.
  rewrite (Decode_enters_pixel_stage ics s index e Hr Hret Hk Hd Ho).
  destruct (Decode_HaveBasicInfo_bound e _ _ s f1 mem r e' out
              Hinit Hpix Hdec)
    as (s' & HD & _ & _ & _ & (f & Hl & Ha & Hp & Hch & Hfs) & Hf' & Ho'
        & Hs').
  rewrite Hst in *. cbn in *.
  destruct (returns_at_once_false _ _ _ Hret) as (Hfail & _).
  exists s'. split_and!; try done; [congruence|].
  by exists f.
Qed.
End PathProperties.

Section HeaderPaths.
Context {E : Type} {engine : JpegRsEngine E} {host : HostPolicy}.
Implicit Type s : JPEGRsImageDecoder E.

(** A call in state [kInitial] with bytes left to read is the header
    stage on the unconsumed suffix, run on the session [ensure_decoder]
    hands on. *)
Lemma Decode_enters_header_stage ics s index only_size :
  reachable ics s ->
  returns_at_once index only_size s = false ->
  decoder_state_ s = kInitial ->
  input_offset_ s < reader_size (data_ (base s)) < 2 ^ size_t_bits ->
  exists s1,
    Decode index only_size s
    = Decode_Initial only_size (current_engine s) (pending_input s)
        (IsAllDataReceived s) s1
    /\ base s1 = base s
    /\ input_offset_ s1 = input_offset_ s
    /\ decoder_state_ s1 = kInitial
    /\ have_metadata_ s1 = have_metadata_ s
    /\ basic_info_ s1 = basic_info_ s
    /\ is_high_bit_depth_ s1 = is_high_bit_depth_ s
    /\ count is_get_basic_info (calls_ s1)
       = count is_get_basic_info (calls_ s).
Proof.
  intros Hi%reachable_inv Hr Hk Ho.
  destruct (ensure_decoder s) as [e s1] eqn:He.
  destruct (session_inv_ensure _ _ _ Hi He)
    as (Hi1 & Hs1 & Ho1 & Hm1 & Hb1 & Hd1 & Hc1).
  pose proof (inv_offset _ Hi) as Hrange.
  exists s1. rewrite (Decode_reads index only_size s e s1) by (done || lia).
  rewrite Hs1, Hk.
  assert (He' : current_engine s = e) by (unfold current_engine; by rewrite He).
  assert (Hpi : pending_input s1 = pending_input s).
  { unfold pending_input. by rewrite Ho1, Hb1. }
  assert (Hal : IsAllDataReceived s1 = IsAllDataReceived s).
  { unfold IsAllDataReceived. by rewrite Hb1. }
  rewrite He', Hpi, Hal. split_and!; try done.
  - apply ensure_decoder_cases in He as [[_ ->]|(_ & _ & ->)]; done.
  - apply ensure_decoder_cases in He as [[_ ->]|(_ & _ & ->)]; done.
  - destruct Hc1 as [-> | ->]; [done|]. by rewrite count_cons.
Qed.

(** X12.  A header parse that does not succeed.  When [parse_headers]
    returns [Error] the call marks the session failed and leaves the
    offset alone; when it returns [NeedMoreInput] the call adds
    [bytes_consumed] to the offset and signals nothing.  Either way the
    state machine stays in [kInitial], [BasicInfo] is not read, the
    metadata flag stays clear and the frame cache is untouched. *)
Theorem header_parse_without_success ics s index only_size r1 e1 :
  reachable ics s ->
  returns_at_once index only_size s = false ->
  decoder_state_ s = kInitial ->
  input_offset_ s < reader_size (data_ (base s)) < 2 ^ size_t_bits ->
  parse_headers (current_engine s) (pending_input s) (IsAllDataReceived s)
  = (r1, e1) ->
  status r1 <> Success ->
  exists s',
    Decode index only_size s = Some s'
    /\ Failed s' = status_eqb (status r1) Error
    /\ input_offset_ s'
       = (if status_eqb (status r1) Error then input_offset_ s
          else wrap_size (input_offset_ s + bytes_consumed r1))
    /\ decoder_state_ s' = kInitial
    /\ have_metadata_ s' = false
    /\ basic_info_ s' = basic_info_ s
    /\ count is_get_basic_info (calls_ s')
       = count is_get_basic_info (calls_ s)
    /\ frames s' = frames s
    /\ decoder_ s' = Some e1.
Proof.
  intros Hr Hret Hk Ho Hp Hst.
  destruct (Decode_enters_header_stage ics s index only_size Hr Hret Hk Ho)
    as (s1 & -> & Hb & Ho1 & Hk1 & Hm1 & Hbi & _ & Hc).
  pose proof (inv_initial _ (reachable_inv _ _ Hr) Hk) as Hm.
  destruct (returns_at_once_false _ _ _ Hret) as (Hfail & _).
  unfold Failed in Hfail.
  unfold Decode_Initial. rewrite Hp.
  destruct (status r1) eqn:Hs; [done| |]; eexists; (split; [reflexivity|]);
    cbn; unfold frames, Failed; cbn;
    rewrite ?count_cons, ?Hb, ?Ho1, ?Hm1, ?Hbi, ?Hc; cbn; split_and!; done.
Qed.

(** X13.  A size-only request that finds the header.  When the header
    parse succeeds and the host accepts the size, a size-only call
    returns in [kHaveBasicInfo] with the metadata flag set, the basic
    info and the size as the engine reported them, the size available,
    the high-bit-depth answer set from the bits per sample, the offset
    advanced by the header's [bytes_consumed], and the frame cache
    untouched.  The embedded profile is the one made from the engine's
    ICC bytes, unless the session ignores the colour space, the bytes are
    empty or the profile cannot be made; then there is none. *)
Theorem size_only_extracts_metadata ics s index r1 e1 :
  reachable ics s ->
  returns_at_once index true s = false ->
  decoder_state_ s = kInitial ->
  input_offset_ s < reader_size (data_ (base s)) < 2 ^ size_t_bits ->
  parse_headers (current_engine s) (pending_input s) (IsAllDataReceived s)
  = (r1, e1) ->
  status r1 = Success ->
  size_policy (width (get_basic_info e1)) (height (get_basic_info e1))
  = true ->
  exists s',
    Decode index true s = Some s'
    /\ have_metadata_ s' = true
    /\ decoder_state_ s' = kHaveBasicInfo
    /\ basic_info_ s' = get_basic_info e1
    /\ Size s' = (width (get_basic_info e1), height (get_basic_info e1))
    /\ IsDecodedSizeAvailable s' = true
    /\ ImageIsHighBitDepth s' = (bits_per_sample (get_basic_info e1) >? 8)
    /\ input_offset_ s' = wrap_size (input_offset_ s + bytes_consumed r1)
    /\ frames s' = frames s
    /\ Failed s' = false
    /\ embedded_color_profile_ (base s')
       = (if ics || bool_decide
                      (get_icc_profile (set_pixel_format e1 Bgra8) = [])
          then None
          else ColorProfile_Create
                 (get_icc_profile (set_pixel_format e1 Bgra8))).
Proof.
  intros Hr Hret Hk Ho Hp Hst Hsz.
  destruct (Decode_enters_header_stage ics s index true Hr Hret Hk Ho)
    as (s1 & -> & Hb & Ho1 & Hk1 & Hm1 & Hbi & Hh & _).
  pose proof (reachable_facts _ _ Hr) as Hf.
  pose proof (inv_initial _ (reachable_inv _ _ Hr) Hk) as Hm.
  destruct (returns_at_once_false _ _ _ Hret) as (Hfail & _).
  unfold Failed in Hfail.
  rewrite (Decode_Initial_accepted true _ _ _ s1 r1 e1 Hp Hst Hsz).
  destruct (extract_metadata e1 _) as [e2 s2] eqn:Hx.
  destruct (extract_metadata_keeps _ _ _ _ Hx) as (-> & X1 & X2 & X3).
  destruct (extract_metadata_fields _ _ _ _ Hx)
    as (Y1 & Y2 & Y3 & _ & Y5 & Y6 & Y7).
  apply extract_metadata_summary in Hx
    as (_ & _ & _ & _ & _ & _ & M6 & M7 & M8 & M9 & M10 & M11 & _).
  cbn in X1, X2, Y1, Y2, Y3, Y5, Y6, Y7, M8, M9, M10, M11.
  rewrite Hb in *.
  exists s2. split; [done|].
  assert (Hnone : embedded_color_profile_ (base s) = None).
  { apply (fact_profile_late _ _ Hf Hm). }
  assert (Hig : ignores_color_space_ (base s) = ics).
  { apply (fact_ignores _ _ Hf). }
  assert (Hhigh : is_high_bit_depth_ s = false).
  { by rewrite (fact_high_bit_depth _ _ Hf), Hm. }
  split_and!; try done.
  - unfold IsDecodedSizeAvailable. unfold Failed in M10.
    by rewrite M10, M11, Hfail.
  - unfold ImageIsHighBitDepth. by rewrite Y1, Hh, Hhigh.
  - by rewrite M8, Ho1.
  - by rewrite M10.
  - rewrite Hig in *. destruct ics; cbn.
    + destruct (Y5 eq_refl) as [-> _]. done.
    + destruct (decide (get_icc_profile (set_pixel_format e1 Bgra8) = []))
        as [Hnil|Hnil].
      * rewrite bool_decide_true by done. by rewrite (Y6 Hnil).
      * rewrite bool_decide_false by done. rewrite (Y7 eq_refl Hnil), Hnone.
        by destruct (ColorProfile_Create _).
Qed.
End HeaderPaths.

(** ** What the engine is offered *)

Section Offered.
Context {E : Type} {engine : JpegRsEngine E} {host : HostPolicy}.
Implicit Type s : JPEGRsImageDecoder E.

Lemma all_offered_app d a l1 l2 :
  all_offered d a (l1 ++ l2) = all_offered d a l1 && all_offered d a l2.
Proof. unfold all_offered. apply forallb_app. Qed.

Lemma all_offered_none d a evs :
  forallb (fun ev => negb (is_engine_operation ev)) evs = true ->
  all_offered d a evs = true.
Proof.
  unfold all_offered. induction evs as [|ev evs IH]; cbn; [done|].
  intros [H1 H2]%andb_prop. rewrite IH by done. by destruct ev.
Qed.

Lemma all_offered_one_sided (d : list byte) (a : bool) :
  bool_decide (d = d) && eqb a a = true.
Proof. rewrite bool_decide_true by done. by destruct a. Qed.

(** The pixel stage offers the engine the slice it was entered with. *)
Lemma Decode_HaveBasicInfo_offered e sl al s s' :
  Decode_HaveBasicInfo e sl al s = Some s' ->
  exists evs, calls_ s' = evs ++ calls_ s /\ all_offered sl al evs = true.
Proof.
  unfold Decode_HaveBasicInfo, InitFrameBuffer. intros HD.
  repeat (simplify_option_eq || case_match).
  all: log_exists; unfold all_offered; cbn;
    rewrite ?all_offered_one_sided; done.
Qed.

Opaque extract_metadata Decode_HaveBasicInfo.

(** So does the header stage, also when it falls through. *)
Lemma Decode_Initial_offered only_size e sl al s s' :
  Decode_Initial only_size e sl al s = Some s' ->
  exists evs, calls_ s' = evs ++ calls_ s /\ all_offered sl al evs = true.
Proof.
  intros HD. destruct (parse_headers e sl al) as [r e1] eqn:Hp.
  destruct (status r) eqn:Hst.
  - destruct (size_policy (width (get_basic_info e1))
                (height (get_basic_info e1))) eqn:Hsz.
    + rewrite (Decode_Initial_accepted only_size e sl al s r e1 Hp Hst Hsz)
        in HD.
      destruct (extract_metadata e1 _) as [e2 s2] eqn:Hx.
      apply extract_metadata_summary in Hx
        as (evsM & M1 & _ & _ & _ & M5 & _).
      cbn in M1.
      assert (HMo : all_offered sl al evsM = true).
      { apply all_offered_none. eapply forallb_weaken; [|exact M5].
        intros ev; cbn. destruct (is_engine_operation ev); [|done].
        by rewrite orb_true_r. }
      destruct only_size.
      * simplify_eq.
        exists (evsM ++ [EvSetSize (width (get_basic_info e1))
                           (height (get_basic_info e1)) true;
                         EvGetBasicInfo; EvParseHeaders sl al r]).
        rewrite <- app_assoc. split; [done|].
        rewrite all_offered_app, HMo. unfold all_offered. cbn.
        by rewrite all_offered_one_sided.
      * apply Decode_HaveBasicInfo_offered in HD as (evsB & B1 & B2).
        exists (evsB ++ evsM ++ [EvSetSize (width (get_basic_info e1))
                                   (height (get_basic_info e1)) true;
                                 EvGetBasicInfo; EvParseHeaders sl al r]).
        rewrite B1, M1, <- !app_assoc. split; [done|].
        rewrite !all_offered_app, B2, HMo. unfold all_offered. cbn.
        by rewrite all_offered_one_sided.
    + rewrite (Decode_Initial_rejected only_size e sl al s r e1 Hp Hst Hsz)
        in HD.
      simplify_eq. log_exists. unfold all_offered. cbn.
      by rewrite all_offered_one_sided.
  - unfold Decode_Initial in HD. rewrite Hp, Hst in HD. simplify_eq.
    log_exists. unfold all_offered. cbn. by rewrite all_offered_one_sided.
  - unfold Decode_Initial in HD. rewrite Hp, Hst in HD. simplify_eq.
    log_exists. unfold all_offered. cbn. by rewrite all_offered_one_sided.
Qed.

Opaque Decode_Initial.

(** X14.  What the engine is offered.  Every engine operation of a
    decode call is handed the bytes from the offset the call started
    with to the end of the input, and the host's all-data-received flag;
    a call that runs both operations hands both the same slice. *)
Theorem engine_is_offered_pending_input ics s index only_size s' :
  reachable ics s ->
  reader_size (data_ (base s)) < 2 ^ size_t_bits ->
  Decode index only_size s = Some s' ->
  exists evs,
    calls_ s' = evs ++ calls_ s
    /\ all_offered (pending_input s) (IsAllDataReceived s) evs = true.
Proof.
  intros Hi%reachable_inv Hsz HD.
  apply Decode_cases in HD as [[_ ->] | (_ & e & s1 & He & HD)];
    [by exists []|].
  destruct (session_inv_ensure _ _ _ Hi He)
    as (Hi1 & Hs1 & Ho1 & _ & Hb1 & _ & Hc1).
  assert (exists evs0, calls_ s1 = evs0 ++ calls_ s
                       /\ all_offered (pending_input s) (IsAllDataReceived s)
                            evs0 = true) as (evs0 & Hc0 & Hoff0).
  { destruct Hc1 as [-> | ->]; [exists []|eexists [_]]; split; eauto. }
  destruct HD as [[-> _] | (sl & Hg & HD)]; [by exists evs0|].
  pose proof (inv_offset _ Hi) as Ho.
  rewrite Hb1, Ho1 in Hg.
  assert (Hsl : sl = pending_input s).
  { unfold GetConsecutiveData, wrap_size in Hg.
    assert (Hnn : 0 <= reader_size (data_ (base s)))
      by (unfold reader_size; lia).
    destruct (decide (input_offset_ s <= reader_size (data_ (base s))))
      as [Hle|Hgt].
    - rewrite Z.mod_small in Hg by lia.
      rewrite !(proj2 (Z.leb_le _ _)) in Hg by lia. cbn in Hg. simplify_eq.
      unfold pending_input. apply take_ge. rewrite length_drop.
      unfold reader_size in *. lia.
    - exfalso.
      assert (Hm : (reader_size (data_ (base s)) - input_offset_ s)
                   mod 2 ^ size_t_bits
                   = reader_size (data_ (base s)) - input_offset_ s
                     + 2 ^ size_t_bits).
      { symmetry. apply Z.mod_unique with (q := -1); lia. }
      rewrite Hm in Hg.
      assert (Hout : (input_offset_ s
                      + (reader_size (data_ (base s)) - input_offset_ s
                         + 2 ^ size_t_bits)
                      <=? reader_size (data_ (base s))) = false)
        by (apply Z.leb_gt; lia).
      rewrite Hout, andb_false_r in Hg. done. }
  assert (Hal : IsAllDataReceived s1 = IsAllDataReceived s).
  { unfold IsAllDataReceived. by rewrite Hb1. }
  subst sl. rewrite Hal in HD.
  destruct HD as [[_ HA] | [_ HB]].
  - apply Decode_Initial_offered in HA as (evs & A1 & A2).
    exists (evs ++ evs0). rewrite A1, Hc0, <- app_assoc.
    split; [done|]. by rewrite all_offered_app, A2, Hoff0.
  - apply Decode_HaveBasicInfo_offered in HB as (evs & B1 & B2).
    exists (evs ++ evs0). rewrite B1, Hc0, <- app_assoc.
    split; [done|]. by rewrite all_offered_app, B2, Hoff0.
Qed.
End Offered.

(** ** Reads stay inside the input *)

Section InBounds.
Context {E : Type} {engine : JpegRsEngine E} {host : HostPolicy}.
Implicit Type s : JPEGRsImageDecoder E.

Transparent Decode_HaveBasicInfo Decode_Initial extract_metadata.

(** The pixel stage always returns. *)
Lemma Decode_HaveBasicInfo_returns e sl al s :
  is_Some (Decode_HaveBasicInfo e sl al s).
Proof.
  unfold Decode_HaveBasicInfo.
  pose proof (InitFrameBuffer_first s) as HI. cbn zeta in HI. rewrite HI.
  clear HI. set (s0 := if decide (frames s = []) then _ else s).
  assert (Hne : frames s0 <> []).
  { subst s0. destruct (decide (frames s = [])); done. }
  destruct (host_init_frame _ _) as [[|] f1]; cbn; [|done].
  rewrite lookup_insert_head by done. cbn.
  destruct (pixels_ f1); [|done].
  destruct (decode_image_with_stride _ _ _ _ _) as [[r e'] out].
  by destruct (status r).
Qed.

(** So does the header stage. *)
Lemma Decode_Initial_returns only_size e sl al s :
  is_Some (Decode_Initial only_size e sl al s).
Proof.
  unfold Decode_Initial. destruct (parse_headers e sl al) as [r e1].
  destruct (status r); [|done|done].
  unfold SetSize. destruct (size_policy _ _); cbn; [|done].
  destruct only_size; [done|]. apply Decode_HaveBasicInfo_returns.
Qed.

(** X15.  A decode call returns whenever the offset it starts with is
    within the input: the one read it makes, from the offset to the end
    of the buffer, is then inside the buffer. *)
Theorem decode_reads_within_buffer ics s index only_size :
  reachable ics s ->
  input_offset_ s <= reader_size (data_ (base s)) < 2 ^ size_t_bits ->
  is_Some (Decode index only_size s).
Proof.
  intros Hi%reachable_inv Ho.
  destruct (returns_at_once index only_size s) eqn:Hr.
  - unfold Decode. unfold returns_at_once in Hr.
    destruct (Failed s); [done|].
    destruct (only_size && IsDecodedSizeAvailable s && have_metadata_ s);
      [done|].
    cbn in Hr. by rewrite Hr.
  - destruct (ensure_decoder s) as [e s1] eqn:He.
    destruct (session_inv_ensure _ _ _ Hi He)
      as (Hi1 & Hs1 & Ho1 & _ & Hb1 & _ & _).
    pose proof (inv_offset _ Hi) as Hrange.
    destruct (decide (input_offset_ s = reader_size (data_ (base s))))
      as [Heq|Hne].
    + destruct (returns_at_once_false _ _ _ Hr) as (Hf & Hsz & Hfc).
      unfold Decode. rewrite Hf, Hsz, Hfc, He, Ho1, Heq, Z.sub_diag. done.
    + rewrite (Decode_reads index only_size s e s1) by (done || lia).
      destruct (decoder_state_ s1);
        auto using Decode_Initial_returns, Decode_HaveBasicInfo_returns.
Qed.
End InBounds.

(** ** Signature detection and frame initialisation *)

Section MoreSignature.
Context {E : Type} {engine : JpegRsEngine E}.

(** X16.  Signature detection looks at the first four bytes only: once
    four bytes are in the window, bytes that arrive later do not change
    the answer. *)
Theorem signature_ignores_later_bytes (d more : list byte) :
  4 <= reader_size d ->
  MatchesJPEGSignature (d ++ more) = MatchesJPEGSignature d.
Proof.
  intros Hd.
  assert (Hread : forall l : list byte,
            4 <= reader_size l ->
            GetConsecutiveData l 0 4 = Some (take 4 l)).
  { intros l Hl. unfold GetConsecutiveData.
    by rewrite (proj2 (Z.leb_le (0 + 4) _)) by lia. }
  assert (Hall : 4 <= reader_size (d ++ more)).
  { unfold reader_size in *. rewrite length_app. lia. }
  unfold MatchesJPEGSignature.
  rewrite !(proj2 (Z.ltb_ge _ _)), !Hread by done. cbn.
  rewrite take_app_le; [done|]. unfold reader_size in Hd. lia.
Qed.
End MoreSignature.

Section NewFrame.
Context {E : Type} {engine : JpegRsEngine E} {host : HostPolicy}.
Implicit Type s : JPEGRsImageDecoder E.

(** X17.  [InitializeNewFrame(0)] needs a frame 0 to work on.  It
    clears the frame's alpha flag, sets its rectangle to the decoder's
    size and its required previous frame to none; it leaves the frame's
    status, pixels and changed flag, the other frames and the driver's
    own state alone, so every decode call takes the same early exits
    before and after; and doing it twice is doing it once. *)
Theorem InitializeNewFrame_first s :
  (frames s = [] -> InitializeNewFrame 0 s = None)
  /\ (frames s <> [] ->
      exists s' f,
        InitializeNewFrame 0 s = Some s'
        /\ frames s' = f :: tail (frames s)
        /\ has_alpha_ f = false
        /\ original_frame_rect_ f = Size s
        /\ required_previous_frame_index_ f = None
        /\ frame_status_ f = frame_status_ (first_frame s)
        /\ pixels_ f = pixels_ (first_frame s)
        /\ pixels_changed_ f = pixels_changed_ (first_frame s)
        /\ (forall index only_size,
              returns_at_once index only_size s'
              = returns_at_once index only_size s)
        /\ decoder_state_ s' = decoder_state_ s
        /\ input_offset_ s' = input_offset_ s
        /\ calls_ s' = calls_ s
        /\ InitializeNewFrame 0 s' = Some s').
Proof.
  destruct s as [[d a fl sa sz fr prof ics] dec st bi hm hb off log].
  unfold InitializeNewFrame, first_frame, frames, returns_at_once,
    frame_complete, frames, Size, Failed, IsDecodedSizeAvailable. cbn.
  split.
  - intros ->. done.
  - intros Hne. destruct fr as [|f0 l]; [done|]. cbn.
    eexists _, _. split; [reflexivity|]. cbn. split_and!; try done.
    intros [|index] only_size; done.
Qed.
End NewFrame.

(** ** The properties at concrete sessions *)

Section CompleteExamples.
#[local] Existing Instance engine_complete.
#[local] Existing Instance roomy_host.

(** X1 at a session that decodes, asks for the size and decodes again:
    one creation in the log, and the session holds its decoder. *)
Lemma engine_created_once_witness :
  let s := session_after engine_complete roomy_host
             [Deliver ten_bytes true; CallDecode 0; CallDecodeSize;
              CallDecode 0] in
  reachable false s
  /\ (count is_create (calls_ s) <= 1)%nat
  /\ (count is_create (calls_ s) = 1%nat <-> is_Some (decoder_ s)).
Proof.
  intros s.
  assert (Hr : reachable false s).
  { exists [Deliver ten_bytes true; CallDecode 0; CallDecodeSize;
            CallDecode 0].
    vm_compute. reflexivity. }
  split; [exact Hr|]. exact (engine_created_once false s Hr).
Defined.

(** X6 at a session whose host prepares the frame before the decode. *)
Lemma single_frame_cache_witness :
  let s := session_after engine_complete roomy_host
             [PrepareFrames; Deliver ten_bytes true; CallDecode 0] in
  reachable false s
  /\ frames s <> []
  /\ (length (frames s) <= 1)%nat.
Proof.
  intros s.
  assert (Hr : reachable false s).
  { exists [PrepareFrames; Deliver ten_bytes true; CallDecode 0].
    vm_compute. reflexivity. }
  split; [exact Hr|]. split; [vm_compute; discriminate|].
  exact (single_frame_cache false s Hr).
Defined.

(** X7 at the session after a full decode of the whole stream. *)
Lemma complete_is_final_witness :
  let s := session_after engine_complete roomy_host
             [Deliver ten_bytes true; CallDecode 0] in
  reachable false s
  /\ decoder_state_ s = kComplete
  /\ frame0_complete s
  /\ have_metadata_ s = true
  /\ (forall only_size, Decode 0 only_size s = Some s)
  /\ (forall index only_size s',
        Decode index only_size s = Some s' -> s' = s).
Proof.
  intros s.
  assert (Hr : reachable false s).
  { exists [Deliver ten_bytes true; CallDecode 0]. vm_compute. reflexivity. }
  assert (Hk : decoder_state_ s = kComplete) by (vm_compute; reflexivity).
  split; [exact Hr|]. split; [exact Hk|].
  exact (complete_is_final false s Hr Hk).
Defined.

(** X14 at the call that runs both stages: the header parse and the
    pixel decode are both offered the ten bytes. *)
Lemma engine_is_offered_pending_input_witness :
  let s := session_after engine_complete roomy_host
             [Deliver ten_bytes true] in
  let s' := session_after engine_complete roomy_host
              [Deliver ten_bytes true; CallDecode 0] in
  reachable false s
  /\ reader_size (data_ (base s)) < 2 ^ size_t_bits
  /\ Decode 0 false s = Some s'
  /\ pending_input s = ten_bytes
  /\ count is_engine_operation (calls_ s') = 2%nat
  /\ exists evs,
      calls_ s' = evs ++ calls_ s
      /\ all_offered (pending_input s) (IsAllDataReceived s) evs = true.
Proof.
  intros s s'.
  assert (Hr : reachable false s).
  { exists [Deliver ten_bytes true]. vm_compute. reflexivity. }
  assert (Hsz : reader_size (data_ (base s)) < 2 ^ size_t_bits)
    by (vm_compute; reflexivity).
  assert (HD : Decode 0 false s = Some s') by (vm_compute; reflexivity).
  split; [exact Hr|]. split; [exact Hsz|]. split; [exact HD|].
  split; [vm_compute; reflexivity|]. split; [vm_compute; reflexivity|].
  exact (engine_is_offered_pending_input false s 0%nat false s' Hr Hsz HD).
Defined.

(** X15 at a fresh session with ten bytes delivered. *)
Lemma decode_reads_within_buffer_witness :
  let s := session_after engine_complete roomy_host
             [Deliver ten_bytes true] in
  reachable false s
  /\ input_offset_ s <= reader_size (data_ (base s)) < 2 ^ size_t_bits
  /\ is_Some (Decode 0 false s).
Proof.
  intros s.
  assert (Hr : reachable false s).
  { exists [Deliver ten_bytes true]. vm_compute. reflexivity. }
  assert (Ho : input_offset_ s <= reader_size (data_ (base s))
               < 2 ^ size_t_bits).
  { split; vm_compute; [discriminate|reflexivity]. }
  split; [exact Hr|]. split; [exact Ho|].
  exact (decode_reads_within_buffer false s 0%nat false Hr Ho).
Defined.

(** X16 at the ten bytes: the magic number is recognised with and
    without the six bytes after it. *)
Lemma signature_ignores_later_bytes_witness :
  4 <= reader_size jpeg_magic
  /\ MatchesJPEGSignature (jpeg_magic ++ replicate 6 x00)
     = MatchesJPEGSignature jpeg_magic
  /\ MatchesJPEGSignature jpeg_magic = Some true.
Proof.
  assert (H4 : 4 <= reader_size jpeg_magic) by (vm_compute; discriminate).
  split; [exact H4|].
  split; [exact (signature_ignores_later_bytes jpeg_magic
                   (replicate 6 x00) H4)|].
  vm_compute. reflexivity.
Defined.

(** X17 at a session with no frame, and at one whose host has prepared
    frame 0. *)
Lemma InitializeNewFrame_first_witness :
  let s0 := session_after engine_complete roomy_host
              [Deliver ten_bytes true; CallDecodeSize] in
  let s := session_after engine_complete roomy_host
             [Deliver ten_bytes true; CallDecodeSize; PrepareFrames] in
  frames s0 = []
  /\ InitializeNewFrame 0 s0 = None
  /\ frames s <> []
  /\ exists s' f,
      InitializeNewFrame 0 s = Some s'
      /\ frames s' = f :: tail (frames s)
      /\ has_alpha_ f = false
      /\ original_frame_rect_ f = (2, 1).
Proof.
  intros s0 s.
  assert (H0 : frames s0 = []) by (vm_compute; reflexivity).
  assert (H1 : frames s <> []) by (vm_compute; discriminate).
  split; [exact H0|].
  split; [exact (proj1 (InitializeNewFrame_first s0) H0)|].
  split; [exact H1|].
  destruct (proj2 (InitializeNewFrame_first s) H1)
    as (s' & f & HI & Hfr & Ha & Hrect & _).
  exists s', f. split; [exact HI|]. split; [exact Hfr|]. split; [exact Ha|].
  rewrite Hrect. vm_compute. reflexivity.
Defined.
End CompleteExamples.

Section ErrorExamples.
#[local] Existing Instance engine_error.
#[local] Existing Instance roomy_host.

(** X12 at a header parse that fails: the session is marked failed and
    the offset stays at 0. *)
Lemma header_parse_without_success_witness :
  let s := session_after engine_error roomy_host
             [Deliver ten_bytes false] in
  reachable false s
  /\ returns_at_once 0 false s = false
  /\ decoder_state_ s = kInitial
  /\ input_offset_ s < reader_size (data_ (base s)) < 2 ^ size_t_bits
  /\ parse_headers (current_engine s) (pending_input s) (IsAllDataReceived s)
     = (result Error 3, demo_script [] [])
  /\ status (result Error 3) <> Success
  /\ exists s',
      Decode 0 false s = Some s'
      /\ Failed s' = true
      /\ input_offset_ s' = 0
      /\ decoder_state_ s' = kInitial
      /\ have_metadata_ s' = false
      /\ frames s' = frames s.
Proof.
  intros s.
  assert (Hr : reachable false s).
  { exists [Deliver ten_bytes false]. vm_compute. reflexivity. }
  assert (Hret : returns_at_once 0 false s = false)
    by (vm_compute; reflexivity).
  assert (Hk : decoder_state_ s = kInitial) by (vm_compute; reflexivity).
  assert (Ho : input_offset_ s < reader_size (data_ (base s))
               < 2 ^ size_t_bits) by (split; vm_compute; reflexivity).
  assert (Hp : parse_headers (current_engine s) (pending_input s)
                 (IsAllDataReceived s)
               = (result Error 3, demo_script [] []))
    by (vm_compute; reflexivity).
  assert (Hst : status (result Error 3) <> Success) by discriminate.
  split; [exact Hr|]. split; [exact Hret|]. split; [exact Hk|].
  split; [exact Ho|]. split; [exact Hp|]. split; [exact Hst|].
  destruct (header_parse_without_success false s 0%nat false
              (result Error 3) (demo_script [] []) Hr Hret Hk Ho Hp Hst)
    as (s' & HD & Hf & Hoff & Hk' & Hm & _ & _ & Hfr & _).
  exists s'. split; [exact HD|]. split; [exact Hf|].
  split; [exact Hoff|]. split; [exact Hk'|]. split; [exact Hm|]. exact Hfr.
Defined.
End ErrorExamples.

Section DeepExamples.
#[local] Existing Instance deep_engine.
#[local] Existing Instance roomy_host.

(** X3 at a session that has asked for the size of the 2x1 image. *)
Lemma size_is_the_reported_size_witness :
  let s := session_after deep_engine roomy_host
             [Deliver ten_bytes true; CallDecodeSize] in
  reachable false s
  /\ have_metadata_ s = true
  /\ IsDecodedSizeAvailable s = true
  /\ Size s = (2, 1)
  /\ size_policy 2 1 = true.
Proof.
  intros s.
  assert (Hr : reachable false s).
  { exists [Deliver ten_bytes true; CallDecodeSize]. vm_compute.
    reflexivity. }
  assert (Hm : have_metadata_ s = true) by (vm_compute; reflexivity).
  destruct (size_is_the_reported_size false s Hr) as [Hav Hsz].
  destruct (Hsz Hm) as [HS HP].
  split; [exact Hr|]. split; [exact Hm|].
  split; [rewrite Hav; vm_compute; reflexivity|].
  split; [rewrite HS; vm_compute; reflexivity|].
  exact HP.
Defined.

(** X4 at the same session: the image has 12 bits per sample. *)
Lemma high_bit_depth_classification_witness :
  let s := session_after deep_engine roomy_host
             [Deliver ten_bytes true; CallDecodeSize] in
  let s0 := session_after deep_engine roomy_host
              [Deliver ten_bytes true] in
  reachable false s
  /\ ImageIsHighBitDepth s = true
  /\ reachable false s0
  /\ ImageIsHighBitDepth s0 = false.
Proof.
  intros s s0.
  assert (Hr : reachable false s).
  { exists [Deliver ten_bytes true; CallDecodeSize]. vm_compute.
    reflexivity. }
  assert (Hr0 : reachable false s0).
  { exists [Deliver ten_bytes true]. vm_compute. reflexivity. }
  split; [exact Hr|].
  split; [rewrite (high_bit_depth_classification false s Hr);
          vm_compute; reflexivity|].
  split; [exact Hr0|].
  rewrite (high_bit_depth_classification false s0 Hr0).
  vm_compute. reflexivity.
Defined.

(** X5 at two sessions over the same stream: the one created to ignore
    the colour space never asks for the profile; the other holds the
    three-byte profile, and has its metadata. *)
Lemma color_profile_only_when_wanted_witness :
  let s := session_ignoring_color deep_engine roomy_host
             [Deliver ten_bytes true; CallDecode 0] in
  let s2 := session_after deep_engine roomy_host
              [Deliver ten_bytes true; CallDecode 0] in
  reachable true s
  /\ embedded_color_profile_ (base s) = None
  /\ count is_get_icc_profile (calls_ s) = 0%nat
  /\ reachable false s2
  /\ embedded_color_profile_ (base s2) = Some [x01; x02; x03]
  /\ have_metadata_ s2 = true.
Proof.
  intros s s2.
  assert (Hr : reachable true s).
  { exists [Deliver ten_bytes true; CallDecode 0]. vm_compute. reflexivity. }
  assert (Hr2 : reachable false s2).
  { exists [Deliver ten_bytes true; CallDecode 0]. vm_compute. reflexivity. }
  assert (Hp : embedded_color_profile_ (base s2) = Some [x01; x02; x03])
    by (vm_compute; reflexivity).
  destruct (proj1 (color_profile_only_when_wanted true s Hr) eq_refl)
    as [Hnone Hcount].
  destruct (proj2 (color_profile_only_when_wanted false s2 Hr2)
              (ex_intro _ _ Hp)) as [Hm _].
  split; [exact Hr|]. split; [exact Hnone|]. split; [exact Hcount|].
  split; [exact Hr2|]. split; [exact Hp|]. exact Hm.
Defined.

(** X13 at a size-only call on the 12-bit image with its profile. *)
Lemma size_only_extracts_metadata_witness :
  let s := session_after deep_engine roomy_host [Deliver ten_bytes true] in
  let e1 := set_header_script [] (jpeg_rs_decoder_create kMaxDecodedPixels) in
  reachable false s
  /\ returns_at_once 0 true s = false
  /\ decoder_state_ s = kInitial
  /\ input_offset_ s < reader_size (data_ (base s)) < 2 ^ size_t_bits
  /\ parse_headers (current_engine s) (pending_input s) (IsAllDataReceived s)
     = (result Success 4, e1)
  /\ size_policy (width (get_basic_info e1)) (height (get_basic_info e1))
     = true
  /\ exists s',
      Decode 0 true s = Some s'
      /\ have_metadata_ s' = true
      /\ decoder_state_ s' = kHaveBasicInfo
      /\ Size s' = (2, 1)
      /\ ImageIsHighBitDepth s' = true
      /\ input_offset_ s' = 4
      /\ frames s' = []
      /\ embedded_color_profile_ (base s') = Some [x01; x02; x03].
Proof.
  intros s e1.
  assert (Hr : reachable false s).
  { exists [Deliver ten_bytes true]. vm_compute. reflexivity. }
  assert (Hret : returns_at_once 0 true s = false)
    by (vm_compute; reflexivity).
  assert (Hk : decoder_state_ s = kInitial) by (vm_compute; reflexivity).
  assert (Ho : input_offset_ s < reader_size (data_ (base s))
               < 2 ^ size_t_bits) by (split; vm_compute; reflexivity).
  assert (Hp : parse_headers (current_engine s) (pending_input s)
                 (IsAllDataReceived s) = (result Success 4, e1))
    by (vm_compute; reflexivity).
  assert (Hsz : size_policy (width (get_basic_info e1))
                  (height (get_basic_info e1)) = true)
    by (vm_compute; reflexivity).
  split; [exact Hr|]. split; [exact Hret|]. split; [exact Hk|].
  split; [exact Ho|]. split; [exact Hp|]. split; [exact Hsz|].
  destruct (size_only_extracts_metadata false s 0%nat (result Success 4) e1
              Hr Hret Hk Ho Hp eq_refl Hsz)
    as (s' & HD & Hm & Hk' & _ & HS & _ & Hh & Hoff & Hfr & _ & Hprof).
  exists s'. split; [exact HD|]. split; [exact Hm|]. split; [exact Hk'|].
  split; [rewrite HS; vm_compute; reflexivity|].
  split; [rewrite Hh; vm_compute; reflexivity|].
  split; [rewrite Hoff; vm_compute; reflexivity|].
  split; [rewrite Hfr; vm_compute; reflexivity|].
  rewrite Hprof. vm_compute. reflexivity.
Defined.
End DeepExamples.

Section PartialExamples.
#[local] Existing Instance engine_partial.
#[local] Existing Instance roomy_host.

(** X8 at a pixel decode that wants more input: the call moves the
    offset and touches the frame, and leaves the metadata as it was. *)
Lemma metadata_is_stable_witness :
  let s := session_after engine_partial roomy_host
             [Deliver ten_bytes false; CallDecodeSize] in
  let s' := session_after engine_partial roomy_host
              [Deliver ten_bytes false; CallDecodeSize; CallDecode 0] in
  reachable false s
  /\ have_metadata_ s = true
  /\ Decode 0 false s = Some s'
  /\ input_offset_ s' <> input_offset_ s
  /\ have_metadata_ s' = true
  /\ basic_info_ s' = basic_info_ s
  /\ Size s' = Size s
  /\ ImageIsHighBitDepth s' = ImageIsHighBitDepth s
  /\ embedded_color_profile_ (base s') = embedded_color_profile_ (base s).
Proof.
  intros s s'.
  assert (Hr : reachable false s).
  { exists [Deliver ten_bytes false; CallDecodeSize]. vm_compute.
    reflexivity. }
  assert (Hm : have_metadata_ s = true) by (vm_compute; reflexivity).
  assert (HD : Decode 0 false s = Some s') by (vm_compute; reflexivity).
  split; [exact Hr|]. split; [exact Hm|]. split; [exact HD|].
  split; [vm_compute; discriminate|].
  exact (metadata_is_stable false s 0%nat false s' Hr Hm HD).
Defined.
End PartialExamples.

Section PoorHostExamples.
#[local] Existing Instance engine_complete.
#[local] Existing Instance poor_host.

(** X2 at a session that failed in the pixel stage of the call that
    also extracted its metadata: the failure is in the host's flag, and
    the state machine is in [kHaveBasicInfo]. *)
Lemma decoder_state_never_error_witness :
  let s := session_after engine_complete poor_host
             [Deliver ten_bytes true; CallDecode 0] in
  reachable false s
  /\ Failed s = true
  /\ decoder_state_ s = kHaveBasicInfo
  /\ decoder_state_ s <> kError
  /\ decoder_state_ s <> kDecoding
  /\ (decoder_state_ s = kInitial \/ decoder_state_ s = kHaveBasicInfo).
Proof.
  intros s.
  assert (Hr : reachable false s).
  { exists [Deliver ten_bytes true; CallDecode 0]. vm_compute. reflexivity. }
  assert (Hf : Failed s = true) by (vm_compute; reflexivity).
  destruct (decoder_state_never_error false s Hr) as (H1 & H2 & H3).
  split; [exact Hr|]. split; [exact Hf|]. split; [vm_compute; reflexivity|].
  split; [exact H1|]. split; [exact H2|]. exact (H3 Hf).
Defined.

(** X9 at a host that cannot give the frame its memory. *)
Lemma missing_output_memory_fails_witness :
  let s := session_after engine_complete poor_host
             [Deliver ten_bytes true; CallDecodeSize] in
  host_init_frame (Size s) (first_frame s) = (false, ImageFrame_default)
  /\ exists s',
      Decode_HaveBasicInfo (current_engine s) (pending_input s) true s
      = Some s'
      /\ Failed s' = true
      /\ calls_ s' = [EvSetFailed; EvInitFrameBuffer 0 false] ++ calls_ s
      /\ input_offset_ s' = input_offset_ s
      /\ decoder_state_ s' = decoder_state_ s
      /\ decoder_ s' = decoder_ s
      /\ have_metadata_ s' = have_metadata_ s.
Proof.
  intros s.
  assert (Hinit : host_init_frame (Size s) (first_frame s)
                  = (false, ImageFrame_default))
    by (vm_compute; reflexivity).
  split; [exact Hinit|].
  exact (missing_output_memory_fails (current_engine s) (pending_input s)
           true s false ImageFrame_default Hinit (or_introl eq_refl)).
Defined.
End PoorHostExamples.

Section PixelErrorExamples.
#[local] Existing Instance engine_pixel_error.
#[local] Existing Instance roomy_host.

(** X10 at an engine whose pixel decode fails. *)
Lemma pixel_decode_error_fails_witness :
  let s := session_after engine_pixel_error roomy_host
             [Deliver ten_bytes true; CallDecodeSize] in
  let e := current_engine s in
  host_init_frame (Size s) (first_frame s) = (true, demo_frame)
  /\ pixels_ demo_frame = Some (replicate 8 x00)
  /\ decode_image_with_stride e (pending_input s) true
       (output_view demo_frame (replicate 8 x00) s) (row_bytes_ demo_frame)
     = (result Error 2, set_pixel_script [] e, replicate 8 x01)
  /\ exists s',
      Decode_HaveBasicInfo e (pending_input s) true s = Some s'
      /\ Failed s' = true
      /\ input_offset_ s' = input_offset_ s
      /\ decoder_state_ s' = kHaveBasicInfo.
Proof.
  intros s e.
  assert (Hinit : host_init_frame (Size s) (first_frame s)
                  = (true, demo_frame)) by (vm_compute; reflexivity).
  assert (Hpix : pixels_ demo_frame = Some (replicate 8 x00))
    by reflexivity.
  assert (Hdec : decode_image_with_stride e (pending_input s) true
                   (output_view demo_frame (replicate 8 x00) s)
                   (row_bytes_ demo_frame)
                 = (result Error 2, set_pixel_script [] e,
                    replicate 8 x01)) by (vm_compute; reflexivity).
  split; [exact Hinit|]. split; [exact Hpix|]. split; [exact Hdec|].
  destruct (pixel_decode_error_fails e (pending_input s) true s demo_frame
              (replicate 8 x00) (result Error 2) (set_pixel_script [] e)
              (replicate 8 x01) Hinit Hpix Hdec eq_refl)
    as (s' & HD & Hf & _ & Hoff & Hk & _).
  exists s'. split; [exact HD|]. split; [exact Hf|]. split; [exact Hoff|].
  rewrite Hk. vm_compute. reflexivity.
Defined.
End PixelErrorExamples.

Section PixelSuccessExamples.
#[local] Existing Instance deep_engine.
#[local] Existing Instance roomy_host.

(** X11 at a pixel decode in a call of its own: the engine is handed the
    six bytes after the header and takes them all. *)
Lemma pixel_decode_success_completes_witness :
  let s := session_after deep_engine roomy_host
             [Deliver ten_bytes true; CallDecodeSize] in
  let e := current_engine s in
  reachable false s
  /\ returns_at_once 0 false s = false
  /\ decoder_state_ s = kHaveBasicInfo
  /\ decoder_ s = Some e
  /\ input_offset_ s < reader_size (data_ (base s)) < 2 ^ size_t_bits
  /\ host_init_frame (Size s) (first_frame s) = (true, demo_frame)
  /\ decode_image_with_stride e (pending_input s) (IsAllDataReceived s)
       (output_view demo_frame (replicate 8 x00) s) (row_bytes_ demo_frame)
     = (result Success 6, set_pixel_script [] e, replicate 8 x01)
  /\ exists s',
      Decode 0 false s = Some s'
      /\ decoder_state_ s' = kComplete
      /\ Failed s' = false
      /\ input_offset_ s' = 10.
Proof.
  intros s e.
  assert (Hr : reachable false s).
  { exists [Deliver ten_bytes true; CallDecodeSize]. vm_compute.
    reflexivity. }
  assert (Hret : returns_at_once 0 false s = false)
    by (vm_compute; reflexivity).
  assert (Hk : decoder_state_ s = kHaveBasicInfo)
    by (vm_compute; reflexivity).
  assert (Hd : decoder_ s = Some e) by (vm_compute; reflexivity).
  assert (Ho : input_offset_ s < reader_size (data_ (base s))
               < 2 ^ size_t_bits) by (split; vm_compute; reflexivity).
  assert (Hinit : host_init_frame (Size s) (first_frame s)
                  = (true, demo_frame)) by (vm_compute; reflexivity).
  assert (Hdec : decode_image_with_stride e (pending_input s)
                   (IsAllDataReceived s)
                   (output_view demo_frame (replicate 8 x00) s)
                   (row_bytes_ demo_frame)
                 = (result Success 6, set_pixel_script [] e,
                    replicate 8 x01)) by (vm_compute; reflexivity).
  split; [exact Hr|]. split; [exact Hret|]. split; [exact Hk|].
  split; [exact Hd|]. split; [exact Ho|]. split; [exact Hinit|].
  split; [exact Hdec|].
  destruct (pixel_decode_success_completes false s 0%nat e demo_frame
              (replicate 8 x00) (result Success 6) (set_pixel_script [] e)
              (replicate 8 x01) Hr Hret Hk Hd Ho Hinit eq_refl Hdec eq_refl)
    as (s' & HD & Hk' & Hf & Hoff & _).
  exists s'. split; [exact HD|]. split; [exact Hk'|]. split; [exact Hf|].
  rewrite Hoff. vm_compute. reflexivity.
Defined.
End PixelSuccessExamples.

Section ContractExamples.
#[local] Existing Instance greedy_engine.
#[local] Existing Instance roomy_host.

(** X18 at a size-only call on ten bytes with an engine that keeps the
    contract: the offset goes from 0 to 4. *)
Lemma input_offset_monotone_witness :
  let s := session_after greedy_engine roomy_host
             [Deliver ten_bytes false] in
  let s' := session_after greedy_engine roomy_host
              [Deliver ten_bytes false; CallDecodeSize] in
  reachable false s
  /\ input_offset_ s <= reader_size (data_ (base s))
  /\ 2 * reader_size (data_ (base s)) < 2 ^ size_t_bits
  /\ Decode 0 true s = Some s'
  /\ input_offset_ s' = 4
  /\ input_offset_ s <= input_offset_ s'
  /\ input_offset_ s' <= reader_size (data_ (base s)).
Proof.
  intros s s'.
  assert (Hr : reachable false s).
  { exists [Deliver ten_bytes false]. vm_compute. reflexivity. }
  assert (Hle : input_offset_ s <= reader_size (data_ (base s)))
    by (vm_compute; discriminate).
  assert (Hsz : 2 * reader_size (data_ (base s)) < 2 ^ size_t_bits)
    by (vm_compute; reflexivity).
  assert (HD : Decode 0 true s = Some s') by (vm_compute; reflexivity).
  destruct (input_offset_monotone (contract := greedy_engine_contract)
              false s 0%nat true s' Hr Hle Hsz HD) as (H1 & _ & H3).
  split; [exact Hr|]. split; [exact Hle|]. split; [exact Hsz|].
  split; [exact HD|]. split; [vm_compute; reflexivity|].
  split; [exact H1|]. exact (H3 (or_introl eq_refl)).
Defined.
End ContractExamples.

(** ** Delivery of more input *)

Section Delivery.
Context {E : Type} {engine : JpegRsEngine E} {host : HostPolicy}.
Implicit Type s : JPEGRsImageDecoder E.

(** X19.  Decoding continues where it left off.  [OnSetData] resets
    nothing: a delivery leaves the offset, the state machine, the
    decoder, the metadata, the frames and the log as they are, and while
    the offset is within the input, what is left to read after the
    delivery is what was left before it followed by the new bytes. *)
Theorem delivery_resumes chunk all s :
  0 <= input_offset_ s <= reader_size (data_ (base s)) ->
  pending_input (deliver chunk all s) = pending_input s ++ chunk
  /\ IsAllDataReceived (deliver chunk all s) = all
  /\ input_offset_ (deliver chunk all s) = input_offset_ s
  /\ decoder_state_ (deliver chunk all s) = decoder_state_ s
  /\ decoder_ (deliver chunk all s) = decoder_ s
  /\ have_metadata_ (deliver chunk all s) = have_metadata_ s
  /\ basic_info_ (deliver chunk all s) = basic_info_ s
  /\ frames (deliver chunk all s) = frames s
  /\ calls_ (deliver chunk all s) = calls_ s.
Proof.
  intros Ho. unfold deliver, OnSetData, pending_input, reader_size in *.
  cbn. split_and!; try done.
  rewrite drop_app_le by lia. done.
Qed.
End Delivery.

Section DeliveryExample.
#[local] Existing Instance engine_waiting.
#[local] Existing Instance roomy_host.

(** X19 at a session whose header parse took 4 of 10 bytes and wants
    more: after two more bytes arrive, eight bytes are left to read. *)
Lemma delivery_resumes_witness :
  let s := session_after engine_waiting roomy_host
             [Deliver ten_bytes false; CallDecode 0] in
  0 <= input_offset_ s <= reader_size (data_ (base s))
  /\ input_offset_ s = 4
  /\ pending_input (deliver [x05; x06] true s)
     = pending_input s ++ [x05; x06]
  /\ input_offset_ (deliver [x05; x06] true s) = input_offset_ s
  /\ decoder_state_ (deliver [x05; x06] true s) = decoder_state_ s.
Proof.
  intros s.
  assert (Ho : 0 <= input_offset_ s <= reader_size (data_ (base s)))
    by (split; vm_compute; discriminate).
  destruct (delivery_resumes [x05; x06] true s Ho)
    as (Hp & _ & Hoff & Hk & _).
  split; [exact Ho|]. split; [vm_compute; reflexivity|].
  split; [exact Hp|]. split; [exact Hoff|]. exact Hk.
Defined.
End DeliveryExample.

(** ** A size the host rejects *)

Section SizeRejection.
Context {E : Type} {engine : JpegRsEngine E} {host : HostPolicy}.
Implicit Type s : JPEGRsImageDecoder E.

(** C2.  A decode call whose header parse succeeds and whose size the
    host rejects ends in the terminal failure an engine error ends in:
    the failure flag is set, and [have_metadata_] is not.  The size is
    not available, the state machine stays in [kInitial], the frame
    cache is untouched, and every later decode call returns the session
    as it is. *)
Theorem size_rejection_is_terminal_failure ics s index only_size r1 e1 :
  reachable ics s ->
  returns_at_once index only_size s = false ->
  decoder_state_ s = kInitial ->
  input_offset_ s < reader_size (data_ (base s)) < 2 ^ size_t_bits ->
  parse_headers (current_engine s) (pending_input s) (IsAllDataReceived s)
  = (r1, e1) ->
  status r1 = Success ->
  size_policy (width (get_basic_info e1)) (height (get_basic_info e1))
  = false ->
  exists s',
    Decode index only_size s = Some s'
    /\ Failed s' = true
    /\ have_metadata_ s' = false
    /\ IsDecodedSizeAvailable s' = false
    /\ decoder_state_ s' = kInitial
    /\ basic_info_ s' = get_basic_info e1
    /\ frames s' = frames s
    /\ (forall index' only_size', Decode index' only_size' s' = Some s').
Proof.
  intros Hr Hret Hk Ho Hp Hst Hsz.
  destruct (Decode_enters_header_stage ics s index only_size Hr Hret Hk Ho)
    as (s1 & -> & Hb & Ho1 & Hk1 & Hm1 & _).
  pose proof (inv_initial _ (reachable_inv _ _ Hr) Hk) as Hm.
  rewrite (Decode_Initial_rejected only_size _ _ _ s1 r1 e1 Hp Hst Hsz).
  eexists. split; [reflexivity|].
  unfold IsDecodedSizeAvailable, frames, Failed. cbn.
  rewrite Hb, Hk1, Hm1, Hm. split_and!; done.
Qed.
End SizeRejection.

Section SizeRejectionExample.
#[local] Existing Instance engine_twice.
#[local] Existing Instance strict_host.

(** C2 at a 2x1 image and a host that takes one pixel at most. *)
Lemma size_rejection_is_terminal_failure_witness :
  let s := session_after engine_twice strict_host [Deliver ten_bytes true] in
  let e1 := set_header_script [result Success 4]
              (jpeg_rs_decoder_create kMaxDecodedPixels) in
  reachable false s
  /\ returns_at_once 0 false s = false
  /\ decoder_state_ s = kInitial
  /\ input_offset_ s < reader_size (data_ (base s)) < 2 ^ size_t_bits
  /\ parse_headers (current_engine s) (pending_input s) (IsAllDataReceived s)
     = (result Success 4, e1)
  /\ size_policy (width (get_basic_info e1)) (height (get_basic_info e1))
     = false
  /\ exists s',
      Decode 0 false s = Some s'
      /\ Failed s' = true
      /\ have_metadata_ s' = false
      /\ IsDecodedSizeAvailable s' = false
      /\ decoder_state_ s' = kInitial
      /\ (forall index' only_size', Decode index' only_size' s' = Some s').
Proof.
  intros s e1.
  assert (Hr : reachable false s).
  { exists [Deliver ten_bytes true]. vm_compute. reflexivity. }
  assert (Hret : returns_at_once 0 false s = false)
    by (vm_compute; reflexivity).
  assert (Hk : decoder_state_ s = kInitial) by (vm_compute; reflexivity).
  assert (Ho : input_offset_ s < reader_size (data_ (base s))
               < 2 ^ size_t_bits) by (split; vm_compute; reflexivity).
  assert (Hp : parse_headers (current_engine s) (pending_input s)
                 (IsAllDataReceived s) = (result Success 4, e1))
    by (vm_compute; reflexivity).
  assert (Hsz : size_policy (width (get_basic_info e1))
                  (height (get_basic_info e1)) = false)
    by (vm_compute; reflexivity).
  split; [exact Hr|]. split; [exact Hret|]. split; [exact Hk|].
  split; [exact Ho|]. split; [exact Hp|]. split; [exact Hsz|].
  destruct (size_rejection_is_terminal_failure false s 0%nat false
              (result Success 4) e1 Hr Hret Hk Ho Hp eq_refl Hsz)
    as (s' & HD & Hf & Hm & Hav & Hk' & _ & _ & Habs).
  exists s'. split; [exact HD|]. split; [exact Hf|]. split; [exact Hm|].
  split; [exact Hav|]. split; [exact Hk'|]. exact Habs.
Defined.

(** The same session when the host asks twice: the second call finds
    the session failed, so the header is parsed once and the basic info
    is read once. *)
Lemma size_rejection_stops_the_session :
  let s := session_after engine_twice strict_host
             [Deliver ten_bytes false; CallDecode 0; CallDecode 0] in
  reachable false s
  /\ Failed s = true
  /\ count is_parse_headers (calls_ s) = 1%nat
  /\ count is_get_basic_info (calls_ s) = 1%nat
  /\ have_metadata_ s = false.
Proof.
  intros s. split.
  - exists [Deliver ten_bytes false; CallDecode 0; CallDecode 0].
    vm_compute. reflexivity.
  - split_and!; vm_compute; reflexivity.
Qed.
End SizeRejectionExample.

(** ** The metadata block runs once *)

Section MetadataOnce.
Context {E : Type} {engine : JpegRsEngine E} {host : HostPolicy}.
Implicit Type s : JPEGRsImageDecoder E.

(** With the metadata extracted, no call clears the flag. *)
Lemma metadata_flag_kept s index only_size s' :
  session_inv s -> have_metadata_ s = true ->
  Decode index only_size s = Some s' ->
  have_metadata_ s' = true.
Proof.
  intros Hi Hm HD.
  assert (Hk : decoder_state_ s <> kInitial).
  { intros Hk. by rewrite (inv_initial _ Hi Hk) in Hm. }
  apply Decode_cases in HD as [[_ ->] | (_ & e & s1 & He & HD)]; [done|].
  apply ensure_decoder_cases in He as [[Hd ->]|(Hd & _ & _)].
  2: { by destruct (inv_fresh _ Hi Hd). }
  destruct HD as [[-> _] | (sl & _ & [[Hk' _] | [_ HB]])]; [done|done|].
  apply Decode_HaveBasicInfo_summary in HB as (_ & _ & _ & _ & B4 & _).
  congruence.
Qed.

(** C3.  In every session, however often header parsing has been
    invoked or has succeeded, the metadata block has run at most once:
    [get_basic_info] has been called at most once, [SetSize] has
    accepted at most once, [set_pixel_format] has been called at most
    once and [get_icc_profile] at most once; with [have_metadata_] set,
    [get_basic_info] and [set_pixel_format] have been called exactly
    once each, and without it [set_pixel_format] not at all.  Once
    [have_metadata_] is set the block is not entered again: the state
    machine has left [kInitial], the flag stays set, and a decode call
    makes no call but those of the pixel stage. *)
Theorem metadata_extracted_once ics s :
  reachable ics s ->
  (count is_get_basic_info (calls_ s) <= 1)%nat
  /\ (count is_size_accepted (calls_ s) <= 1)%nat
  /\ (count is_set_pixel_format (calls_ s) <= 1)%nat
  /\ (count is_get_icc_profile (calls_ s) <= 1)%nat
  /\ count is_set_pixel_format (calls_ s)
     = (if have_metadata_ s then 1 else 0)%nat
  /\ (have_metadata_ s = true ->
      count is_get_basic_info (calls_ s) = 1%nat)
  /\ (have_metadata_ s = true <-> decoder_state_ s <> kInitial)
  /\ (have_metadata_ s = true ->
      forall index only_size s',
        Decode index only_size s = Some s' ->
        have_metadata_ s' = true
        /\ exists evs,
            calls_ s' = evs ++ calls_ s
            /\ forallb is_pixel_stage evs = true).
Proof.
  intros Hr. pose proof (reachable_inv _ _ Hr) as Hi.
  pose proof (reachable_failure_facts _ _ Hr) as Hf.
  pose proof (inv_once _ Hi) as H1. pose proof (inv_once_size _ Hi) as H2.
  pose proof (inv_once_icc _ Hi) as H3.
  split_and!.
  - apply (fail_basic_info_once _ Hf).
  - rewrite H2. destruct (have_metadata_ s); lia.
  - rewrite H1. destruct (have_metadata_ s); lia.
  - destruct (have_metadata_ s); lia.
  - done.
  - apply (fail_basic_info_read _ Hf).
  - split.
    + intros Hm Hk. by rewrite (inv_initial _ Hi Hk) in Hm.
    + intros Hk. by destruct (inv_meta _ Hi Hk).
  - intros Hm index only_size s' HD. split.
    + eauto using metadata_flag_kept.
    + eauto using only_pixel_stage_after_metadata.
Qed.
End MetadataOnce.

Section MetadataOnceExample.
#[local] Existing Instance engine_late.
#[local] Existing Instance roomy_host.

(** C3 at a session whose header parse is invoked twice before it
    succeeds: the metadata is extracted once, and a decode call that
    follows makes pixel-stage calls only. *)
Lemma metadata_extracted_once_witness :
  let s := session_after engine_late roomy_host
             [Deliver ten_bytes true; CallDecodeSize; CallDecodeSize] in
  reachable false s
  /\ count is_parse_headers (calls_ s) = 2%nat
  /\ have_metadata_ s = true
  /\ (count is_get_basic_info (calls_ s) <= 1)%nat
  /\ (count is_size_accepted (calls_ s) <= 1)%nat
  /\ (count is_set_pixel_format (calls_ s) <= 1)%nat
  /\ (count is_get_icc_profile (calls_ s) <= 1)%nat
  /\ count is_get_basic_info (calls_ s) = 1%nat
  /\ (forall index only_size s',
        Decode index only_size s = Some s' ->
        have_metadata_ s' = true
        /\ exists evs,
            calls_ s' = evs ++ calls_ s
            /\ forallb is_pixel_stage evs = true).
Proof.
  intros s.
  assert (Hr : reachable false s).
  { exists [Deliver ten_bytes true; CallDecodeSize; CallDecodeSize].
    vm_compute. reflexivity. }
  assert (Hm : have_metadata_ s = true) by (vm_compute; reflexivity).
  destruct (metadata_extracted_once false s Hr)
    as (H0 & H1 & H2 & H3 & _ & H4 & _ & H5).
  split; [exact Hr|]. split; [vm_compute; reflexivity|].
  split; [exact Hm|]. split; [exact H0|]. split; [exact H1|].
  split; [exact H2|]. split; [exact H3|]. split; [exact (H4 Hm)|].
  exact (H5 Hm).
Defined.
End MetadataOnceExample.
